(* ===== verification/_CoqProject ===== *)
-Q . S2P
Prelude.v
Json.v
Workflow.v
PerfectWorkflow.v
Scraper.v
Fetch.v
Regex.v
Sanitizer.v
Paths.v
Lifecycle.v
Execution.v
Runs.v
Ingest.v
Extraction.v
Batch.v
Jitter.v
