(* ===== verification/Prelude.v ===== *)
(** * KRONOS-OUTREACH: a verification development of the workflow scripts

    The repository builds n8n workflow documents with two Python scripts
    and cleans secrets out of the workspace with a third:

    - [src/execution/perfect_workflow.py] loads the legacy workflow
      document, appends seven nodes (an error trigger, an Airtable
      "failed" update, a Supabase lock release, a config fetch, a batch
      splitter, a lead lock and a randomized wait), sets six connections,
      rewires the first output of three legacy nodes, replaces two agent
      prompts and dumps the result;
    - [src/execution/build_scraper_workflow.py] builds the five-node
      scraper workflow (schedule, user-agent code, HTTP fetch, AI parser,
      Supabase upsert) and dumps it;
    - [src/scripts/sanitize_secrets.py] redacts values matched by two
      regular expressions in every text file of the workspace, keeping a
      [.bak] copy of each file it rewrites.

    The documents are data for the n8n runtime: the behaviour the
    specification asks for (claiming leads, compensation after an error,
    priority classification) is what n8n does with these nodes.

    ** Files

    - [Prelude.v] (this file): the Python error model shared by all
      scripts: [exn] (KeyError, IndexError, TypeError, AttributeError),
      the result type [res] with its bind notation [x <- c ;; k] in
      [py_scope], the hint database [kronos], the tactic [res_inv], and
      generic lemmas on [res], strings and lists.
    - [Json.v]: JSON values as Python holds them after [json.load]
      ([json]: dicts as insertion-ordered association lists), with
      Python's subscript read [getitem] and write [setitem], nested
      assignment [set_path] ([a[k1]...[kn][k] = v]), [in], iteration,
      [.append] and truthiness, each raising what CPython raises.
    - [Workflow.v]: the n8n document view: node names, the connection
      map ([{"main": [[{"node": ..}]]}]), its edges, [dangling] edges
      (an end that is not a node) and [orphans] (a connection key that
      is not a node), with their characterisations.
    - [PerfectWorkflow.v], Module [Perfect]: [perfect_workflow.py]. The
      module-level statements are the list [perfect_body] of [pstmt]s
      ([AddNode], [Lookup], [SetConn], [Rewire], [SetPrompt], [Save]),
      executed by [exec]/[run_stmts] on a [state] (the [workflow] dict,
      the printed lines, the dumped document). [get_node] is
      [find_node] over [workflow['nodes']] returning the position of
      the node it finds (the object the script later mutates);
      [add_node], [rewire] (the [if 'X' in workflow['connections']]
      guard) and [set_prompt] (the [if sms_agent:] guard and the nested
      assignment) follow the source line by line. The [uuid4] values
      are the record [uuids]; the legacy document is an argument.
    - [Scraper.v], Module [Scraper]: [build_scraper_workflow.py] as
      [build_scraper], and the n8n evaluation of the upsert's column
      expressions on an item of the parser's output ([upsert_row],
      [status_of]), with JavaScript's [ToNumber] on strings
      ([string_to_number], rounding to binary64 by [to_binary64]) and
      [>] ([js_gt]) as ECMAScript defines them.
    - [Fetch.v], Module [Fetch]: how n8n runs the scraper's HTTP fetch
      node (a library model): retries only through the node-level
      [retryOnFail], [maxTries] (clamped to 2-5) and [waitBetweenTries]
      (clamped to 0-5000 ms) ([max_tries], [wait_between]), the try loop
      [try_loop]/[run_node] over a transport (a function from the try
      number to a page or a failure), and the headers the HTTP Request
      node sends ([sent_headers]: only with [sendHeaders]); the spec 6
      contract is the relation [fetch_spec].
    - [Regex.v], Module [Regex]: the part of Python's [re] the sanitizer
      uses: [regex] (classes, alternation, greedy and lazy repeats of a
      class, [^]/[$] under [re.M], groups), the backtracking matcher [m]
      in continuation-passing style with [sre]'s priority order,
      [match_at], and [re.subn] as [subn_go]/[subn]. It models the
      library, not repository code.
    - [Sanitizer.v], Module [Sanitizer]: [sanitize_secrets.py]:
      [KEY_PATTERN] and [ENV_PATTERN] written as [regex] values from the
      pattern text, [_repl] ([key_repl]), [redact_text], [is_text_file]
      (with [PurePath.suffix]), and [main] as a fold of the loop body
      [process] over the paths [rglob] yields, on a map from paths to
      contents ([run_state]), with its printed [report].
    - [Paths.v], Module [Paths]: the scripts' module-level paths:
      [posixpath]'s [normpath], [join], [dirname], [abspath] and
      pathlib's [parents[1]] and [relative_to] on character lists, the
      working directory an argument; [base_dir], [perfect_input_path],
      [perfect_output_path], [scraper_output_path] (the builders'
      [BASE_DIR] and file names) and [sanitizer_root] ([ROOT]).
    - [Lifecycle.v], Module [Lifecycle]: what n8n does at run time with
      the lock and release nodes of the patched document. A Supabase
      [update] node is run by [node_claim]/[run_update], which read the
      columns and the filter conditions ([conds_hold] on
      [filters.conditions] and [matchType]) from the node's JSON and
      write the columns into the lead's row of a [store] ([gmap] of
      [lead] records with the spec's [status]) when the row meets the
      conditions; [node_claim] is [None] when no row is updated. The
      spec's conditional [tryClaim] is [try_claim], equal to the lock
      node filtered on the eligible statuses ([guarded_lock]); the class
      [ClaimProtocol] states what a claim step guarantees. Concurrent
      runs are the step relation [step] (fetch, claim, lost claim, done,
      release) over [sys]; [chain] follows the written connections from
      a node.
    - [Execution.v], Module [Execution]: the n8n rules an execution of
      the written document follows: a parameter starting with [=] is an
      expression, and one that reads a node ([$('N')], [$node["N"]],
      [refs]) that has not run in the execution makes its node fail
      ([can_run]); nodes are looked up by name, the last of a name
      winning ([node_by_name]); a Supabase [update] node writes the lead
      table ([node_effect]); [exec_chain] runs a path and stops at the
      first failing node; [error_execution] is the new execution n8n
      starts from the [Error Trigger] when a run fails.
    - [Runs.v], Module [Runs]: concurrent executions of the written
      document, node by node. A [world] is the lead table and a list of
      executions ([exe]: its lead, its [mode], the nodes it has run);
      [xstep] runs one node of one execution: it needs [can_run], writes
      the table by [node_effect] and moves along [succ], or ends, or the
      node fails and the run continues as its error execution from the
      [Error Trigger], in which a failure stops everything. The
      invariant [exe_ok] is kept by every step.
    - [Ingest.v], Module [Ingest]: the lead table at row level: the
      scraper's upsert ([ingest], [upsert_by] on the node's
      [matchColumn], a NULL key never conflicting) and the lock and
      release updates ([update_where], rows whose [matchColumn] holds
      the key and that meet the node's conditions get its columns), each
      node read from its JSON.
    - [Extraction.v], Module [Extraction]: the extraction agent. The
      spec's output contract (spec 6) is the class [ExtractionContract]
      over an agent (a function from a page to candidates).
    - [Batch.v], Module [Batch]: what n8n does with the script's
      [splitInBatches] node: [sib_execute] is one execution of n8n's
      [SplitInBatchesV3] (its node context [sib_ctx] keeps the items
      still to emit and those fed back; output 0 is "done", output 1
      "loop"), [node_execute] reads [type], [typeVersion] and
      [batchSize] from the node's JSON, and [deliver] routes outputs
      along the written connections. Like [Regex.v], it models a
      library, not repository code.
    - [Jitter.v], Module [Jitter]: the three expressions that draw from
      [Math.random()]: the wait's amount and the scraper trigger's
      interval, parsed from the nodes' JSON ([floor_random_expr]), and
      the rotator's user-agent index, with the array read from the code
      string ([ua_list], [ua_pick]). A draw is [k / 2^53]; its product
      with an integer is rounded to the nearest binary64 ([round64]).

    ** Theorems

    - The patcher (C1-C6): the six connections it sets are in the
      written document whatever the legacy one held (C1); on every
      well-shaped legacy document it raises nothing and writes a
      well-shaped document (C2); the three rewired sources point to the
      inserted node, or have no entry when the legacy one had none (C3);
      a closed legacy graph with the three required nodes stays closed
      (C4); node names are the legacy ones then the seven new ones, and
      the appended nodes are written verbatim (C5), so names collide
      when a legacy name is one of the seven, and without [Check if
      Mobile Number] the wait node's edge dangles; a legacy [Webhook]
      entry with an empty [main] makes line 183 raise IndexError (C6).
      The proofs go through frame lemmas per statement ([exec_*]), an
      abstract interpretation of the connection entries ([transfer]),
      an edge-containment invariant ([conns_within]) and a progress
      argument over [well_shaped_for].
    - The scraper (C7-C10): numeric scores are classified [PRIORITY]
      exactly above 7 (C7; a decimal string is first rounded to
      binary64, [status_of_decimal_strings]); the fetch node, whose
      retry policy is written as [options.retry] and whose [User-Agent]
      lacks [sendHeaders], makes one try and sends no header (C8); an
      item without [LeadScore] is written as [READY_TO_PROCESS]
      although the ingestion relies on the extraction contract, under
      which every row holds a score 1-10 and is classified as spec P3
      says (C9, proved against [ExtractionContract]); the document is
      the five-stage chain, closed and with unique names (C10).
    - The sanitizer (C11-C16): an assignment line [NAME=value] has its
      value redacted to the end of its line, the spaces after [=]
      included, so an empty value redacts the next line (C11); a JSON
      entry has its value redacted (C12) but only up to the first quote
      of either kind, leaking the rest (C13); [main] keeps the original
      in [.bak] (C14); [changed] is true on an already redacted text
      (C15), so a second run overwrites that backup with the redacted
      text in every order [rglob] can list the file and its backup
      (C16); names outside the lists are not redacted
      ([uncovered_names_kept]). The proofs evaluate the matcher on text
      with symbolic parts ([env_match], [key_match]) through the lemmas
      [first_of_top] (greedy) and [first_of_lazy] (lazy) on the
      repeat's candidate lengths.
    - The lead lifecycle (C17-C20): the lock node states no filter, so
      it writes [IN_PROGRESS] over any status and is no
      [ClaimProtocol], while the lock filtered on the eligible statuses
      is [try_claim] and is one (C17); with the written lock two
      concurrent runs hold one lead, with the filtered one no reachable
      state does, as every [ClaimProtocol] keeps mutual exclusion
      ([protocol_mutex], by rule induction on [step]) (C18); the release
      is idempotent but records no error (C19); in the error execution
      the audit node reads [Workflow Configuration1], which has not run
      there, so it fails and the release never runs (C20).
    - The randomized wait (C21): 2-5 seconds, uniform over the draws
      (its product with 4 being exact); the trigger interval is 0-59
      minutes, 0 included ([trigger_minute_range]); the user-agent index
      is always in range ([ua_pick_defined]). The bounds hold under
      rounding by the error bound [round64_bounds]; the product with 60
      is not exact ([round64_not_exact]).
    - The prompt replacement (C22): the SMS prompt goes to [AI Agent]
      and the email prompt to [Email AI Agent]; the first legacy node
      of that name keeps its position and name and carries the new
      system prompt in the written document, the message printed.
    - The batch node (C23): as wired, its first execution sends the
      first 50 leads to the unconnected "loop" output and nothing to
      [Split Leads1], so no lead reaches the lock.
    - The node shape and the node search (C24-C25): if the legacy nodes
      have n8n's node shape ([node_typed]: the [INode] fields), so do
      all written nodes (C24, by the statement invariant
      [exec_nodes_inv]); [get_node] returns the reference result
      [first_named] exactly when the nodes it reads ([scanned]) all have
      a name, and raises otherwise (C25).
    - The paths ([script_paths]): run from any directory by absolute
      path, or from the repository by relative path, the builders read
      and write in [src], which is the sanitizer's [ROOT], so its walk
      reaches the three documents as text files.
    - The lead table (C26-C27): the upsert matches on [url] but its
      rows never hold [url], so every item appends a row and the upsert
      is not idempotent, although [upsert_by] is idempotent on rows that
      hold their key (C26); no ingested row holds [airtable_id], so the
      lock and release leave every ingested row unchanged (C27).
    - No lease is ever given back (C28, spec P2): running the written
      lock makes its lead [IN_PROGRESS], and, for any legacy document
      whose nodes do not write the table and whose connections do not
      enter the error path, every interleaving of any number of
      executions ([rtc xstep]) keeps every [IN_PROGRESS] lead
      [IN_PROGRESS]: the invariant [exe_ok] (runs stay outside the
      error path; an error execution is at its trigger or at the audit)
      is kept by each step ([xstep_ok]), and the audit can never run.

    ** Bounds and fuel

    The scripts are straight-line code over finite documents, and every
    recursion (over a list, a JSON value, a string, a pattern) is
    structural, except [re.subn]'s scan. [subn_go] takes fuel, and
    [subn] gives it one unit per character plus one for the end of the
    text, which [subn_fuel_enough] shows is enough (each step consumes a
    character or ends). Numbers of the documents are JSON numbers
    ([Q]). The machine arithmetic is JavaScript's binary64: the product
    in the randomized expressions, modelled bit-exactly for draws
    [k < 2^53] ([round64]: 53 significant bits, ties to even; the
    products stay far above the subnormal range), and the conversion of
    a decimal string by [ToNumber] ([to_binary64]: nearest binary64,
    ties to even, subnormals and overflow to an infinity included).

    ** Not modelled

    [open] and the JSON text encoding ([json.load] gives the argument
    document, [json.dump] records the document in [written]); symbolic
    links ([resolve] is taken as [abspath]); [uuid4] (its values are
    arguments); [Math.random()]'s generator (any 53-bit draw is
    allowed). Of the n8n runtime, only what the theorems need is
    modelled: the Supabase update and upsert nodes, the error execution
    (expression references, stop on failure), [splitInBatches] and the
    randomized expressions. Not modelled: the Wait node's suspension,
    the language model behind the agents (only its contract is), HTTP,
    the Airtable audit table, the run configuration row, and the
    processing between lock and resolution, which runs in legacy nodes
    the script does not write. The Supabase nodes are given the meaning
    their JSON states (table, match column, column values, filter
    conditions [eq]/[neq] on text) without checking that n8n's Supabase
    node reads those parameter names; the
    retry rule and the [sendHeaders] rule of [Fetch.v] are those of
    n8n's workflow executor and HTTP Request node (version 4), stated in
    that file's header.
    Strings are ASCII, so [re.I]'s Unicode case folding and [\s] beyond
    ASCII are not covered. In [main]: I/O errors other than a missing
    file, and files created during the walk that [rglob] may or may not
    list (the listing is taken as given; the only files [main] creates
    are backups in directories already listed).

    ** Plan

    The error path is stated over whole executions (C28); the sanitizer's
    walk is taken as the list [rglob] yields (see Not modelled).
    *)

From Stdlib Require Import ZArith QArith.
From stdpp Require Import base list sets strings.

#[local] Set Warnings "-clear-no-such-hyp".

Declare Scope py_scope.
Delimit Scope py_scope with py.
Open Scope py_scope.

(** ** Python exceptions

    The scripts under [src/] are straight-line Python over [dict]s and
    [list]s; the only ways they fail are the exceptions raised by
    subscripting, [in], iteration and [.append] on a value of the wrong
    shape. *)
(** A subscript: [d["k"]] or [l[i]]. *)
Inductive index : Type :=
  | IKey (k : string)
  | IIdx (i : nat).

Inductive exn : Type :=
  | KeyError (k : index)         (** [d[k]] on a dict without key [k] *)
  | IndexError                   (** [l[i]] with [i] out of range *)
  | TypeError                    (** subscript, [in] or iteration on the wrong type *)
  | AttributeError (a : string). (** [x.append] on a non-list *)

(** A computation that returns an [A] or raises. *)
Inductive res (A : Type) : Type :=
  | Ok (a : A)
  | Raise (e : exn).
Arguments Ok {A} a.
Arguments Raise {A} e.

Definition res_bind {A B} (c : res A) (k : A -> res B) : res B :=
  match c with
  | Ok a => k a
  | Raise e => Raise e
  end.

Definition res_map {A B} (f : A -> B) (c : res A) : res B :=
  res_bind c (fun a => Ok (f a)).

Notation "x <- c ;; k" := (res_bind c (fun x => k))
  (at level 100, c at next level, right associativity) : py_scope.

(** [res_ok c] holds when [c] does not raise. *)
Definition res_ok {A} (c : res A) : bool :=
  match c with Ok _ => true | Raise _ => false end.

(** ** Generic lemmas on [res] *)

Lemma res_bind_Ok {A B} (a : A) (k : A -> res B) : res_bind (Ok a) k = k a.
Proof. reflexivity. Qed.

Lemma res_bind_Raise {A B} e (k : A -> res B) : res_bind (Raise e) k = Raise e.
Proof. reflexivity. Qed.

Lemma res_bind_eq_Ok {A B} (c : res A) (k : A -> res B) b :
  res_bind c k = Ok b <-> exists a, c = Ok a /\ k a = Ok b.
Proof.
  destruct c as [a|e']; simpl; split.
  - eauto.
  - by intros (? & [= <-] & ?).
  - done.
  - by intros (? & ? & ?).
Qed.

Lemma res_bind_eq_Raise {A B} (c : res A) (k : A -> res B) e :
  res_bind c k = Raise e <-> c = Raise e \/ exists a, c = Ok a /\ k a = Raise e.
Proof.
  destruct c as [a|e']; simpl; split.
  - eauto.
  - by intros [? | (? & [= <-] & ?)].
  - intros [= ->]; auto.
  - intros [? | (? & ? & ?)]; congruence.
Qed.

Lemma res_bind_assoc {A B C} (c : res A) (k1 : A -> res B) (k2 : B -> res C) :
  res_bind (res_bind c k1) k2 = res_bind c (fun a => res_bind (k1 a) k2).
Proof. by destruct c. Qed.

Lemma res_bind_ext {A B} (c : res A) (k1 k2 : A -> res B) :
  (forall a, c = Ok a -> k1 a = k2 a) -> res_bind c k1 = res_bind c k2.
Proof. destruct c; simpl; auto. Qed.

Create HintDb kronos discriminated.
Create Rewrite HintDb kronos.
#[export] Hint Rewrite @res_bind_Ok @res_bind_Raise @res_bind_assoc : kronos.

(** [res_inv] takes apart hypotheses [res_bind c k = Ok b]. *)
Ltac res_inv :=
  repeat match goal with
  | H : res_bind _ _ = Ok _ |- _ =>
      apply res_bind_eq_Ok in H; destruct H as (? & ? & H)
  | H : Ok _ = Ok _ |- _ => injection H as H
  | H : Raise _ = Ok _ |- _ => discriminate H
  | H : Ok _ = Raise _ |- _ => discriminate H
  end.

(** ** Strings

    [dq] is the double-quote character: the literal strings of the
    scripts that contain a double quote are written with it. [nl] is a
    newline. *)
Definition dq : string := String (Ascii.ascii_of_nat 34) EmptyString.
Definition nl : string := String (Ascii.ascii_of_nat 10) EmptyString.

(** Python's [==] on two [str] values. *)
Definition str_eqb (s t : string) : bool := bool_decide (s = t).

Lemma str_eqb_true s t : str_eqb s t = true <-> s = t.
Proof. apply bool_decide_eq_true. Qed.

Lemma str_eqb_false s t : str_eqb s t = false <-> s <> t.
Proof. apply bool_decide_eq_false. Qed.

Lemma str_eqb_refl s : str_eqb s s = true.
Proof. by apply str_eqb_true. Qed.
#[export] Hint Rewrite str_eqb_refl : kronos.

(** ** Lists *)

Lemma NoDup_app_single {A} (l : list A) (x : A) :
  NoDup l -> x ∉ l -> NoDup (l ++ [x]).
Proof.
  intros Hl Hx. apply NoDup_app; repeat split; [done | | apply NoDup_singleton].
  intros y Hy ->%list_elem_of_singleton. done.
Qed.

Lemma omap_insert_same {A B} (f : A -> option B) (l : list A) i x y :
  l !! i = Some x -> f y = f x -> omap f (<[i:=y]> l) = omap f l.
Proof.
  revert i. induction l as [|a l IH]; intros [|i] Hi Hf; simpl in *; try done.
  - injection Hi as ->. by rewrite Hf.
  - by rewrite IH.
Qed.

Lemma elem_of_list_insert_inv {A} (l : list A) i x y :
  y ∈ <[i:=x]> l -> y = x \/ y ∈ l.
Proof.
  revert i. induction l as [|a l IH]; intros [|i] H; simpl in H; [set_solver | set_solver | |].
  - apply elem_of_cons in H as [-> | H]; [by left | right; by apply elem_of_cons; right].
  - apply elem_of_cons in H as [-> | H]; [right; by apply elem_of_cons; left |].
    destruct (IH i H); [by left | right; by apply elem_of_cons; right].
Qed.

Lemma nil_of_no_elem {A} (l : list A) : (forall x, x ∉ l) -> l = [].
Proof. destruct l as [|a l]; [done |]. intros H. exfalso. apply (H a). apply elem_of_cons. by left. Qed.

(** [in_list] proves [x ∈ [a; b; ...]] for a concrete list. *)
Ltac in_list :=
  solve [repeat (first [apply elem_of_cons; left; reflexivity | apply elem_of_cons; right])].

Lemma list_ascii_of_string_app s t :
  String.list_ascii_of_string (s +:+ t) = String.list_ascii_of_string s ++ String.list_ascii_of_string t.
Proof. induction s as [|c s IH]; simpl; [done | by rewrite IH]. Qed.

Lemma string_app_inj_r s1 s2 t : s1 +:+ t = s2 +:+ t -> s1 = s2.
Proof.
  intros H. apply (f_equal String.list_ascii_of_string) in H. rewrite !list_ascii_of_string_app in H.
  apply app_inv_tail in H.
  by rewrite <- (String.string_of_list_ascii_of_string s1), H, String.string_of_list_ascii_of_string.
Qed.

