(* ===== verification/Json.v ===== *)
(** * Json: the values the scripts manipulate, and Python's operations on them

    [perfect_workflow.py] loads a workflow with [json.load], mutates the
    resulting [dict]/[list] tree in place and writes it back with
    [json.dump]; [build_scraper_workflow.py] builds such a tree from
    literals. This file models the tree ([json]) and the Python
    operations the scripts apply to it: subscript ([getitem]), subscript
    assignment ([setitem], and [set_path] for [a[k1]...[kn] = v]),
    membership ([py_in]), iteration ([py_iter]), [list.append]
    ([py_append]) and truthiness ([truthy]), each raising the exception
    CPython raises on a value of the wrong shape.

    A dict is an insertion-ordered association list with string keys (the
    only keys [json.load] produces); [d[k] = v] replaces the value in
    place when [k] is present and appends the pair otherwise, as CPython's
    dict does. The tree is never shared: every subtree the scripts mutate
    was reached by subscripting from the root, so updating by rebuilding
    the path is the same as mutating in place. *)

From Stdlib Require Import ZArith QArith.
From stdpp Require Import base list sets strings pretty.
From S2P Require Import Prelude.

#[local] Set Warnings "-register-all -clear-no-such-hyp".

Inductive json : Type :=
  | JNull
  | JBool (b : bool)
  | JNum (q : Q)
  | JStr (s : string)
  | JArr (l : list json)
  | JObj (kv : list (string * json)).

(** Integer and decimal literals such as [7500] and [2.1]. *)
Definition jint (z : Z) : json := JNum (inject_Z z).
Definition jdec (m : Z) (d : positive) : json := JNum (Qmake m d).

(** ** Dicts *)

Fixpoint dict_get (kv : list (string * json)) (k : string) : option json :=
  match kv with
  | [] => None
  | (k', v) :: kv' => if str_eqb k' k then Some v else dict_get kv' k
  end.

(** [d[k] = v] *)
Fixpoint dict_set (kv : list (string * json)) (k : string) (v : json)
    : list (string * json) :=
  match kv with
  | [] => [(k, v)]
  | (k', v') :: kv' =>
      if str_eqb k' k then (k', v) :: kv' else (k', v') :: dict_set kv' k v
  end.

Definition dict_keys (kv : list (string * json)) : list string := map fst kv.

(** ** Subscript, assignment, membership, iteration *)

(** [j[i]] *)
Definition getitem (j : json) (i : index) : res json :=
  match j, i with
  | JObj kv, IKey k =>
      match dict_get kv k with Some v => Ok v | None => Raise (KeyError i) end
  | JObj _, IIdx _ => Raise (KeyError i)
  | JArr l, IIdx n =>
      match l !! n with Some v => Ok v | None => Raise IndexError end
  | JStr s, IIdx n =>
      match String.get n s with
      | Some c => Ok (JStr (String c EmptyString))
      | None => Raise IndexError
      end
  | _, _ => Raise TypeError
  end.

(** [j[i] = v]. An integer key assigned into a dict is stored under its
    decimal spelling, which is what [json.dump] writes for it; the scripts
    never read such a key back. A list assignment out of range raises. *)
Definition setitem (j : json) (i : index) (v : json) : res json :=
  match j, i with
  | JObj kv, IKey k => Ok (JObj (dict_set kv k v))
  | JObj kv, IIdx n => Ok (JObj (dict_set kv (pretty (N.of_nat n)) v))
  | JArr l, IIdx n =>
      if decide (n < length l) then Ok (JArr (<[n:=v]> l)) else Raise IndexError
  | _, _ => Raise TypeError
  end.

(** [j[p1]...[pn]] *)
Fixpoint get_path (j : json) (p : list index) : res json :=
  match p with
  | [] => Ok j
  | i :: p' => c <- getitem j i ;; get_path c p'
  end.

(** [j[p1]...[pn][i] = v]: the path is read first, then the last
    subscript is assigned. *)
Fixpoint set_path (j : json) (p : list index) (i : index) (v : json) : res json :=
  match p with
  | [] => setitem j i v
  | i0 :: p' =>
      c <- getitem j i0 ;;
      c' <- set_path c p' i v ;;
      setitem j i0 c'
  end.

(** Python's [==] between the string [k] and a JSON value: only a
    string can be equal to a string. *)
Definition is_str (k : string) (j : json) : bool :=
  match j with JStr s => str_eqb s k | _ => false end.

(** [k in j] for a string [k]: key membership on a dict, element
    equality on a list, substring test on a string. *)
Definition py_in (k : string) (j : json) : res bool :=
  match j with
  | JObj kv => Ok (bool_decide (k ∈ dict_keys kv))
  | JArr l => Ok (existsb (is_str k) l)
  | JStr s => Ok (if String.index 0 k s is Some _ then true else false)
  | _ => Raise TypeError
  end.

(** [for x in j]: a dict iterates over its keys, a string over its
    one-character substrings. *)
Definition py_iter (j : json) : res (list json) :=
  match j with
  | JArr l => Ok l
  | JObj kv => Ok (map (fun p => JStr p.1) kv)
  | JStr s => Ok (map (fun c => JStr (String c EmptyString)) (String.list_ascii_of_string s))
  | _ => Raise TypeError
  end.

(** [j.append(v)] *)
Definition py_append (j : json) (v : json) : res json :=
  match j with
  | JArr l => Ok (JArr (l ++ [v]))
  | _ => Raise (AttributeError "append")
  end.

(** [bool(j)] *)
Definition truthy (j : json) : bool :=
  match j with
  | JNull => false
  | JBool b => b
  | JNum q => negb (Qeq_bool q 0)
  | JStr s => negb (str_eqb s "")
  | JArr l => negb (bool_decide (l = []))
  | JObj kv => negb (bool_decide (kv = []))
  end.

(** ** Dict lemmas *)

Lemma dict_get_set_eq kv k v : dict_get (dict_set kv k v) k = Some v.
Proof.
  induction kv as [|[k' v'] kv IH]; simpl; [by rewrite str_eqb_refl |].
  destruct (str_eqb k' k) eqn:E; simpl; rewrite E; done.
Qed.

Lemma dict_get_set_ne kv k k' v :
  k <> k' -> dict_get (dict_set kv k v) k' = dict_get kv k'.
Proof.
  intros Hne. induction kv as [|[k0 v0] kv IH]; simpl.
  - by rewrite (proj2 (str_eqb_false k k') Hne).
  - destruct (str_eqb k0 k) eqn:E; simpl.
    + apply str_eqb_true in E as ->. by rewrite (proj2 (str_eqb_false _ _) Hne).
    + by destruct (str_eqb k0 k').
Qed.

Lemma dict_get_None kv k : dict_get kv k = None <-> k ∉ dict_keys kv.
Proof.
  induction kv as [|[k' v'] kv IH]; simpl; [split; [set_solver | done] |].
  rewrite elem_of_cons. destruct (str_eqb k' k) eqn:E.
  - apply str_eqb_true in E as ->. split; [done | set_solver].
  - apply str_eqb_false in E. rewrite IH. set_solver.
Qed.

Lemma dict_get_Some_elem kv k v : dict_get kv k = Some v -> k ∈ dict_keys kv.
Proof.
  intros H. destruct (decide (k ∈ dict_keys kv)) as [|Hn]; [done |].
  apply dict_get_None in Hn. congruence.
Qed.

Lemma dict_keys_set_elem kv k v :
  k ∈ dict_keys kv -> dict_keys (dict_set kv k v) = dict_keys kv.
Proof.
  induction kv as [|[k' v'] kv IH]; simpl; [set_solver |].
  rewrite elem_of_cons. destruct (str_eqb k' k) eqn:E; simpl; [done |].
  apply str_eqb_false in E. intros [-> | Hk]; [done |]. by rewrite IH.
Qed.

Lemma dict_keys_set_not_elem kv k v :
  k ∉ dict_keys kv -> dict_keys (dict_set kv k v) = dict_keys kv ++ [k].
Proof.
  induction kv as [|[k' v'] kv IH]; simpl; [done |].
  rewrite elem_of_cons. destruct (str_eqb k' k) eqn:E; simpl.
  - apply str_eqb_true in E as ->. set_solver.
  - intros Hk. rewrite IH; set_solver.
Qed.

(** Every entry of [d] after [d[k] = v] is the new entry or an old one. *)
Lemma dict_set_entry kv k v k' v' :
  (k', v') ∈ dict_set kv k v -> (k' = k /\ v' = v) \/ (k', v') ∈ kv.
Proof.
  induction kv as [|[k0 v0] kv IH]; simpl; [set_solver |].
  destruct (str_eqb k0 k) eqn:E.
  - apply str_eqb_true in E as ->. set_solver.
  - rewrite !elem_of_cons. intros [? | ?]; [by right; left | naive_solver].
Qed.

(** Entries under other keys are kept. *)
Lemma dict_set_entry_keep kv k v k' v' :
  k' <> k -> (k', v') ∈ kv -> (k', v') ∈ dict_set kv k v.
Proof.
  intros Hne. induction kv as [|[k0 v0] kv IH]; simpl; [set_solver |].
  rewrite !elem_of_cons. destruct (str_eqb k0 k) eqn:E.
  - apply str_eqb_true in E as ->. rewrite elem_of_cons. naive_solver.
  - rewrite elem_of_cons. naive_solver.
Qed.

Lemma dict_get_elem kv k v : dict_get kv k = Some v -> (k, v) ∈ kv.
Proof.
  induction kv as [|[k' v'] kv IH]; simpl; [done |].
  destruct (str_eqb k' k) eqn:E; rewrite elem_of_cons.
  - apply str_eqb_true in E as ->. intros [= ->]. by left.
  - intros H. right. auto.
Qed.

#[export] Hint Rewrite dict_get_set_eq : kronos.
#[export] Hint Resolve dict_get_Some_elem dict_get_elem dict_set_entry_keep : kronos.

(** ** Inversion of successful operations *)

Lemma getitem_key_Ok j k c :
  getitem j (IKey k) = Ok c -> exists kv, j = JObj kv /\ dict_get kv k = Some c.
Proof. destruct j; simpl; try discriminate. destruct (dict_get kv k) eqn:E; intros [= <-]; eauto. Qed.

Lemma getitem_idx_Ok j n c :
  getitem j (IIdx n) = Ok c ->
  (exists l, j = JArr l /\ l !! n = Some c) \/ (exists s, j = JStr s).
Proof.
  destruct j as [| | | s | l | kv]; simpl; try discriminate; [eauto |].
  destruct (l !! n) eqn:E; intros [= <-]; eauto.
Qed.

Lemma setitem_key_Ok j k v j' :
  setitem j (IKey k) v = Ok j' -> exists kv, j = JObj kv /\ j' = JObj (dict_set kv k v).
Proof. destruct j; simpl; try discriminate. intros [= <-]; eauto. Qed.

Lemma py_append_Ok j v j' :
  py_append j v = Ok j' -> exists l, j = JArr l /\ j' = JArr (l ++ [v]).
Proof. destruct j; simpl; try discriminate. intros [= <-]; eauto. Qed.

Lemma set_path_cons_Ok j i0 p i v w' :
  set_path j (i0 :: p) i v = Ok w' <->
  exists c c', getitem j i0 = Ok c /\ set_path c p i v = Ok c' /\ setitem j i0 c' = Ok w'.
Proof.
  simpl. rewrite res_bind_eq_Ok. setoid_rewrite res_bind_eq_Ok. naive_solver.
Qed.

(** Assigning back at a subscript that was just read succeeds and reads
    back the assigned value. *)
Lemma getitem_setitem_same j i c c' j' :
  getitem j i = Ok c -> setitem j i c' = Ok j' -> getitem j' i = Ok c'.
Proof.
  intros H1 H2. destruct j as [| | | s | l | kv], i as [k | n];
    simpl in *; try discriminate.
  - destruct (decide (n < length l)); [| discriminate].
    injection H2 as <-. simpl. by rewrite list_lookup_insert_eq.
  - injection H2 as <-. simpl. by rewrite dict_get_set_eq.
Qed.

(** After [j[p1]...[pn][k] = v], reading [j[p1]...[pn][k]] gives [v]. *)
Lemma get_set_path j p k v j' :
  set_path j p (IKey k) v = Ok j' -> get_path j' (p ++ [IKey k]) = Ok v.
Proof.
  revert j j'. induction p as [|i0 p IH]; intros j j' H; simpl.
  - apply setitem_key_Ok in H as (kv & -> & ->). simpl. by rewrite dict_get_set_eq.
  - apply set_path_cons_Ok in H as (c & c' & Hc & Hp & Hs).
    rewrite (getitem_setitem_same j i0 c c' j' Hc Hs). simpl. exact (IH c c' Hp).
Qed.

(** Assigning under key [k] of an object leaves its other keys alone. *)
Lemma set_path_key_frame j k p i v j' k' :
  set_path j (IKey k :: p) i v = Ok j' -> k' <> k ->
  exists kv kv', j = JObj kv /\ j' = JObj kv' /\ dict_get kv' k' = dict_get kv k'.
Proof.
  intros (c & c' & Hc & _ & Hs)%set_path_cons_Ok Hne.
  apply getitem_key_Ok in Hc as (kv & -> & _).
  apply setitem_key_Ok in Hs as (kv0 & [= <-] & ->).
  exists kv, (dict_set kv k c'). repeat split. by apply dict_get_set_ne.
Qed.
