(* ===== verification/Workflow.v ===== *)
(** * Workflow: the n8n workflow document both scripts produce

    An n8n workflow is a JSON object with a ["nodes"] array and a
    ["connections"] object. Each node is an object with a ["name"]; the
    connections object maps a source node's name to an object from
    connection type (["main"], ["ai_languageModel"], ...) to an array of
    outputs, each output an array of targets
    [{"node": <name>, "type": "main", "index": 0}].

    This file gives the read-only view of such a document the theorems
    are stated in: the node names ([node_names]), the successors of a node
    on an output ([succ]), the edge list ([edges]) and the edges whose
    source or target names no node ([dangling]), all executable; and the
    literal connection value [main_conn] that both scripts write. *)

From Stdlib Require Import ZArith QArith.
From stdpp Require Import base list sets strings.
From S2P Require Import Prelude Json.

#[local] Set Warnings "-clear-no-such-hyp".

(** ** Reading a document *)

Definition obj_field (j : json) (k : string) : option json :=
  match j with JObj kv => dict_get kv k | _ => None end.

Definition as_str (j : option json) : option string :=
  match j with Some (JStr s) => Some s | _ => None end.

Definition as_arr (j : option json) : list json :=
  match j with Some (JArr l) => l | _ => [] end.

Definition as_obj (j : option json) : list (string * json) :=
  match j with Some (JObj kv) => kv | _ => [] end.

Definition node_name (n : json) : option string := as_str (obj_field n "name").

Definition wf_nodes (w : json) : list json := as_arr (obj_field w "nodes").
Definition wf_conns (w : json) : list (string * json) := as_obj (obj_field w "connections").

Definition node_names (w : json) : list string := omap node_name (wf_nodes w).

(** The name a connection target points to. *)
Definition target_name (t : json) : option string := as_str (obj_field t "node").

(** The outputs of one connection type, as lists of target names. *)
Definition outputs (ty : json) : list (list string) :=
  (fun o => omap target_name (as_arr (Some o))) <$> as_arr (Some ty).

(** Every target of a source's connections, over all connection types. *)
Definition conn_targets (c : json) : list string :=
  match c with
  | JObj kv => mjoin ((fun p => mjoin (outputs p.2)) <$> kv)
  | _ => []
  end.

(** [succ w src o]: the targets of output [o] of [src]'s ["main"]
    connections. *)
Definition succ (w : json) (src : string) (o : nat) : list string :=
  match dict_get (wf_conns w) src with
  | Some c => default [] (outputs (default JNull (obj_field c "main")) !! o)
  | None => []
  end.

Definition conn_edges (cs : list (string * json)) : list (string * string) :=
  mjoin ((fun p => (fun d => (p.1, d)) <$> conn_targets p.2) <$> cs).

Definition edges (w : json) : list (string * string) := conn_edges (wf_conns w).

(** Edges whose source or target is not the name of a node. *)
Definition dangling (w : json) : list (string * string) :=
  filter (fun e => e.1 ∉ node_names w \/ e.2 ∉ node_names w) (edges w).

(** Connection sources that name no node. *)
Definition orphans (w : json) : list string :=
  filter (fun k => k ∉ node_names w) (dict_keys (wf_conns w)).

(** ** The connection literal both scripts write

    [{"main": [[{"node": t, "type": "main", "index": 0}, ...], ...]}] *)
Definition target (name : string) : json :=
  JObj [("node", JStr name); ("type", JStr "main"); ("index", jint 0)].

Definition main_conn (outs : list (list string)) : json :=
  JObj [("main", JArr ((fun ts => JArr (target <$> ts)) <$> outs))].

(** ** Lemmas *)

Lemma target_name_target s : target_name (target s) = Some s.
Proof. reflexivity. Qed.

Lemma omap_target_name (ts : list string) : omap target_name (target <$> ts) = ts.
Proof. induction ts as [|t ts IH]; simpl; [done | f_equal; exact IH]. Qed.

Lemma outputs_main_conn outs :
  outputs (JArr ((fun ts => JArr (target <$> ts)) <$> outs)) = outs.
Proof.
  unfold outputs. cbn [as_arr].
  induction outs as [|ts outs IH]; [done |].
  cbn [fmap list_fmap]. f_equal; [apply omap_target_name | exact IH].
Qed.

Lemma conn_targets_main_conn outs : conn_targets (main_conn outs) = mjoin outs.
Proof.
  unfold conn_targets, main_conn. cbn -[outputs].
  rewrite outputs_main_conn. apply app_nil_r.
Qed.

Lemma elem_of_outputs l t :
  t ∈ mjoin (outputs (JArr l)) <-> exists o, o ∈ l /\ t ∈ omap target_name (as_arr (Some o)).
Proof.
  unfold outputs; cbn [as_arr]. rewrite list_elem_of_join. split.
  - intros (ts & Ht & (o & -> & Ho)%list_elem_of_fmap). eauto.
  - intros (o & Ho & Ht). eexists; split; [exact Ht |]. apply list_elem_of_fmap. eauto.
Qed.

Lemma elem_of_conn_targets kv t :
  t ∈ conn_targets (JObj kv) <-> exists ty v, (ty, v) ∈ kv /\ t ∈ mjoin (outputs v).
Proof.
  unfold conn_targets. rewrite list_elem_of_join. split.
  - intros (ts & Ht & ([ty v] & -> & Hp)%list_elem_of_fmap). eauto.
  - intros (ty & v & Hp & Ht). eexists; split; [exact Ht |].
    apply list_elem_of_fmap. exists (ty, v). done.
Qed.

Lemma elem_of_conn_edges cs s d :
  (s, d) ∈ conn_edges cs <-> exists c, (s, c) ∈ cs /\ d ∈ conn_targets c.
Proof.
  unfold conn_edges. rewrite list_elem_of_join. split.
  - intros (l & Hl & Hin). apply list_elem_of_fmap in Hin as ([s' c] & -> & Hin).
    apply list_elem_of_fmap in Hl as (d' & [= -> ->] & Hd). eauto.
  - intros (c & Hc & Hd). exists ((fun d => (s, d)) <$> conn_targets c). split.
    + apply list_elem_of_fmap. eauto.
    + apply list_elem_of_fmap. exists (s, c). done.
Qed.

(** Setting connection key [k] to [c]: every edge is from [c] or was
    there before. *)
Lemma conn_edges_set cs k c s d :
  (s, d) ∈ conn_edges (dict_set cs k c) ->
  (s = k /\ d ∈ conn_targets c) \/ (s, d) ∈ conn_edges cs.
Proof.
  rewrite !elem_of_conn_edges. intros (c' & Hc' & Hd).
  apply dict_set_entry in Hc' as [[-> ->] | Hc']; eauto.
Qed.

Lemma elem_of_dangling w s d :
  (s, d) ∈ dangling w <-> (s, d) ∈ edges w /\ (s ∉ node_names w \/ d ∉ node_names w).
Proof. unfold dangling. rewrite list_elem_of_filter. simpl. tauto. Qed.

Lemma elem_of_orphans w k :
  k ∈ orphans w <-> k ∈ dict_keys (wf_conns w) /\ k ∉ node_names w.
Proof. unfold orphans. rewrite list_elem_of_filter. tauto. Qed.

(** No dangling edge and no orphan source: every edge joins two nodes. *)
Lemma closed_iff w :
  dangling w = [] /\ orphans w = [] <->
  (forall a b, (a, b) ∈ edges w -> a ∈ node_names w /\ b ∈ node_names w) /\
  (forall k, k ∈ dict_keys (wf_conns w) -> k ∈ node_names w).
Proof.
  split.
  - intros [Hd Ho]. split.
    + intros a b Hab. destruct (decide (a ∈ node_names w)), (decide (b ∈ node_names w));
        try done; exfalso; eapply not_elem_of_nil; rewrite <- Hd;
        apply elem_of_dangling; eauto.
    + intros k Hk. destruct (decide (k ∈ node_names w)); [done |]. exfalso.
      eapply not_elem_of_nil. rewrite <- Ho. by apply elem_of_orphans.
  - intros [He Hk]. split; apply nil_of_no_elem.
    + intros [a b] [Hab Hn]%elem_of_dangling. specialize (He a b Hab). tauto.
    + intros k [Hk1 Hk2]%elem_of_orphans. auto.
Qed.

Lemma succ_edge w k o t : t ∈ succ w k o -> (k, t) ∈ edges w.
Proof.
  unfold succ, edges. destruct (dict_get (wf_conns w) k) as [c|] eqn:Hc; [| set_solver].
  intros Ht. apply elem_of_conn_edges. exists c. split; [by apply dict_get_elem |].
  destruct (obj_field c "main") as [m|] eqn:Hm; simpl in Ht; [| set_solver].
  destruct (outputs m !! o) as [ts|] eqn:Ho; simpl in Ht; [| set_solver].
  destruct c as [| | | | | ckv]; simpl in Hm; try discriminate.
  apply elem_of_conn_targets. exists "main", m. split; [by apply dict_get_elem |].
  apply list_elem_of_join. exists ts. split; [done |]. by eapply list_elem_of_lookup_2.
Qed.
