(* ===== verification/PerfectWorkflow.v ===== *)
(** * PerfectWorkflow: [src/execution/perfect_workflow.py]

    The script loads the legacy KRONOS workflow, appends seven nodes
    (an error trigger, an Airtable "mark failed" update, a Supabase
    "release lock" update, a Supabase config fetch, a 50-item batch node,
    a Supabase "lock lead" update and a randomized wait), replaces the
    system prompts of the two AI agents, rewires six connections, and
    writes the result.

    The module-level statements are modelled one by one as [stmt]s, state
    transformers that may raise; [perfect_body] lists them in source
    order and [perfect_workflow] runs them from the loaded document. The
    state ([state]) is the global [workflow] object, the lines printed
    and the document written by the final [json.dump]. [get_node] returns
    the index of the node it finds together with the node: the script
    mutates the found node through that reference, which is modelled as an
    update at that index of [workflow['nodes']]. The seven
    [str(uuid.uuid4())] values are an argument ([uuids]). *)

From Stdlib Require Import ZArith QArith.
From stdpp Require Import base list sets strings.
From S2P Require Import Prelude Json Workflow.

#[local] Set Warnings "-clear-no-such-hyp".
Local Open Scope string_scope.

Module Perfect.

(** ** The prompt literals (lines 23-58) *)

Definition SMS_SYSTEM_PROMPT : string :=
  "You are a Senior SMS Strategic Advisor at KRONOS Automations." ++ nl ++
  "We assist Swiss real estate professionals with automated lead responses." ++ nl ++
  nl ++
  "GOAL: Write a short (max 160 chars), personalized SMS." ++ nl ++
  "- Focus: Immediate response and link to the lead gen calendar." ++ nl ++
  "- Tone: Swiss-Standard (Direct, professional, respectful)." ++ nl ++
  "- Response MUST be ONLY JSON: {" ++ dq ++ "smsText" ++ dq ++ ": " ++ dq ++ "..." ++ dq ++ "}".

Definition EMAIL_SYSTEM_PROMPT : string :=
  "You are a Senior Strategic Growth Partner at KRONOS Automations." ++ nl ++
  "We deliver steady lead flow and qualified consultations for elite Swiss real estate firms." ++ nl ++
  nl ++
  "GOAL: Write a short, high-impact executive email (max 4-5 sentences) featuring the official KRONOS pixel-retro branding and LOGO." ++ nl ++
  nl ++
  "CONTENT PROTOCOL:" ++ nl ++
  "1. PUNCHY HOOK: Reference 'company name' and the Swiss real estate market." ++ nl ++
  "2. THE PROPOSITION: Focus on " ++ dq ++ "Steady Sales" ++ dq ++ " and predictable listings via automated lead systems." ++ nl ++
  "3. TONE: Swiss-Efficiency (Ultra-direct, professional, value-first)." ++ nl ++
  nl ++
  "VISUAL BRANDING (KRONOS PIXEL-STYLE):" ++ nl ++
  "- LOGO: You MUST include the following logo at the VERY TOP:" ++ nl ++
  "  <div style=" ++ dq ++ "text-align: center; padding: 20px 0;" ++ dq ++ ">" ++ nl ++
  "    <img src=" ++ dq ++ "https://kronosautomations.it/logo.png" ++ dq ++ " alt=" ++ dq ++ "KRONOS" ++ dq ++ " width=" ++ dq ++ "120" ++ dq ++ " style=" ++ dq ++ "image-rendering: pixelated;" ++ dq ++ ">" ++ nl ++
  "  </div>" ++ nl ++
  "- CONTAINER: max-width 550px; margin: auto; padding: 30px; border: 2px solid #1A1A1A; border-top: 10px solid #FF6B00; font-family: 'Inter', sans-serif;" ++ nl ++
  "- ACCENTS: Use an orange (#FF6B00) pixel-style dotted line for the signature break." ++ nl ++
  "- CTA: An orange (#FF6B00) bolded text link: " ++ dq ++ "Discuss steady lead flow" ++ dq ++ nl ++
  nl ++
  "HTML STRUCTURE:" ++ nl ++
  "- Use <p> only. Keep it clean." ++ nl ++
  "- SIGNATURE: " ++ nl ++
  "  <div style=" ++ dq ++ "border-top: 2px dotted #FF6B00; margin-top: 25px; padding-top: 10px; font-size: 14px;" ++ dq ++ ">" ++ nl ++
  "    <strong>KRONOS Strategic Partner</strong><br>" ++ nl ++
  "    The Standard in Swiss Real Estate Automation" ++ nl ++
  "  </div>" ++ nl ++
  nl ++
  "Response MUST be ONLY JSON: {" ++ dq ++ "subject" ++ dq ++ ": " ++ dq ++ "..." ++ dq ++ ", " ++ dq ++ "emailBody" ++ dq ++ ": " ++ dq ++ "..." ++ dq ++ "}".

(** ** The seven new nodes (lines 62-127, 165-178, 190-201, 217-231, 235-246) *)

Record uuids := {
  id_error_trigger : string;
  id_airtable_fail : string;
  id_supabase_unlock : string;
  id_get_config : string;
  id_batch : string;
  id_lock : string;
  id_wait : string
}.

Definition supabase_cred (name : string) : json :=
  JObj [("supabaseApi", JObj [("id", JStr "YOUR_SUPABASE_CREDENTIAL_ID"); ("name", JStr name)])].

Definition error_trigger (id : string) : json :=
  JObj [("parameters", JObj []);
        ("id", JStr id);
        ("name", JStr "Error Trigger");
        ("type", JStr "n8n-nodes-base.errorTrigger");
        ("typeVersion", jint 1);
        ("position", JArr [jint 500; jint 7500])].

Definition airtable_fail (id : string) : json :=
  JObj [("parameters", JObj [
          ("operation", JStr "update");
          ("base", JStr "={{ $('Workflow Configuration1').first().json.airtableBaseId }}");
          ("table", JStr "={{ $('Workflow Configuration1').first().json.airtableTableId }}");
          ("columns", JObj [
             ("mappingMode", JStr "defineBelow");
             ("value", JObj [
                ("id", JStr ("={{ $node[" ++ dq ++ "Error Trigger" ++ dq ++ "].json.execution.id }}"));
                ("STATUS", JStr "FAILED");
                ("ERROR_LOG", JStr ("={{ $node[" ++ dq ++ "Error Trigger" ++ dq ++ "].json.error.message }}"))]);
             ("matchingColumns", JArr [JStr "id"])])]);
        ("id", JStr id);
        ("name", JStr "Airtable - Mark Failed");
        ("type", JStr "n8n-nodes-base.airtable");
        ("typeVersion", jdec 21 10);
        ("position", JArr [jint 800; jint 7500]);
        ("credentials", JObj [("airtableTokenApi", JObj [
           ("id", JStr "AtP2rrGrxZ5FHBNZ");
           ("name", JStr "Airtable Personal Access Token account")])])].

Definition supabase_unlock (id : string) : json :=
  JObj [("parameters", JObj [
          ("operation", JStr "update");
          ("tableId", JStr "leads");
          ("matchColumn", JStr "airtable_id");
          ("values", JObj [("values", JArr [
             JObj [("column", JStr "status"); ("value", JStr "READY_RETRY")]])])]);
        ("id", JStr id);
        ("name", JStr "Supabase - Release Lock");
        ("type", JStr "n8n-nodes-base.supabase");
        ("typeVersion", jint 1);
        ("position", JArr [jint 1000; jint 7500]);
        ("credentials", supabase_cred "Supabase account")].

Definition get_config (id : string) : json :=
  JObj [("parameters", JObj [
          ("operation", JStr "get");
          ("tableId", JStr "campaign_config");
          ("rowId", JStr "current_prod")]);
        ("id", JStr id);
        ("name", JStr "Fetch Dynamic Config");
        ("type", JStr "n8n-nodes-base.supabase");
        ("typeVersion", jint 1);
        ("position", JArr [jint 1150; jint 6752]);
        ("credentials", supabase_cred "Supabase")].

Definition batch_node (id : string) : json :=
  JObj [("parameters", JObj [("batchSize", jint 50); ("options", JObj [])]);
        ("id", JStr id);
        ("name", JStr "Batch Leads (Volume)");
        ("type", JStr "n8n-nodes-base.splitInBatches");
        ("typeVersion", jint 3);
        ("position", JArr [jint 1600; jint 6752])].

Definition lock_lead (id : string) : json :=
  JObj [("parameters", JObj [
          ("operation", JStr "update");
          ("tableId", JStr "leads");
          ("matchColumn", JStr "airtable_id");
          ("values", JObj [("values", JArr [
             JObj [("column", JStr "status"); ("value", JStr "IN_PROGRESS")]])])]);
        ("id", JStr id);
        ("name", JStr "Lock Lead Status");
        ("type", JStr "n8n-nodes-base.supabase");
        ("typeVersion", jint 1);
        ("position", JArr [jint 1850; jint 6752]);
        ("credentials", supabase_cred "Supabase")].

Definition wait_node (id : string) : json :=
  JObj [("parameters", JObj [
          ("amount", JStr "={{ Math.floor(Math.random() * 4) + 2 }}");
          ("unit", JStr "seconds")]);
        ("id", JStr id);
        ("name", JStr "Anti-Rate Limit Wait");
        ("type", JStr "n8n-nodes-base.wait");
        ("typeVersion", jint 1);
        ("position", JArr [jint 2000; jint 6752])].

(** ** State and statements *)

Record state := mkState {
  workflow : json;          (** the global [workflow] *)
  stdout : list string;     (** lines printed so far *)
  written : option json     (** what [json.dump] wrote to [output_path] *)
}.

Definition set_wf (w : json) (s : state) : state := mkState w (stdout s) (written s).
Definition print (line : string) (s : state) : state :=
  mkState (workflow s) (stdout s ++ [line]) (written s).

Definition stmt := state -> res state.

(** [get_node] (lines 15-16): [next((n for n in workflow['nodes'] if
    n['name'] == name), None)]; the found node is returned with its
    position, the reference the script later mutates through. *)
Fixpoint find_node (name : string) (i : nat) (ns : list json)
    : res (option (nat * json)) :=
  match ns with
  | [] => Ok None
  | n :: ns' =>
      nm <- getitem n (IKey "name") ;;
      if is_str name nm then Ok (Some (i, n)) else find_node name (S i) ns'
  end.

Definition get_node (name : string) (s : state) : res (option (nat * json)) :=
  nodes <- getitem (workflow s) (IKey "nodes") ;;
  ns <- py_iter nodes ;;
  find_node name 0 ns.

(** [add_node] (lines 18-20): append, then return [node['id']]. *)
Definition add_node (node : json) (s : state) : res (json * state) :=
  nodes <- getitem (workflow s) (IKey "nodes") ;;
  nodes' <- py_append nodes node ;;
  w' <- setitem (workflow s) (IKey "nodes") nodes' ;;
  id <- getitem node (IKey "id") ;;
  Ok (id, set_wf w' s).

(** [add_node(n)] as a statement: the returned id is discarded. *)
Definition add_stmt (node : json) : stmt := fun s => res_map snd (add_node node s).

(** [get_node(name)] whose result is never used (lines 158-161, 205). *)
Definition lookup_stmt (name : string) : stmt := fun s =>
  _ <- get_node name s ;; Ok s.

(** [workflow['connections'][k] = v] *)
Definition set_conn (k : string) (v : json) : stmt := fun s =>
  w' <- set_path (workflow s) [IKey "connections"] (IKey k) v ;;
  Ok (set_wf w' s).

(** [if src in workflow['connections']:
        workflow['connections'][src]['main'][0] = v] *)
Definition rewire (src : string) (v : json) : stmt := fun s =>
  conns <- getitem (workflow s) (IKey "connections") ;;
  b <- py_in src conns ;;
  if b then
    w' <- set_path (workflow s) [IKey "connections"; IKey src; IKey "main"] (IIdx 0) v ;;
    Ok (set_wf w' s)
  else Ok s.

(** [agent = get_node(name)
     if agent:
         agent['parameters']['options']['systemMessage'] = prompt
         print(msg)] *)
Definition set_prompt (name prompt msg : string) : stmt := fun s =>
  found <- get_node name s ;;
  match found with
  | Some (i, n) =>
      if truthy n then
        w' <- set_path (workflow s)
                [IKey "nodes"; IIdx i; IKey "parameters"; IKey "options"]
                (IKey "systemMessage") (JStr prompt) ;;
        Ok (print msg (set_wf w' s))
      else Ok s
  | None => Ok s
  end.

(** [json.dump(workflow, f)] then the final [print]. *)
Definition save_stmt (output_path : string) : stmt := fun s =>
  Ok (print ("Perfected KRONOS workflow saved to " ++ output_path)
        (mkState (workflow s) (stdout s) (Some (workflow s)))).

(** The statement forms of the script. *)
Inductive pstmt : Type :=
  | AddNode (node : json)                        (** [add_node(node)] *)
  | Lookup (name : string)                       (** [x = get_node(name)], [x] unused *)
  | SetConn (k : string) (v : json)              (** [workflow['connections'][k] = v] *)
  | Rewire (src : string) (v : json)             (** guarded [...[src]['main'][0] = v] *)
  | SetPrompt (name prompt msg : string)         (** agent prompt replacement *)
  | Save (output_path : string).                 (** [json.dump] and final [print] *)

Definition exec (st : pstmt) : stmt :=
  match st with
  | AddNode n => add_stmt n
  | Lookup name => lookup_stmt name
  | SetConn k v => set_conn k v
  | Rewire src v => rewire src v
  | SetPrompt name prompt msg => set_prompt name prompt msg
  | Save path => save_stmt path
  end.

Fixpoint run_stmts (l : list pstmt) (s : state) : res state :=
  match l with
  | [] => Ok s
  | st :: l' => s' <- exec st s ;; run_stmts l' s'
  end.

(** A one-output ["main"] connection to a single target. *)
Definition link (t : string) : json := main_conn [[t]].

(** ** The script (lines 129-264) *)

Definition perfect_body (ids : uuids) (output_path : string) : list pstmt :=
  [ AddNode (error_trigger (id_error_trigger ids));
    AddNode (airtable_fail (id_airtable_fail ids));
    AddNode (supabase_unlock (id_supabase_unlock ids));
    SetConn "Error Trigger" (link "Airtable - Mark Failed");
    SetConn "Airtable - Mark Failed" (link "Supabase - Release Lock");
    SetPrompt "AI Agent" SMS_SYSTEM_PROMPT "Perfected SMS AI Agent Prompt";
    SetPrompt "Email AI Agent" EMAIL_SYSTEM_PROMPT "Perfected Email AI Agent Prompt";
    Lookup "Webhook";
    Lookup "Workflow Configuration1";
    Lookup "Split Leads1";
    Lookup "Check if Mobile Number";
    AddNode (get_config (id_get_config ids));
    Rewire "Webhook" (JArr [target "Fetch Dynamic Config"]);
    SetConn "Fetch Dynamic Config" (link "Workflow Configuration1");
    AddNode (batch_node (id_batch ids));
    Lookup "Get Leads from Airtable1";
    Rewire "Get Leads from Airtable1" (JArr [target "Batch Leads (Volume)"]);
    SetConn "Batch Leads (Volume)" (link "Split Leads1");
    AddNode (lock_lead (id_lock ids));
    AddNode (wait_node (id_wait ids));
    Rewire "Split Leads1" (JArr [target "Lock Lead Status"]);
    SetConn "Lock Lead Status" (link "Anti-Rate Limit Wait");
    SetConn "Anti-Rate Limit Wait" (link "Check if Mobile Number");
    Save output_path ].

Definition perfect_workflow (ids : uuids) (output_path : string) (legacy : json)
    : res state :=
  run_stmts (perfect_body ids output_path) (mkState legacy [] None).

(** The names of the seven appended nodes, in order. *)
Definition new_names : list string :=
  ["Error Trigger"; "Airtable - Mark Failed"; "Supabase - Release Lock";
   "Fetch Dynamic Config"; "Batch Leads (Volume)"; "Lock Lead Status";
   "Anti-Rate Limit Wait"].

(** ** A legacy workflow with the nodes the script expects

    Webhook -> Workflow Configuration1 -> Get Leads from Airtable1 ->
    Split Leads1 -> Check if Mobile Number -> AI Agent -> Email AI Agent. *)
Definition legacy_node (name : string) : json :=
  JObj [("parameters", JObj [("options", JObj [])]); ("id", JStr name); ("name", JStr name);
        ("type", JStr "n8n-nodes-base.noOp"); ("typeVersion", jint 1);
        ("position", JArr [jint 0; jint 0])].

Definition legacy_chain : list string :=
  ["Webhook"; "Workflow Configuration1"; "Get Leads from Airtable1";
   "Split Leads1"; "Check if Mobile Number"; "AI Agent"; "Email AI Agent"].

Fixpoint chain_conns (l : list string) : list (string * json) :=
  match l with
  | a :: (b :: _) as l' => (a, link b) :: chain_conns l'
  | _ => []
  end.

Definition legacy_example : json :=
  JObj [("name", JStr "KRONOS V1");
        ("nodes", JArr (legacy_node <$> legacy_chain));
        ("connections", JObj (chain_conns legacy_chain))].

Definition ids_example : uuids :=
  {| id_error_trigger := "u1"; id_airtable_fail := "u2"; id_supabase_unlock := "u3";
     id_get_config := "u4"; id_batch := "u5"; id_lock := "u6"; id_wait := "u7" |}.

(** The example run, and a legacy document whose [Webhook] has an empty
    ["main"] list. *)
Definition example_state : state :=
  match perfect_workflow ids_example "out.json" legacy_example with
  | Ok s => s
  | Raise _ => mkState JNull [] None
  end.

Definition webhook_no_outputs : json := JObj [("main", JArr [])].

Definition legacy_empty_webhook_conns : list (string * json) :=
  [("Webhook", webhook_no_outputs)].

Definition legacy_empty_webhook : json :=
  JObj [("nodes", JArr [legacy_node "Webhook"]);
        ("connections", JObj legacy_empty_webhook_conns)].



(** The connections the script sets unconditionally (lines 137-142,
    185-187, 210-214, 252-258), as (source, target) pairs. *)
Definition fixed_links : list (string * string) :=
  [("Error Trigger", "Airtable - Mark Failed");
   ("Airtable - Mark Failed", "Supabase - Release Lock");
   ("Fetch Dynamic Config", "Workflow Configuration1");
   ("Batch Leads (Volume)", "Split Leads1");
   ("Lock Lead Status", "Anti-Rate Limit Wait");
   ("Anti-Rate Limit Wait", "Check if Mobile Number")].

(** The connections the script rewires when the source has an entry
    (lines 182-183, 206-207, 249-250). *)
Definition rewired_links : list (string * string) :=
  [("Webhook", "Fetch Dynamic Config");
   ("Get Leads from Airtable1", "Batch Leads (Volume)");
   ("Split Leads1", "Lock Lead Status")].

(** ** Well-shaped documents: when the script does not raise *)

(** The first node of [l] whose ["name"] equals [name], with its index
    offset by [i]: what [get_node] returns when every node has a name. *)
Fixpoint first_named (name : string) (i : nat) (l : list json) : option (nat * json) :=
  match l with
  | [] => None
  | n :: l' =>
      if is_str name (default JNull (obj_field n "name")) then Some (i, n)
      else first_named name (S i) l'
  end.

Definition has_name (n : json) : Prop :=
  exists nkv v, n = JObj nkv /\ dict_get nkv "name" = Some v.

(** [n['parameters']['options']] is a dict. *)
Definition agent_ok (n : json) : Prop :=
  exists nkv pkv okv, n = JObj nkv /\ dict_get nkv "parameters" = Some (JObj pkv) /\
    dict_get pkv "options" = Some (JObj okv).

(** [c['main'][0] = v] succeeds on [c]. *)
Definition main_ok (c : json) : Prop :=
  exists ckv m, c = JObj ckv /\ dict_get ckv "main" = Some m /\
    ((exists mkv, m = JObj mkv) \/ exists o os, m = JArr (o :: os)).

Definition agent_names : list string := ["AI Agent"; "Email AI Agent"].
Definition source_names : list string :=
  ["Webhook"; "Get Leads from Airtable1"; "Split Leads1"].

Definition agents_ok (l : list json) : Prop :=
  forall name i n, name ∈ agent_names -> first_named name 0 l = Some (i, n) -> agent_ok n.

Definition sources_ok (S : list string) (cs : list (string * json)) : Prop :=
  forall src c, src ∈ S -> dict_get cs src = Some c -> main_ok c.

(** A legacy document the script runs on without raising: a dict with a
    ["nodes"] list of named dicts and a ["connections"] dict; the first
    node named [AI Agent] (resp. [Email AI Agent]), if any, has a
    [parameters.options] dict; and the entries of the three rewired
    sources, if present, have a ["main"] that is a dict or a non-empty
    list. [well_shaped_for S] asks the last condition of the sources in
    [S] only. *)
Definition well_shaped_for (S : list string) (w : json) : Prop :=
  exists kv l cs, w = JObj kv /\ dict_get kv "nodes" = Some (JArr l) /\
    dict_get kv "connections" = Some (JObj cs) /\
    Forall has_name l /\ agents_ok l /\ sources_ok S cs.

Definition well_shaped : json -> Prop := well_shaped_for source_names.

(** The side conditions under which one statement keeps a document well
    shaped. *)
Definition stmt_ok (S : list string) (st : pstmt) : Prop :=
  match st with
  | AddNode n =>
      has_name n /\ is_Some (obj_field n "id") /\
      forall name, name ∈ agent_names -> is_str name (default JNull (obj_field n "name")) = false
  | SetConn k _ => k ∉ S
  | Rewire src _ => src ∈ S
  | SetPrompt name _ _ => name ∈ agent_names
  | _ => True
  end.

Local Close Scope string_scope.

(** ** Views of the state *)

Definition nodes_of (s : state) : list json := wf_nodes (workflow s).
Definition conns_of (s : state) : list (string * json) := wf_conns (workflow s).
Definition names_of (s : state) : list string := node_names (workflow s).

(** ** Frame lemmas: what each statement changes *)

Lemma wf_nodes_set_nodes kv v : wf_nodes (JObj (dict_set kv "nodes" v)) = as_arr (Some v).
Proof. unfold wf_nodes; simpl. by rewrite dict_get_set_eq. Qed.

Lemma wf_conns_set_nodes kv v : wf_conns (JObj (dict_set kv "nodes" v)) = wf_conns (JObj kv).
Proof. unfold wf_conns; simpl. by rewrite dict_get_set_ne. Qed.

Lemma wf_nodes_set_conns kv v : wf_nodes (JObj (dict_set kv "connections" v)) = wf_nodes (JObj kv).
Proof. unfold wf_nodes; simpl. by rewrite dict_get_set_ne. Qed.

Lemma wf_conns_set_conns kv v : wf_conns (JObj (dict_set kv "connections" v)) = as_obj (Some v).
Proof. unfold wf_conns; simpl. by rewrite dict_get_set_eq. Qed.

Lemma add_node_Ok n s x :
  add_node n s = Ok x ->
  exists kv l, workflow s = JObj kv /\ dict_get kv "nodes" = Some (JArr l) /\
    x.2 = set_wf (JObj (dict_set kv "nodes" (JArr (l ++ [n])))) s.
Proof.
  unfold add_node. intros H.
  apply res_bind_eq_Ok in H as (nodes & Hn & H).
  apply res_bind_eq_Ok in H as (nodes' & Ha & H).
  apply res_bind_eq_Ok in H as (w' & Hs & H).
  apply res_bind_eq_Ok in H as (id & _ & [= <-]).
  apply getitem_key_Ok in Hn as (kv & Hw & Hn).
  apply py_append_Ok in Ha as (l & -> & ->).
  rewrite Hw in Hs. injection Hs as <-. eauto 10.
Qed.

Lemma exec_AddNode n s s' :
  exec (AddNode n) s = Ok s' ->
  nodes_of s' = nodes_of s ++ [n] /\ conns_of s' = conns_of s.
Proof.
  simpl; unfold add_stmt, res_map. intros H.
  apply res_bind_eq_Ok in H as (x & Hx & [= <-]).
  apply add_node_Ok in Hx as (kv & l & Hw & Hl & ->).
  unfold nodes_of, conns_of; simpl. rewrite Hw, wf_nodes_set_nodes, wf_conns_set_nodes.
  unfold wf_nodes; simpl. by rewrite Hl.
Qed.

Lemma set_conns_Ok s k v s' :
  set_conn k v s = Ok s' ->
  exists kv cs, workflow s = JObj kv /\ dict_get kv "connections" = Some (JObj cs) /\
    s' = set_wf (JObj (dict_set kv "connections" (JObj (dict_set cs k v)))) s.
Proof.
  unfold set_conn. intros H.
  apply res_bind_eq_Ok in H as (w' & Hw' & [= <-]).
  apply set_path_cons_Ok in Hw' as (c & c' & Hc & Hs & Hs').
  apply getitem_key_Ok in Hc as (kv & Hw & Hc).
  apply setitem_key_Ok in Hs as (cs & -> & ->).
  rewrite Hw in Hs'. injection Hs' as <-. eauto 10.
Qed.

Lemma exec_SetConn k v s s' :
  exec (SetConn k v) s = Ok s' ->
  nodes_of s' = nodes_of s /\ conns_of s' = dict_set (conns_of s) k v.
Proof.
  intros (kv & cs & Hw & Hc & ->)%set_conns_Ok.
  unfold nodes_of, conns_of; simpl. rewrite Hw, wf_nodes_set_conns, wf_conns_set_conns.
  unfold wf_conns; simpl. by rewrite Hc.
Qed.

(** The connection value [src] holds after [...[src]['main'][0] = v],
    when the assignment succeeds. *)
Definition rewire_conn (c v : json) : option json :=
  match c with
  | JObj ckv =>
      match dict_get ckv "main" with
      | Some m =>
          match setitem m (IIdx 0) v with
          | Ok m' => Some (JObj (dict_set ckv "main" m'))
          | Raise _ => None
          end
      | None => None
      end
  | _ => None
  end.

Lemma exec_Rewire src v s s' :
  exec (Rewire src v) s = Ok s' ->
  nodes_of s' = nodes_of s /\
  ((s' = s /\ dict_get (conns_of s) src = None) \/
   exists c c', dict_get (conns_of s) src = Some c /\ rewire_conn c v = Some c' /\
     conns_of s' = dict_set (conns_of s) src c').
Proof.
  simpl; unfold rewire. intros H.
  apply res_bind_eq_Ok in H as (conns & Hc & H).
  apply res_bind_eq_Ok in H as (b & Hb & H).
  destruct b; [| injection H as <-; split; [done | left; split; [done |]]].
  2:{ apply getitem_key_Ok in Hc as (kv & Hw & Hkv).
      unfold conns_of, wf_conns, obj_field. rewrite Hw, Hkv.
      destruct conns; simpl in Hb; try discriminate; simpl; [done | done |].
      apply dict_get_None. injection Hb as Hb. by apply bool_decide_eq_false in Hb. }
  apply res_bind_eq_Ok in H as (w' & Hw' & [= <-]).
  apply set_path_cons_Ok in Hw' as (c0 & c0' & Hc0 & Hp & Hs0).
  apply set_path_cons_Ok in Hp as (c & c' & Hc1 & Hp & Hs1).
  apply set_path_cons_Ok in Hp as (m & m' & Hm & Hp & Hs2).
  simpl in Hp.
  apply getitem_key_Ok in Hc0 as (kv & Hw & Hkv).
  apply getitem_key_Ok in Hc1 as (cs & -> & Hcs).
  apply getitem_key_Ok in Hm as (ckv & -> & Hckv).
  apply setitem_key_Ok in Hs2 as (ckv' & [= <-] & ->).
  apply setitem_key_Ok in Hs1 as (cs' & [= <-] & ->).
  rewrite Hw in Hs0. injection Hs0 as <-.
  unfold nodes_of, conns_of; simpl. rewrite Hw, wf_nodes_set_conns, wf_conns_set_conns.
  split; [done |]. right. unfold wf_conns; simpl. rewrite Hkv; simpl.
  exists (JObj ckv), (JObj (dict_set ckv "main" m')).
  split; [done | split; [simpl; by rewrite Hckv, Hp | done]].
Qed.

Lemma set_prompt_Ok name prompt msg s s' :
  set_prompt name prompt msg s = Ok s' ->
  s' = s \/
  exists kv l i n n',
    workflow s = JObj kv /\ dict_get kv "nodes" = Some (JArr l) /\
    l !! i = Some n /\ i < length l /\
    set_path n [IKey "parameters"; IKey "options"] (IKey "systemMessage") (JStr prompt) = Ok n' /\
    s' = print msg (set_wf (JObj (dict_set kv "nodes" (JArr (<[i:=n']> l)))) s).
Proof.
  unfold set_prompt. intros H.
  apply res_bind_eq_Ok in H as (found & _ & H).
  destruct found as [[i n]|]; [| injection H as <-; auto].
  destruct (truthy n); [| injection H as <-; auto]. right.
  apply res_bind_eq_Ok in H as (w' & Hw' & [= <-]).
  apply set_path_cons_Ok in Hw' as (c0 & c0' & Hc0 & Hp & Hs0).
  apply set_path_cons_Ok in Hp as (n0 & n0' & Hn0 & Hp & Hs1).
  apply getitem_key_Ok in Hc0 as (kv & Hw & Hkv).
  apply getitem_idx_Ok in Hn0 as [(l & -> & Hl) | (str & ->)]; [| discriminate].
  simpl in Hs1. destruct (decide (i < length l)) as [Hlt |]; [| discriminate].
  injection Hs1 as <-. rewrite Hw in Hs0. apply setitem_key_Ok in Hs0 as (kv0 & [= <-] & ->).
  exists kv, l, i, n0, n0'. auto 10.
Qed.

Lemma exec_SetPrompt name prompt msg s s' :
  exec (SetPrompt name prompt msg) s = Ok s' ->
  names_of s' = names_of s /\ conns_of s' = conns_of s.
Proof.
  intros [-> | (kv & l & i & n & n' & Hw & Hl & Hi & Hlt & Hp & ->)]%set_prompt_Ok; [done |].
  unfold names_of, conns_of, node_names; simpl.
  rewrite Hw, wf_nodes_set_nodes, wf_conns_set_nodes. split; [| done].
  unfold wf_nodes; simpl. rewrite Hl; simpl.
  apply (omap_insert_same _ _ _ n); [done |].
  destruct (set_path_key_frame _ _ _ _ _ _ "name" Hp) as (nkv & nkv' & -> & -> & E); [done |].
  unfold node_name, obj_field. by rewrite E.
Qed.

Lemma exec_Lookup name s s' : exec (Lookup name) s = Ok s' -> s' = s.
Proof. simpl; unfold lookup_stmt. intros (? & _ & [= <-])%res_bind_eq_Ok. done. Qed.

Lemma exec_Save p s s' :
  exec (Save p) s = Ok s' -> workflow s' = workflow s /\ written s' = Some (workflow s).
Proof. simpl; unfold save_stmt. by intros [= <-]. Qed.

(** ** Abstract interpretation of the statement list *)

Lemma names_of_nodes s : names_of s = omap node_name (nodes_of s).
Proof. reflexivity. Qed.

(** The node names a statement adds. *)
Definition added_names (st : pstmt) : list string :=
  match st with
  | AddNode n => match node_name n with Some x => [x] | None => [] end
  | _ => []
  end.

Lemma exec_names st s s' :
  exec st s = Ok s' -> names_of s' = names_of s ++ added_names st.
Proof.
  rewrite !names_of_nodes. destruct st as [n | | k v | src v | name pr msg | p]; intros H; simpl.
  - apply exec_AddNode in H as [-> _]. rewrite omap_app. simpl. by destruct (node_name n).
  - apply exec_Lookup in H as ->. by rewrite app_nil_r.
  - apply exec_SetConn in H as [-> _]. by rewrite app_nil_r.
  - apply exec_Rewire in H as [-> _]. by rewrite app_nil_r.
  - apply exec_SetPrompt in H as [H _]. rewrite <- !names_of_nodes, H. by rewrite app_nil_r.
  - apply exec_Save in H as [H _]. unfold nodes_of. rewrite H. by rewrite app_nil_r.
Qed.

Lemma run_names l s s' :
  run_stmts l s = Ok s' -> names_of s' = names_of s ++ mjoin (added_names <$> l).
Proof.
  revert s. induction l as [|st l IH]; intros s H; simpl in *.
  - injection H as <-. by rewrite app_nil_r.
  - apply res_bind_eq_Ok in H as (s1 & H1 & H). rewrite (IH _ H), (exec_names _ _ _ H1).
    by rewrite app_assoc.
Qed.

(** What is known about the value of one connection key. *)
Inductive know : Type :=
  | Known (o : option json)
  | Unknown.

Definition knows (k : string) (kn : know) (cs : list (string * json)) : Prop :=
  match kn with Known o => dict_get cs k = o | Unknown => True end.

Definition transfer (k : string) (st : pstmt) (kn : know) : know :=
  match st with
  | SetConn k' v => if str_eqb k' k then Known (Some v) else kn
  | Rewire k' v =>
      if str_eqb k' k then
        match kn with
        | Known (Some c) =>
            match rewire_conn c v with Some c' => Known (Some c') | None => Unknown end
        | Known None => Known None
        | Unknown => Unknown
        end
      else kn
  | _ => kn
  end.

Fixpoint transfer_list (k : string) (l : list pstmt) (kn : know) : know :=
  match l with
  | [] => kn
  | st :: l' => transfer_list k l' (transfer k st kn)
  end.

Lemma exec_transfer k st kn s s' :
  exec st s = Ok s' -> knows k kn (conns_of s) -> knows k (transfer k st kn) (conns_of s').
Proof.
  destruct st as [n | | k' v | src v | name pr msg | p]; intros H Hk; simpl.
  - by rewrite (proj2 (exec_AddNode _ _ _ H)).
  - by apply exec_Lookup in H as ->.
  - apply exec_SetConn in H as [_ ->]. destruct (str_eqb k' k) eqn:E.
    + apply str_eqb_true in E as ->. simpl. by rewrite dict_get_set_eq.
    + apply str_eqb_false in E. destruct kn; simpl in *; [by rewrite dict_get_set_ne | done].
  - apply exec_Rewire in H as [_ [[-> Hn] | (c & c' & Hc & Hr & ->)]].
    + destruct (str_eqb src k) eqn:E; [| done].
      apply str_eqb_true in E as ->. destruct kn as [[c|]|]; simpl in *; congruence.
    + destruct (str_eqb src k) eqn:E.
      * apply str_eqb_true in E as ->. destruct kn as [[c0|]|]; simpl in *; [| congruence | done].
        assert (c0 = c) as -> by congruence. rewrite Hr. simpl. by rewrite dict_get_set_eq.
      * apply str_eqb_false in E. destruct kn; simpl in *; [by rewrite dict_get_set_ne | done].
  - by rewrite (proj2 (exec_SetPrompt _ _ _ _ _ H)).
  - unfold conns_of. by rewrite (proj1 (exec_Save _ _ _ H)).
Qed.

Lemma run_transfer k l kn s s' :
  run_stmts l s = Ok s' -> knows k kn (conns_of s) -> knows k (transfer_list k l kn) (conns_of s').
Proof.
  revert kn s. induction l as [|st l IH]; intros kn s H Hk; simpl in *.
  - by injection H as <-.
  - apply res_bind_eq_Ok in H as (s1 & H1 & H). eauto using exec_transfer.
Qed.

(** ** Whole-script lemmas *)

Lemma run_stmts_app l1 l2 s :
  run_stmts (l1 ++ l2) s = (s1 <- run_stmts l1 s ;; run_stmts l2 s1).
Proof.
  revert s. induction l1 as [|st l1 IH]; intros s; simpl; [done |].
  rewrite res_bind_assoc. apply res_bind_ext. intros ? _. apply IH.
Qed.

Lemma perfect_run_written ids p legacy s :
  perfect_workflow ids p legacy = Ok s -> written s = Some (workflow s).
Proof.
  unfold perfect_workflow.
  change (perfect_body ids p) with (removelast (perfect_body ids p) ++ [Save p]).
  rewrite run_stmts_app. intros (s1 & _ & H)%res_bind_eq_Ok. simpl in H.
  by injection H as <-.
Qed.

Lemma perfect_conn_known ids p legacy s k kn v :
  perfect_workflow ids p legacy = Ok s ->
  knows k kn (wf_conns legacy) ->
  transfer_list k (perfect_body ids p) kn = Known (Some v) ->
  dict_get (conns_of s) k = Some v.
Proof. intros H Hk Ht. pose proof (run_transfer k _ kn _ _ H Hk) as Hs. by rewrite Ht in Hs. Qed.

Lemma succ_link w k t : dict_get (wf_conns w) k = Some (link t) -> succ w k 0 = [t].
Proof. unfold succ. intros ->. reflexivity. Qed.

Lemma rewire_conn_array ckv o os v :
  dict_get ckv "main" = Some (JArr (o :: os)) ->
  rewire_conn (JObj ckv) v = Some (JObj (dict_set ckv "main" (JArr (v :: os)))).
Proof. intros H. simpl. by rewrite H. Qed.

Lemma succ_rewired w k ckv os t :
  dict_get (wf_conns w) k = Some (JObj (dict_set ckv "main" (JArr (JArr [target t] :: os)))) ->
  succ w k 0 = [t].
Proof. unfold succ. intros ->. simpl. by rewrite dict_get_set_eq. Qed.

(** ** The appended nodes are written verbatim

    A prompt replacement only rewrites the node [get_node] found, which
    bears the searched name; so the nodes appended after position [k]
    stay as appended as long as none of them bears a searched name. *)

Lemma find_node_Some name j ns i n :
  find_node name j ns = Ok (Some (i, n)) ->
  j <= i /\ ns !! (i - j) = Some n /\ node_name n = Some name.
Proof.
  revert j. induction ns as [|m ns IH]; intros j H; simpl in H; [discriminate |].
  apply res_bind_eq_Ok in H as (nm & Hnm & H).
  destruct (is_str name nm) eqn:E.
  - injection H as <- <-. apply getitem_key_Ok in Hnm as (kv & -> & Hkv).
    destruct nm; simpl in E; try discriminate. apply str_eqb_true in E as ->.
    rewrite Nat.sub_diag. unfold node_name, obj_field. by rewrite Hkv.
  - destruct (IH (S j) H) as (Hle & Hi & Hn). split_and!; [lia | | done].
    by replace (i - j) with (S (i - S j)) by lia.
Qed.

Lemma py_iter_nodes j ns :
  py_iter j = Ok ns -> j = JArr ns \/ Forall (fun x => node_name x = None) ns.
Proof.
  destruct j; simpl; intros H; try discriminate; injection H as <-; [| by left |]; right;
    apply Forall_forall; intros x Hx; apply list_elem_of_In, in_map_iff in Hx as (? & <- & _); done.
Qed.

Lemma get_node_Some name s i n :
  get_node name s = Ok (Some (i, n)) -> nodes_of s !! i = Some n /\ node_name n = Some name.
Proof.
  unfold get_node. intros (nodes & Hnodes & H)%res_bind_eq_Ok.
  apply res_bind_eq_Ok in H as (ns & Hns & H).
  destruct (find_node_Some _ _ _ _ _ H) as (_ & Hi & Hn). rewrite Nat.sub_0_r in Hi.
  destruct (py_iter_nodes _ _ Hns) as [-> | Hall].
  - apply getitem_key_Ok in Hnodes as (kv & Hw & Hkv).
    unfold nodes_of, wf_nodes. rewrite Hw. simpl. by rewrite Hkv.
  - rewrite Forall_lookup in Hall. by rewrite (Hall _ _ Hi) in Hn.
Qed.

(** An assignment under [workflow['nodes'][i]] rewrites the node at
    position [i] and nothing else of the node list. *)
Lemma set_nodes_path s i p k v w' :
  set_path (workflow s) (IKey "nodes" :: IIdx i :: p) k v = Ok w' ->
  exists n n', nodes_of s !! i = Some n /\ set_path n p k v = Ok n' /\
    wf_nodes w' = <[i:=n']> (nodes_of s).
Proof.
  intros (c0 & c0' & Hc0 & Hp & Hs0)%set_path_cons_Ok.
  apply set_path_cons_Ok in Hp as (n0 & n0' & Hn0 & Hp & Hs1).
  apply getitem_key_Ok in Hc0 as (kv & Hw & Hkv).
  apply getitem_idx_Ok in Hn0 as [(l & -> & Hl) | (str & ->)]; [| discriminate].
  simpl in Hs1. destruct (decide (i < length l)); [| discriminate].
  injection Hs1 as <-. rewrite Hw in Hs0. apply setitem_key_Ok in Hs0 as (kv0 & [= <-] & ->).
  assert (Hnodes : nodes_of s = l) by (unfold nodes_of, wf_nodes; rewrite Hw; simpl; by rewrite Hkv).
  exists n0, n0'. rewrite Hnodes. split_and!; [done | done |]. by rewrite wf_nodes_set_nodes.
Qed.

(** An assignment under a key other than ["name"] keeps the node's name. *)
Lemma set_path_name n k p i v n' :
  set_path n (IKey k :: p) i v = Ok n' -> k <> "name" -> obj_field n' "name" = obj_field n "name".
Proof.
  intros Hp Hk. destruct (set_path_key_frame _ _ _ _ _ _ "name" Hp) as (nkv & nkv' & -> & -> & E);
    [congruence |]. exact E.
Qed.

Lemma exec_SetPrompt_nodes name prompt msg s s' :
  exec (SetPrompt name prompt msg) s = Ok s' ->
  nodes_of s' = nodes_of s \/
  exists i n n', nodes_of s !! i = Some n /\ node_name n = Some name /\
                 obj_field n' "name" = obj_field n "name" /\
                 nodes_of s' = <[i:=n']> (nodes_of s).
Proof.
  simpl. unfold set_prompt. intros (found & Hf & H)%res_bind_eq_Ok.
  destruct found as [[i n]|]; [| injection H as <-; by left].
  destruct (truthy n); [| injection H as <-; by left]. right.
  destruct (get_node_Some _ _ _ _ Hf) as [Hi Hn].
  apply res_bind_eq_Ok in H as (w' & Hw' & [= <-]).
  destruct (set_nodes_path _ _ _ _ _ _ Hw') as (n0 & n' & Hi0 & Hp & Hw).
  rewrite Hi in Hi0. injection Hi0 as <-.
  exists i, n, n'. split_and!; [done | done | by eapply set_path_name | exact Hw].
Qed.

(** The nodes a statement appends, and the name a prompt statement searches. *)
Definition added_nodes (st : pstmt) : list json :=
  match st with AddNode n => [n] | _ => [] end.

Definition prompt_name (st : pstmt) : option string :=
  match st with SetPrompt name _ _ => Some name | _ => None end.

Lemma exec_drop k st s s' :
  exec st s = Ok s' -> k <= length (nodes_of s) ->
  (forall name, prompt_name st = Some name -> name ∉ omap node_name (drop k (nodes_of s))) ->
  drop k (nodes_of s') = drop k (nodes_of s) ++ added_nodes st /\ k <= length (nodes_of s').
Proof.
  intros H Hk Hp. destruct st as [n | | k' v | src v | name pr msg | p]; simpl.
  - destruct (exec_AddNode _ _ _ H) as [-> _].
    rewrite drop_app_le, length_app by done. split; [done | lia].
  - apply exec_Lookup in H as ->. by rewrite app_nil_r.
  - destruct (exec_SetConn _ _ _ _ H) as [-> _]. by rewrite app_nil_r.
  - destruct (exec_Rewire _ _ _ _ H) as [-> _]. by rewrite app_nil_r.
  - rewrite app_nil_r.
    destruct (exec_SetPrompt_nodes _ _ _ _ _ H) as [-> | (i & n & n' & Hi & Hn & _ & ->)]; [done |].
    rewrite length_insert. split; [| done].
    destruct (decide (i < k)); [by apply drop_insert_lt |].
    exfalso. apply (Hp name eq_refl). apply list_elem_of_omap. exists n. split; [| done].
    apply list_elem_of_lookup_2 with (i - k). rewrite lookup_drop. by replace (k + (i - k)) with i by lia.
  - apply exec_Save in H as [Hw _]. unfold nodes_of. rewrite Hw, app_nil_r. done.
Qed.

Lemma run_drop k l s s' :
  run_stmts l s = Ok s' -> k <= length (nodes_of s) ->
  (forall name, name ∈ omap prompt_name l ->
     (name ∉ omap node_name (drop k (nodes_of s))) /\
     (name ∉ omap node_name (mjoin (added_nodes <$> l)))) ->
  drop k (nodes_of s') = drop k (nodes_of s) ++ mjoin (added_nodes <$> l).
Proof.
  revert s. induction l as [|st l IH]; intros s H Hk Hp; simpl in H.
  - injection H as <-. by rewrite app_nil_r.
  - apply res_bind_eq_Ok in H as (s1 & H1 & H).
    assert (Hst : forall name, prompt_name st = Some name -> name ∈ omap prompt_name (st :: l))
      by (intros name E; simpl; rewrite E; apply elem_of_cons; by left).
    destruct (exec_drop k _ _ _ H1 Hk (fun name E => proj1 (Hp name (Hst name E)))) as [Hd Hk1].
    cbn [fmap list_fmap mjoin list_join]. rewrite (IH s1 H Hk1), Hd, app_assoc; [done |].
    intros name Hn.
    assert (Hn' : name ∈ omap prompt_name (st :: l))
      by (simpl; destruct (prompt_name st); [apply elem_of_cons; by right | done]).
    destruct (Hp name Hn') as [Hp1 Hp2]. simpl in Hp2.
    rewrite Hd, !omap_app in *. set_solver.
Qed.

(** The seven nodes the script appends, in order. *)
Definition new_nodes (ids : uuids) : list json :=
  [error_trigger (id_error_trigger ids); airtable_fail (id_airtable_fail ids);
   supabase_unlock (id_supabase_unlock ids); get_config (id_get_config ids);
   batch_node (id_batch ids); lock_lead (id_lock ids); wait_node (id_wait ids)].

Lemma perfect_node_names ids p legacy s :
  perfect_workflow ids p legacy = Ok s ->
  node_names (workflow s) = node_names legacy ++ new_names.
Proof. intros H. apply run_names in H. exact H. Qed.


(** C1 *)
(** The written document carries the six connections the script sets:
    the error path [Error Trigger -> Airtable - Mark Failed -> Supabase -
    Release Lock], the config fetch [Fetch Dynamic Config -> Workflow
    Configuration1] and the lease chain [Batch Leads (Volume) -> Split
    Leads1], [Lock Lead Status -> Anti-Rate Limit Wait -> Check if Mobile
    Number], each as the sole target of the node's first output, whatever
    the legacy document held; and the final document is what [json.dump]
    wrote. *)
Theorem perfect_links ids p legacy s :
  perfect_workflow ids p legacy = Ok s ->
  written s = Some (workflow s) /\
  Forall (fun e => succ (workflow s) e.1 0 = [e.2]) fixed_links.
Proof.
  intros H. split; [by eapply perfect_run_written |].
  repeat constructor; apply succ_link;
    (eapply (perfect_conn_known _ _ _ _ _ Unknown); [exact H | done | reflexivity]).
Qed.

(** C3 *)
(** The rewired sources: when the legacy connection entry of [Webhook],
    [Get Leads from Airtable1] or [Split Leads1] has a non-empty ["main"]
    array, the first output of that node in the written document is
    exactly the inserted node ([Fetch Dynamic Config], [Batch Leads
    (Volume)], [Lock Lead Status]), its former targets on that output
    being dropped; when the legacy document has no entry for the source,
    the written one has none either, so the inserted node is unreachable. *)
Theorem perfect_rewires ids p legacy s src t :
  perfect_workflow ids p legacy = Ok s ->
  (src, t) ∈ rewired_links ->
  (forall ckv o os, dict_get (wf_conns legacy) src = Some (JObj ckv) ->
     dict_get ckv "main" = Some (JArr (o :: os)) -> succ (workflow s) src 0 = [t]) /\
  (dict_get (wf_conns legacy) src = None -> dict_get (conns_of s) src = None).
Proof.
  intros H Hin. split.
  - intros ckv o os Hc Hm. eapply succ_rewired.
    pose proof (run_transfer src _ (Known (Some (JObj ckv))) _ _ H Hc) as Hs.
    revert Hs. unfold rewired_links in Hin. rewrite !elem_of_cons, elem_of_nil in Hin.
    destruct Hin as [[= -> ->] | [[= -> ->] | [[= -> ->] | []]]];
      simpl; rewrite Hm; simpl; intros Hs; exact Hs.
  - intros Hn. pose proof (run_transfer src _ (Known None) _ _ H Hn) as Hs.
    revert Hs. unfold rewired_links in Hin. rewrite !elem_of_cons, elem_of_nil in Hin.
    by destruct Hin as [[= -> ->] | [[= -> ->] | [[= -> ->] | []]]].
Qed.

(** C5 *)
(** The written document's node names are the legacy names followed by
    the seven new ones, in the order the script appends them, and the
    seven appended nodes are written verbatim: the prompt replacements
    rename nothing and touch only legacy nodes. *)
Theorem perfect_names ids p legacy s :
  perfect_workflow ids p legacy = Ok s ->
  node_names (workflow s) = node_names legacy ++ new_names /\
  drop (length (wf_nodes legacy)) (wf_nodes (workflow s)) = new_nodes ids.
Proof.
  intros H. split; [exact (perfect_node_names _ _ _ _ H) |].
  change (wf_nodes (workflow s)) with (nodes_of s).
  rewrite (run_drop (length (wf_nodes legacy)) _ _ _ H); [by rewrite drop_all | done |].
  intros name Hn. rewrite drop_all. split; [set_solver |].
  change (omap prompt_name (perfect_body ids p)) with ["AI Agent"; "Email AI Agent"] in Hn.
  change (omap node_name (mjoin (added_nodes <$> perfect_body ids p))) with new_names.
  revert name Hn. apply Forall_forall, (bool_decide_unpack _). by vm_compute.
Qed.

(** ** Closedness of the connection graph *)

(** Every edge of [cs] joins names of [N], and every source is in [N]. *)
Definition conns_within (N : list string) (cs : list (string * json)) : Prop :=
  (forall a b, (a, b) ∈ conn_edges cs -> a ∈ N /\ b ∈ N) /\
  (forall k, k ∈ dict_keys cs -> k ∈ N).

(** The names a statement's new connections point to lie in [N]. *)
Definition stmt_within (N : list string) (st : pstmt) : Prop :=
  match st with
  | SetConn k v => k ∈ N /\ forall t, t ∈ conn_targets v -> t ∈ N
  | Rewire _ v => forall t, t ∈ omap target_name (as_arr (Some v)) -> t ∈ N
  | _ => True
  end.

Lemma rewire_conn_targets c v c' t :
  rewire_conn c v = Some c' -> t ∈ conn_targets c' ->
  t ∈ conn_targets c \/ t ∈ omap target_name (as_arr (Some v)).
Proof.
  destruct c as [| | | | | ckv]; simpl; try discriminate.
  destruct (dict_get ckv "main") as [m|] eqn:Hm; [| discriminate].
  destruct (setitem m (IIdx 0) v) as [m'|] eqn:Hs; [| discriminate]. intros [= <-].
  rewrite !elem_of_conn_targets. intros (ty & u & Hu & Ht).
  apply dict_set_entry in Hu as [[-> ->] | Hu].
  2:{ left. change (t ∈ conn_targets (JObj ckv)). apply elem_of_conn_targets. eauto. }
  destruct m as [| | | | l | mkv]; simpl in Hs; try discriminate.
  - destruct (decide (0 < length l)); [| discriminate]. injection Hs as <-.
    apply elem_of_outputs in Ht as (o & Ho & Ht).
    apply elem_of_list_insert_inv in Ho as [-> | Ho]; [by right |].
    left. change (t ∈ conn_targets (JObj ckv)). apply elem_of_conn_targets.
    exists "main", (JArr l). split; [by apply dict_get_elem |].
    apply elem_of_outputs. eauto.
  - injection Hs as <-. simpl in Ht. set_solver.
Qed.

Lemma conns_within_set N cs k v :
  conns_within N cs -> k ∈ N -> (forall t, t ∈ conn_targets v -> t ∈ N) ->
  conns_within N (dict_set cs k v).
Proof.
  intros [He Hk] HkN Hv. split.
  - intros a b Hab. apply conn_edges_set in Hab as [[-> Hb] | Hab]; eauto.
  - intros k' Hk'. destruct (decide (k ∈ dict_keys cs)).
    + rewrite dict_keys_set_elem in Hk'; auto.
    + rewrite dict_keys_set_not_elem in Hk' by done.
      apply elem_of_app in Hk' as [? | ->%list_elem_of_singleton]; auto.
Qed.

Lemma exec_within N st s s' :
  stmt_within N st -> exec st s = Ok s' ->
  conns_within N (conns_of s) -> conns_within N (conns_of s').
Proof.
  destruct st as [n | | k v | src v | name pr msg | p]; intros Hst H Hw; simpl in Hst.
  - by rewrite (proj2 (exec_AddNode _ _ _ H)).
  - by apply exec_Lookup in H as ->.
  - rewrite (proj2 (exec_SetConn _ _ _ _ H)). apply conns_within_set; tauto.
  - apply exec_Rewire in H as [_ [[-> _] | (c & c' & Hc & Hr & ->)]]; [done |].
    apply conns_within_set; [done | apply Hw, (dict_get_Some_elem _ _ c); done |].
    intros t Ht. apply (rewire_conn_targets _ _ _ _ Hr) in Ht as [Ht | Ht]; [| auto].
    apply (proj1 Hw src t), elem_of_conn_edges. eauto using dict_get_elem.
  - by rewrite (proj2 (exec_SetPrompt _ _ _ _ _ H)).
  - unfold conns_of. by rewrite (proj1 (exec_Save _ _ _ H)).
Qed.

Lemma run_within N l s s' :
  Forall (stmt_within N) l -> run_stmts l s = Ok s' ->
  conns_within N (conns_of s) -> conns_within N (conns_of s').
Proof.
  intros Hl. revert s. induction Hl as [|st l Hst Hl IH]; intros s H Hw; simpl in *.
  - by injection H as <-.
  - apply res_bind_eq_Ok in H as (s1 & H1 & H). eauto using exec_within.
Qed.

(** An invariant of the connection graph given by a relation [R] on
    its edges: it holds of the written graph when it holds of the
    legacy one and of every connection a statement sets. *)
Definition edges_ok (R : string -> string -> Prop) (cs : list (string * json)) : Prop :=
  forall a b, (a, b) ∈ conn_edges cs -> R a b.

Definition stmt_edges (R : string -> string -> Prop) (st : pstmt) : Prop :=
  match st with
  | SetConn k v => forall t, t ∈ conn_targets v -> R k t
  | Rewire src v => forall t, t ∈ omap target_name (as_arr (Some v)) -> R src t
  | _ => True
  end.

Lemma exec_edges R st s s' :
  stmt_edges R st -> exec st s = Ok s' -> edges_ok R (conns_of s) -> edges_ok R (conns_of s').
Proof.
  destruct st as [n | | k v | src v | name pr msg | p]; intros Hst H Hw; simpl in Hst.
  - by rewrite (proj2 (exec_AddNode _ _ _ H)).
  - by apply exec_Lookup in H as ->.
  - rewrite (proj2 (exec_SetConn _ _ _ _ H)). intros a b [[-> Hb] | Hab]%conn_edges_set; auto.
  - apply exec_Rewire in H as [_ [[-> _] | (c & c' & Hc & Hr & ->)]]; [done |].
    intros a b [[-> Hb] | Hab]%conn_edges_set; [| auto].
    apply (rewire_conn_targets _ _ _ _ Hr) in Hb as [Hb | Hb]; [| auto].
    apply Hw, elem_of_conn_edges. eauto using dict_get_elem.
  - by rewrite (proj2 (exec_SetPrompt _ _ _ _ _ H)).
  - unfold conns_of. by rewrite (proj1 (exec_Save _ _ _ H)).
Qed.

Lemma run_edges R l s s' :
  Forall (stmt_edges R) l -> run_stmts l s = Ok s' -> edges_ok R (conns_of s) -> edges_ok R (conns_of s').
Proof.
  intros Hl. revert s. induction Hl as [|st l Hst Hl IH]; intros s H Hw; simpl in *.
  - by injection H as <-.
  - apply res_bind_eq_Ok in H as (s1 & H1 & H). eauto using exec_edges.
Qed.

(** The legacy nodes the new connections point to. *)
Definition required_names : list string :=
  ["Workflow Configuration1"; "Split Leads1"; "Check if Mobile Number"].

Lemma perfect_body_within ids p N :
  (forall x, x ∈ new_names -> x ∈ N) -> (forall x, x ∈ required_names -> x ∈ N) ->
  Forall (stmt_within N) (perfect_body ids p).
Proof.
  intros Hnew Hreq.
  assert (Hl : forall t x, t ∈ conn_targets (link x) -> t = x).
  { intros t x. unfold link. rewrite conn_targets_main_conn. simpl. set_solver. }
  assert (Hr : forall t x, t ∈ omap target_name (as_arr (Some (JArr [target x]))) -> t = x).
  { intros t x. simpl. set_solver. }
  unfold perfect_body. rewrite !Forall_cons, Forall_nil. simpl. split_and!; try done.
  all: try (intros t ->%Hr; apply Hnew; unfold new_names; in_list).
  all: try (intros t ->%Hl).
  all: first [apply Hnew; unfold new_names; in_list
             | apply Hreq; unfold required_names; in_list].
Qed.

(** C4 *)
(** If every edge of the legacy graph joins two of its nodes, every
    connection source is a node, and the legacy document has the three
    nodes the new connections target ([Workflow Configuration1], [Split
    Leads1], [Check if Mobile Number]), then the written document has no
    dangling edge and no orphan source either. *)
Theorem perfect_closed ids p legacy s :
  perfect_workflow ids p legacy = Ok s ->
  dangling legacy = [] -> orphans legacy = [] ->
  Forall (fun x => x ∈ node_names legacy) required_names ->
  dangling (workflow s) = [] /\ orphans (workflow s) = [].
Proof.
  intros H Hd Ho Hreq. apply closed_iff.
  rewrite (perfect_node_names _ _ _ _ H).
  destruct (proj1 (closed_iff legacy) (conj Hd Ho)) as [He Hk].
  assert (Hnew : forall x, x ∈ new_names -> x ∈ node_names legacy ++ new_names).
  { intros x Hx. apply elem_of_app. by right. }
  assert (Hreq' : forall x, x ∈ required_names -> x ∈ node_names legacy ++ new_names).
  { intros x Hx. apply elem_of_app; left. rewrite Forall_forall in Hreq. by apply Hreq. }
  destruct (run_within (node_names legacy ++ new_names) _ _ _
             (perfect_body_within ids p _ Hnew Hreq') H) as [He' Hk'].
  - split.
    + intros a b Hab. destruct (He a b Hab). set_solver.
    + intros k Hk0. specialize (Hk k Hk0). set_solver.
  - split; [exact He' | exact Hk'].
Qed.

(** ** Progress: a well-shaped document does not make the script raise *)

Lemma find_node_named name i l :
  Forall has_name l -> find_node name i l = Ok (first_named name i l).
Proof.
  revert i. induction l as [|n l IH]; intros i Hl; simpl; [done |].
  apply Forall_cons in Hl as [(nkv & v & -> & Hv) Hl]. simpl. rewrite Hv. simpl.
  destruct (is_str name v); [done | by apply IH].
Qed.

Lemma first_named_lookup name i l j n :
  first_named name i l = Some (j, n) -> i <= j /\ l !! (j - i) = Some n.
Proof.
  revert i. induction l as [|x l IH]; intros i; simpl; [discriminate |].
  destruct (is_str _ _).
  - intros [= <- <-]. rewrite Nat.sub_diag. split; [lia | done].
  - intros H. destruct (IH _ H) as [Hle Hl]. split; [lia |].
    replace (j - i) with (S (j - S i)) by lia. done.
Qed.

Lemma first_named_app name i l n :
  first_named name i (l ++ [n]) =
  match first_named name i l with
  | Some r => Some r
  | None => if is_str name (default JNull (obj_field n "name"))
            then Some (i + length l, n) else None
  end.
Proof.
  revert i. induction l as [|x l IH]; intros i; simpl.
  - rewrite Nat.add_0_r. by destruct (is_str _ _).
  - destruct (is_str _ (default JNull (obj_field x "name"))); [done |].
    rewrite IH. destruct (first_named name (S i) l); [done |].
    destruct (is_str _ _); [do 2 f_equal; lia | done].
Qed.

Lemma first_named_insert name i l k m n' :
  l !! k = Some m -> obj_field n' "name" = obj_field m "name" ->
  first_named name i (<[k:=n']> l) =
  (fun r => if decide (r.1 = i + k) then (r.1, n') else r) <$> first_named name i l.
Proof.
  revert i k. induction l as [|x l IH]; intros i [|k] Hk Hn; simpl in *; try discriminate.
  - injection Hk as ->. rewrite Hn. destruct (is_str _ _); simpl.
    + case_decide; [done | lia].
    + destruct (first_named name (S i) l) as [[j y]|] eqn:E; simpl; [| done].
      apply first_named_lookup in E. case_decide; [lia | done].
  - destruct (is_str _ _); simpl; [case_decide; [lia | done] |].
    rewrite (IH (S i) k Hk Hn). by replace (i + S k) with (S i + k) by lia.
Qed.

Lemma agent_ok_set n v :
  agent_ok n ->
  exists n', set_path n [IKey "parameters"; IKey "options"] (IKey "systemMessage") v = Ok n' /\
    agent_ok n' /\ obj_field n' "name" = obj_field n "name".
Proof.
  intros (nkv & pkv & okv & -> & Hp & Ho).
  eexists. split; [simpl; rewrite Hp; simpl; rewrite Ho; reflexivity |]. split.
  - do 3 eexists. split; [done |]. rewrite dict_get_set_eq. split; [done |].
    by rewrite dict_get_set_eq.
  - simpl. by rewrite dict_get_set_ne.
Qed.

Lemma main_ok_rewire c v : main_ok c -> exists c', rewire_conn c v = Some c' /\ main_ok c'.
Proof.
  intros (ckv & m & -> & Hm & [(mkv & ->) | (o & os & ->)]); simpl; rewrite Hm; simpl.
  - eexists; split; [done |]. do 2 eexists. rewrite dict_get_set_eq. eauto.
  - eexists; split; [done |].
    do 2 eexists. rewrite dict_get_set_eq. split; [done | split; [done |]]. right. eauto.
Qed.

Lemma has_name_truthy n : has_name n -> truthy n = true.
Proof. intros (nkv & v & -> & Hv). simpl. destruct nkv; [discriminate | done]. Qed.

Lemma has_name_insert (l : list json) i n' :
  Forall has_name l -> has_name n' -> Forall has_name (<[i:=n']> l).
Proof. intros Hl Hn. by apply Forall_insert. Qed.

Lemma rewire_conn_set_path c v c' :
  rewire_conn c v = Some c' -> set_path c [IKey "main"] (IIdx 0) v = Ok c'.
Proof.
  destruct c as [| | | | | ckv]; simpl; try discriminate.
  destruct (dict_get ckv "main") as [m|]; [simpl | discriminate].
  destruct (setitem m (IIdx 0) v); [simpl | discriminate]. by intros [= <-].
Qed.

Lemma get_node_shaped name s kv l :
  workflow s = JObj kv -> dict_get kv "nodes" = Some (JArr l) -> Forall has_name l ->
  get_node name s = Ok (first_named name 0 l).
Proof. intros Hw Hl Hn. unfold get_node. rewrite Hw. simpl. rewrite Hl. by apply find_node_named. Qed.

Lemma progress_AddNode n s S :
  stmt_ok S (AddNode n) -> well_shaped_for S (workflow s) ->
  exists s', exec (AddNode n) s = Ok s' /\ well_shaped_for S (workflow s').
Proof.
  intros (Hn & [idv Hid] & Hna) (kv & l & cs & Hw & Hl & Hc & Hnames & Hag & Hsrc).
  exists (set_wf (JObj (dict_set kv "nodes" (JArr (l ++ [n])))) s). split.
  - destruct Hn as (nkv & v & -> & _). simpl in Hid.
    simpl. unfold add_stmt, res_map, add_node. rewrite Hw. simpl. rewrite Hl. simpl.
    by rewrite Hid.
  - exists (dict_set kv "nodes" (JArr (l ++ [n]))), (l ++ [n]), cs. simpl.
    rewrite dict_get_set_eq, dict_get_set_ne by done. split_and!; try done.
    + apply Forall_app. split; [done | by apply Forall_singleton].
    + intros name i m Hname H. rewrite first_named_app in H.
      destruct (first_named name 0 l) as [[j x]|] eqn:E; [injection H as <- <-; eauto |].
      by rewrite Hna in H.
Qed.

Lemma progress_SetConn k v s S :
  stmt_ok S (SetConn k v) -> well_shaped_for S (workflow s) ->
  exists s', exec (SetConn k v) s = Ok s' /\ well_shaped_for S (workflow s').
Proof.
  intros Hk (kv & l & cs & Hw & Hl & Hc & Hnames & Hag & Hsrc).
  exists (set_wf (JObj (dict_set kv "connections" (JObj (dict_set cs k v)))) s). split.
  - simpl. unfold set_conn. rewrite Hw. simpl. by rewrite Hc.
  - exists (dict_set kv "connections" (JObj (dict_set cs k v))), l, (dict_set cs k v). simpl.
    rewrite dict_get_set_eq, dict_get_set_ne by done. split_and!; try done.
    intros src c Hs Hget. rewrite dict_get_set_ne in Hget; [eauto |]. intros ->. contradiction.
Qed.

Lemma progress_Rewire src v s S :
  stmt_ok S (Rewire src v) -> well_shaped_for S (workflow s) ->
  exists s', exec (Rewire src v) s = Ok s' /\ well_shaped_for S (workflow s').
Proof.
  intros Hs0 (kv & l & cs & Hw & Hl & Hc & Hnames & Hag & Hsrc). simpl. unfold rewire.
  rewrite Hw. simpl. rewrite Hc. simpl.
  destruct (dict_get cs src) as [c|] eqn:Hcs.
  - destruct (main_ok_rewire c v (Hsrc src c Hs0 Hcs)) as (c' & Hr & Hm').
    rewrite bool_decide_eq_true_2 by (by eapply dict_get_Some_elem). simpl.
    pose proof (rewire_conn_set_path _ _ _ Hr) as Hsp. simpl in Hsp. rewrite Hsp. simpl.
    eexists; split; [reflexivity |].
    exists (dict_set kv "connections" (JObj (dict_set cs src c'))), l, (dict_set cs src c'). simpl.
    rewrite dict_get_set_eq, dict_get_set_ne by done. split_and!; try done.
    intros src' c0 Hs Hget. destruct (decide (src = src')) as [<- | Hne].
    + rewrite dict_get_set_eq in Hget. by injection Hget as <-.
    + rewrite dict_get_set_ne in Hget by done. eauto.
  - rewrite bool_decide_eq_false_2 by (by apply dict_get_None). simpl.
    eexists; split; [reflexivity |]. rewrite Hw. exists kv, l, cs. done.
Qed.

Lemma progress_SetPrompt name pr msg s S :
  stmt_ok S (SetPrompt name pr msg) -> well_shaped_for S (workflow s) ->
  exists s', exec (SetPrompt name pr msg) s = Ok s' /\ well_shaped_for S (workflow s').
Proof.
  intros Hname Hws. pose proof Hws as (kv & l & cs & Hw & Hl & Hc & Hnames & Hag & Hsrc).
  simpl. unfold set_prompt. rewrite (get_node_shaped _ _ _ _ Hw Hl Hnames). simpl.
  destruct (first_named name 0 l) as [[i n]|] eqn:E; [| by eexists].
  pose proof (first_named_lookup _ _ _ _ _ E) as [_ Hi]. rewrite Nat.sub_0_r in Hi.
  assert (Hn : has_name n) by (eapply Forall_lookup_1; eauto).
  destruct (agent_ok_set n (JStr pr) (Hag _ _ _ Hname E)) as (n' & Hset & Hag' & Hnm).
  rewrite (has_name_truthy _ Hn). rewrite Hw. simpl. rewrite Hl. simpl. rewrite Hi. simpl.
  pose proof Hset as Hset'. simpl in Hset'. rewrite Hset'. simpl.
  rewrite decide_True by (eapply lookup_lt_Some; eauto). simpl.
  eexists; split; [reflexivity |].
  exists (dict_set kv "nodes" (JArr (<[i:=n']> l))), (<[i:=n']> l), cs. simpl.
  rewrite dict_get_set_eq, dict_get_set_ne by done. split_and!; try done.
  - apply Forall_insert; [done |]. destruct Hn as (nkv & v & -> & Hv).
    destruct Hag' as (nkv' & ? & ? & -> & _). exists nkv', v. simpl in Hnm. by rewrite Hnm.
  - intros name' j m Hname' H. rewrite (first_named_insert _ _ _ _ n _ Hi Hnm) in H.
    destruct (first_named name' 0 l) as [[j0 x]|] eqn:E'; [simpl in H | discriminate].
    case_decide; injection H as <- <-; eauto.
Qed.

Lemma exec_progress st s S :
  stmt_ok S st -> well_shaped_for S (workflow s) ->
  exists s', exec st s = Ok s' /\ well_shaped_for S (workflow s').
Proof.
  destruct st as [n | name | k v | src v | name pr msg | p].
  - apply progress_AddNode.
  - intros _ Hws. pose proof Hws as (kv & l & cs & Hw & Hl & _ & Hnames & _).
    exists s. simpl. unfold lookup_stmt. by rewrite (get_node_shaped _ _ _ _ Hw Hl Hnames).
  - apply progress_SetConn.
  - apply progress_Rewire.
  - apply progress_SetPrompt.
  - intros _ Hws. by eexists.
Qed.

Lemma run_progress l s S :
  Forall (stmt_ok S) l -> well_shaped_for S (workflow s) ->
  exists s', run_stmts l s = Ok s' /\ well_shaped_for S (workflow s').
Proof.
  intros Hl. revert s. induction Hl as [|st l Hst Hl IH]; intros s Hws; simpl; [eauto |].
  destruct (exec_progress st s S Hst Hws) as (s1 & -> & Hws1). simpl. auto.
Qed.

Ltac stmt_ok_tac :=
  rewrite ?Forall_cons, ?Forall_nil; simpl; split_and!; try done;
  try (unfold source_names, agent_names; first [in_list | set_solver]);
  try (do 2 eexists; split; reflexivity);
  try (intros ?name; unfold agent_names; rewrite !elem_of_cons, elem_of_nil;
       intros [-> | [-> | []]]; reflexivity).

Lemma perfect_body_ok ids p : Forall (stmt_ok source_names) (perfect_body ids p).
Proof. unfold perfect_body. stmt_ok_tac. Qed.

(** C2 *)
(** On a well-shaped legacy document the script raises no exception: it
    runs to the end, writes its output, and the written document is well
    shaped again. *)
Theorem perfect_total ids p legacy :
  well_shaped legacy ->
  exists s, perfect_workflow ids p legacy = Ok s /\ written s = Some (workflow s) /\
    well_shaped (workflow s).
Proof.
  intros Hws. destruct (run_progress _ (mkState legacy [] None) _ (perfect_body_ok ids p) Hws)
    as (s & Hrun & Hws').
  exists s. split_and!; [exact Hrun | by eapply perfect_run_written | exact Hws'].
Qed.

(** C6 *)
(** The error path of line 183: if the legacy [Webhook] connection entry
    has an empty ["main"] list (the rest of the document being well
    shaped), the assignment [...['Webhook']['main'][0] = ...] raises
    [IndexError]; the script stops there and writes no output. *)
Theorem perfect_webhook_index_error ids p legacy kv l cs ckv :
  legacy = JObj kv -> dict_get kv "nodes" = Some (JArr l) ->
  dict_get kv "connections" = Some (JObj cs) -> Forall has_name l -> agents_ok l ->
  dict_get cs "Webhook" = Some (JObj ckv) -> dict_get ckv "main" = Some (JArr []) ->
  perfect_workflow ids p legacy = Raise IndexError.
Proof.
  intros -> Hl Hc Hn Hag Hw Hm. unfold perfect_workflow.
  change (perfect_body ids p) with (firstn 12 (perfect_body ids p) ++ skipn 12 (perfect_body ids p)).
  rewrite run_stmts_app.
  destruct (run_progress (firstn 12 (perfect_body ids p)) (mkState (JObj kv) [] None) [])
    as (s1 & Hrun & (kv1 & l1 & cs1 & Hw1 & Hl1 & Hc1 & _)).
  { simpl. stmt_ok_tac. }
  { exists kv, l, cs. split_and!; try done. intros src c []%elem_of_nil. }
  rewrite Hrun. simpl.
  pose proof (run_transfer "Webhook" _ (Known (Some (JObj ckv))) _ _ Hrun) as Ht.
  unfold knows, conns_of, wf_conns in Ht; simpl in Ht. rewrite Hc in Ht. simpl in Ht.
  specialize (Ht Hw). rewrite Hw1 in Ht. simpl in Ht. rewrite Hc1 in Ht. simpl in Ht.
  assert (Hr : rewire "Webhook" (JArr [target "Fetch Dynamic Config"]) s1 = Raise IndexError).
  { unfold rewire. rewrite Hw1. simpl. rewrite Hc1. simpl.
    rewrite bool_decide_eq_true_2 by (eapply dict_get_Some_elem; eauto). simpl.
    rewrite Ht. simpl. by rewrite Hm. }
  by rewrite Hr.
Qed.

(** ** Prompt replacement

    [get_node] returns the first node whose ["name"] equals the searched
    name ([first_named]); a statement other than that name's prompt
    replacement keeps the first match where it is, with its value. *)




Lemma find_node_first name j l r : find_node name j l = Ok r -> r = first_named name j l.
Proof.
  revert j. induction l as [|n l IH]; intros j H; simpl in *; [by injection H |].
  apply res_bind_eq_Ok in H as (nm & (kv & -> & Hkv)%getitem_key_Ok & H).
  simpl. rewrite Hkv. simpl. destruct (is_str name nm); [by injection H | by apply IH].
Qed.











(** ** The shape of the written nodes

    n8n reads a node as its [INode] interface: an object with an object
    [parameters], string [id], [name] and [type], a numeric
    [typeVersion] and a two-number [position]. *)

Definition has_field (kv : list (string * json)) (k : string) (p : json -> bool) : bool :=
  match dict_get kv k with Some v => p v | None => false end.

Definition is_obj (j : json) : bool := match j with JObj _ => true | _ => false end.
Definition is_string (j : json) : bool := match j with JStr _ => true | _ => false end.
Definition is_num (j : json) : bool := match j with JNum _ => true | _ => false end.
Definition is_position (j : json) : bool :=
  match j with JArr [JNum _; JNum _] => true | _ => false end.

Definition node_typed (n : json) : bool :=
  match n with
  | JObj kv =>
      has_field kv "parameters" is_obj && has_field kv "id" is_string &&
      has_field kv "name" is_string && has_field kv "type" is_string &&
      has_field kv "typeVersion" is_num && has_field kv "position" is_position
  | _ => false
  end.

Lemma set_path_key_Ok n k p i v n' :
  set_path n (IKey k :: p) i v = Ok n' ->
  exists kv c c', n = JObj kv /\ dict_get kv k = Some c /\ set_path c p i v = Ok c' /\
    n' = JObj (dict_set kv k c').
Proof.
  intros (c & c' & Hc & Hp & Hs)%set_path_cons_Ok.
  apply getitem_key_Ok in Hc as (kv & -> & Hkv). apply setitem_key_Ok in Hs as (kv0 & [= <-] & ->).
  eauto 10.
Qed.

(** A prompt assignment keeps the node's shape: [parameters] stays an
    object and the other fields are untouched. *)
Lemma node_typed_set_prompt n v n' :
  node_typed n = true ->
  set_path n [IKey "parameters"; IKey "options"] (IKey "systemMessage") v = Ok n' ->
  node_typed n' = true.
Proof.
  intros Hn (kv & c & c' & -> & _ & Hp & ->)%set_path_key_Ok.
  apply set_path_key_Ok in Hp as (pkv & o & o' & -> & _ & _ & ->).
  revert Hn. unfold node_typed, has_field. rewrite dict_get_set_eq, !dict_get_set_ne by discriminate.
  by destruct (dict_get kv "parameters") as [[]|].
Qed.

(** A property of nodes that every prompt assignment keeps holds of
    every written node when it holds of the legacy and the added ones. *)
Section NodeInvariant.
Variable P : json -> Prop.
Hypothesis P_set_prompt : forall n v n',
  P n -> set_path n [IKey "parameters"; IKey "options"] (IKey "systemMessage") v = Ok n' -> P n'.

Lemma exec_nodes_inv st s s' :
  exec st s = Ok s' -> Forall P (nodes_of s) -> Forall P (added_nodes st) -> Forall P (nodes_of s').
Proof.
  intros H Hs Ha. destruct st as [n | name | k v | src v | name pr msg | p]; simpl in Ha.
  - destruct (exec_AddNode _ _ _ H) as [-> _]. by apply Forall_app.
  - by apply exec_Lookup in H as ->.
  - by destruct (exec_SetConn _ _ _ _ H) as [-> _].
  - by destruct (exec_Rewire _ _ _ _ H) as [-> _].
  - apply set_prompt_Ok in H as [-> | (kv & l & i & n & n' & Hw & Hl & Hi & _ & Hp & ->)]; [done |].
    assert (Hnodes : nodes_of s = l) by (unfold nodes_of, wf_nodes; rewrite Hw; simpl; by rewrite Hl).
    unfold nodes_of; simpl. rewrite wf_nodes_set_nodes. rewrite Hnodes in Hs. simpl.
    apply Forall_insert; [done |]. eapply P_set_prompt; [| exact Hp].
    exact (Forall_lookup_1 _ _ _ _ Hs Hi).
  - apply exec_Save in H as [Hw _]. unfold nodes_of in *. by rewrite Hw.
Qed.

Lemma run_nodes_inv l s s' :
  run_stmts l s = Ok s' -> Forall P (nodes_of s) -> Forall P (mjoin (added_nodes <$> l)) -> Forall P (nodes_of s').
Proof.
  revert s. induction l as [|st l IH]; intros s H Hs Ha; simpl in H.
  - by injection H as <-.
  - apply res_bind_eq_Ok in H as (s1 & H1 & H). simpl in Ha. apply Forall_app in Ha as [Ha1 Ha2].
    exact (IH s1 H (exec_nodes_inv _ _ _ H1 Hs Ha1) Ha2).
Qed.

End NodeInvariant.

(** C24 *)
(** Every node of the written document has n8n's node shape whenever
    every legacy node has it: the seven appended literals have it, and a
    prompt replacement keeps [parameters] an object and the other fields
    as they were. *)
Theorem perfect_nodes_typed ids p legacy s :
  perfect_workflow ids p legacy = Ok s ->
  Forall (fun n => node_typed n = true) (wf_nodes legacy) ->
  written s = Some (workflow s) /\ Forall (fun n => node_typed n = true) (wf_nodes (workflow s)).
Proof.
  intros H Hl. split; [by eapply perfect_run_written |].
  apply (run_nodes_inv (fun n => node_typed n = true) node_typed_set_prompt _ _ _ H Hl). cbn. repeat constructor.
Qed.

(** ** [get_node] against the reference search

    Python evaluates [n['name'] == name] for the nodes up to the first
    match ([scanned]); the reference [first_named] is the first node
    whose name is [name], skipping nodes without one. *)

Fixpoint scanned (name : string) (l : list json) : list json :=
  match l with
  | [] => []
  | n :: l' => n :: (if is_str name (default JNull (obj_field n "name")) then [] else scanned name l')
  end.

Lemma getitem_name_Ok n : (exists v, getitem n (IKey "name") = Ok v) <-> has_name n.
Proof.
  split.
  - intros (v & (kv & -> & Hkv)%getitem_key_Ok). by exists kv, v.
  - intros (kv & v & -> & Hv). exists v. simpl. by rewrite Hv.
Qed.

Lemma find_node_reference name j l :
  find_node name j l = Ok (first_named name j l) <-> Forall has_name (scanned name l).
Proof.
  revert j. induction l as [|n l IH]; intros j; simpl; [split; constructor |].
  rewrite Forall_cons, <- getitem_name_Ok.
  destruct (getitem n (IKey "name")) as [v|e] eqn:E; simpl.
  - apply getitem_key_Ok in E as (kv & -> & Hkv). simpl. rewrite Hkv. simpl.
    destruct (is_str name v); [naive_solver | rewrite IH; naive_solver].
  - split; [discriminate | intros [[v Hv] _]; discriminate].
Qed.

(** C25 *)
(** [get_node] is the reference search: on a document whose ["nodes"]
    is a list, it returns the first node named [name] (with its
    position) exactly when every node it reads up to that one is an
    object with a ["name"] key, and raises otherwise. *)
Theorem get_node_reference name s kv l :
  workflow s = JObj kv -> dict_get kv "nodes" = Some (JArr l) ->
  (Forall has_name (scanned name l) -> get_node name s = Ok (first_named name 0 l)) /\
  (~ Forall has_name (scanned name l) -> exists e, get_node name s = Raise e).
Proof.
  intros Hw Hl. unfold get_node. rewrite Hw. simpl. rewrite Hl. simpl.
  rewrite <- find_node_reference. split; [done |].
  intros Hne. destruct (find_node name 0 l) as [r|e] eqn:E; [| by exists e].
  exfalso. apply Hne. by rewrite <- (find_node_first _ _ _ _ E).
Qed.

(** ** Witnesses on the example documents *)

(** The example run succeeds; [example_state] is its final state. *)
Lemma example_run : perfect_workflow ids_example "out.json" legacy_example = Ok example_state.
Proof. vm_compute. reflexivity. Qed.

Lemma perfect_links_witness :
  perfect_workflow ids_example "out.json" legacy_example = Ok example_state /\
  written example_state = Some (workflow example_state) /\
  Forall (fun e => succ (workflow example_state) e.1 0 = [e.2]) fixed_links.
Proof.
  pose proof example_run as H.
  split; [exact H | exact (perfect_links _ _ _ _ H)].
Defined.

Lemma perfect_rewires_witness :
  perfect_workflow ids_example "out.json" legacy_example = Ok example_state /\
  ("Webhook", "Fetch Dynamic Config") ∈ rewired_links /\
  succ (workflow example_state) "Webhook" 0 = ["Fetch Dynamic Config"].
Proof.
  pose proof example_run as H.
  assert (Hin : ("Webhook", "Fetch Dynamic Config") ∈ rewired_links) by (unfold rewired_links; in_list).
  split_and!; [exact H | exact Hin |].
  apply (proj1 (perfect_rewires _ _ _ _ _ _ H Hin)
           [("main", JArr [JArr [target "Workflow Configuration1"]])]
           (JArr [target "Workflow Configuration1"]) []); reflexivity.
Defined.

Lemma perfect_names_witness :
  perfect_workflow ids_example "out.json" legacy_example = Ok example_state /\
  node_names (workflow example_state) = node_names legacy_example ++ new_names /\
  drop (length (wf_nodes legacy_example)) (wf_nodes (workflow example_state)) = new_nodes ids_example.
Proof.
  pose proof example_run as H.
  split; [exact H | exact (perfect_names _ _ _ _ H)].
Defined.

Lemma perfect_closed_witness :
  dangling legacy_example = [] /\ orphans legacy_example = [] /\
  dangling (workflow example_state) = [] /\ orphans (workflow example_state) = [].
Proof.
  pose proof example_run as H.
  assert (Hd : dangling legacy_example = []) by (vm_compute; reflexivity).
  assert (Ho : orphans legacy_example = []) by (vm_compute; reflexivity).
  assert (Hr : Forall (fun x => x ∈ node_names legacy_example) required_names)
    by (apply (bool_decide_unpack _); vm_compute; exact I).
  split_and!; [exact Hd | exact Ho |
    exact (proj1 (perfect_closed _ _ _ _ H Hd Ho Hr)) |
    exact (proj2 (perfect_closed _ _ _ _ H Hd Ho Hr))].
Defined.

Lemma legacy_example_well_shaped : well_shaped legacy_example.
Proof.
  exists [("name", JStr "KRONOS V1");
          ("nodes", JArr (legacy_node <$> legacy_chain));
          ("connections", JObj (chain_conns legacy_chain))],
    (legacy_node <$> legacy_chain), (chain_conns legacy_chain).
  split_and!; try reflexivity.
  - repeat constructor; do 2 eexists; split; reflexivity.
  - intros name i n Hname H. unfold agent_names in Hname.
    rewrite !elem_of_cons, elem_of_nil in Hname.
    destruct Hname as [-> | [-> | []]]; vm_compute in H; injection H as <- <-;
      do 3 eexists; split_and!; reflexivity.
  - intros src c Hs H. unfold source_names in Hs. rewrite !elem_of_cons, elem_of_nil in Hs.
    destruct Hs as [-> | [-> | [-> | []]]]; vm_compute in H; injection H as <-;
      do 2 eexists; split_and!; try reflexivity; right; eauto.
Qed.

Lemma perfect_total_witness :
  well_shaped legacy_example /\
  exists s, perfect_workflow ids_example "out.json" legacy_example = Ok s /\
    written s = Some (workflow s) /\ well_shaped (workflow s).
Proof.
  split; [exact legacy_example_well_shaped |].
  exact (perfect_total ids_example "out.json" legacy_example legacy_example_well_shaped).
Defined.

Lemma perfect_webhook_index_error_witness :
  perfect_workflow ids_example "out.json" legacy_empty_webhook = Raise IndexError.
Proof.
  apply (perfect_webhook_index_error _ _ _
           [("nodes", JArr [legacy_node "Webhook"]);
            ("connections", JObj legacy_empty_webhook_conns)]
           [legacy_node "Webhook"] legacy_empty_webhook_conns [("main", JArr [])]); try reflexivity.
  - repeat constructor. do 2 eexists; split; reflexivity.
  - intros name i n Hname H. unfold agent_names in Hname.
    rewrite !elem_of_cons, elem_of_nil in Hname.
    destruct Hname as [-> | [-> | []]]; vm_compute in H; discriminate.
Defined.


Lemma perfect_nodes_typed_witness :
  perfect_workflow ids_example "out.json" legacy_example = Ok example_state /\
  written example_state = Some (workflow example_state) /\
  Forall (fun n => node_typed n = true) (wf_nodes (workflow example_state)).
Proof.
  pose proof example_run as H.
  split; [exact H |]. apply (perfect_nodes_typed _ _ _ _ H). cbn. repeat constructor.
Defined.

Lemma get_node_reference_witness :
  get_node "AI Agent" (mkState legacy_example [] None) = Ok (Some (5, legacy_node "AI Agent")) /\
  exists e, get_node "AI Agent" (mkState (JObj [("nodes", JArr [JObj []; legacy_node "AI Agent"])]) [] None) = Raise e.
Proof.
  split.
  - rewrite (proj1 (get_node_reference "AI Agent" (mkState legacy_example [] None) _
                      (legacy_node <$> legacy_chain) eq_refl eq_refl)); [reflexivity |].
    vm_compute. repeat (first [reflexivity | constructor | eexists]).
  - apply (get_node_reference "AI Agent" _ [("nodes", JArr [JObj []; legacy_node "AI Agent"])]
             [JObj []; legacy_node "AI Agent"]); [reflexivity | reflexivity |].
    intros Hf. apply Forall_cons in Hf as [(kv & v & Hkv & Hv) _]. injection Hkv as <-. discriminate.
Defined.


End Perfect.
