(* ===== verification/Scraper.v ===== *)
(** * Scraper: [src/execution/build_scraper_workflow.py]

    The script builds, from literals, the ingestion workflow: a schedule
    trigger with a randomized minute, a JavaScript user-agent rotator, an
    HTTP fetch of a listing page with the rotated header, an AI agent that
    extracts and scores agencies, and a Supabase upsert of each extracted
    lead whose [status] column is computed by the n8n expression
    [$json.LeadScore > 7 ? 'PRIORITY' : 'READY_TO_PROCESS'].

    [build_scraper] runs the module-level statements in the state model of
    [PerfectWorkflow] (a global [workflow], the printed lines, the written
    document). The second half of the file models the upsert's column
    expressions as n8n evaluates them on an item: [$json.F] reads field [F]
    of the item ([None] when the field is absent, JavaScript's
    [undefined]); [>] converts its operand with JavaScript's [ToNumber]
    ([to_number], with [string_to_number] for strings, which rounds the
    decimal value to the nearest binary64 number, [to_binary64]) and
    compares numerically, NaN comparing false. JSON numbers are taken as
    the binary64 values they already are ([JNum] holds them exactly). *)

From Stdlib Require Import ZArith QArith.
From Stdlib Require Import Ascii.
From stdpp Require Import base list sets strings.
From S2P Require Import Prelude Json Workflow.

#[local] Set Warnings "-clear-no-such-hyp".
Local Open Scope string_scope.

Module Scraper.

(** ** The literals (lines 9-114) *)

Record uuids := {
  id_trigger : string;
  id_rotator : string;
  id_fetch : string;
  id_parser : string;
  id_upsert : string
}.

(** Five fixed values for the [str(uuid.uuid4())] calls. *)
Definition ids_example : uuids :=
  {| id_trigger := "u1"; id_rotator := "u2"; id_fetch := "u3"; id_parser := "u4"; id_upsert := "u5" |}.

Definition ua_js_code : string :=
  "const uas = [" ++ nl ++
  "  'Mozilla/5.0 (Windows NT 10.0; Win64; x64) AppleWebKit/537.36 (KHTML, like Gecko) Chrome/120.0.0.0 Safari/537.36'," ++ nl ++
  "  'Mozilla/5.0 (Macintosh; Intel Mac OS X 10_15_7) AppleWebKit/537.36 (KHTML, like Gecko) Chrome/119.0.0.0 Safari/537.36'," ++ nl ++
  "  'Mozilla/5.0 (X11; Linux x86_64) AppleWebKit/537.36 (KHTML, like Gecko) Chrome/118.0.0.0 Safari/537.36'" ++ nl ++
  "];" ++ nl ++
  "return { " ++ nl ++
  "    userAgent: uas[Math.floor(Math.random() * uas.length)]," ++ nl ++
  "    timestamp: new Date().toISOString()" ++ nl ++
  "};".

Definition parsing_prompt : string :=
  "Extract ALL real estate agencies from this Swiss data. " ++ nl ++
  "FOR EACH LEAD, CALCULATE A 'LEAD_SCORE' (1-10) BASED ON:" ++ nl ++
  "- Brand recognizable in Switzerland (+2)" ++ nl ++
  "- High inventory / Luxury listings (+3)" ++ nl ++
  "- Commercial/Office focus (+2)" ++ nl ++
  "- Completeness of contact info (+3)" ++ nl ++
  nl ++
  "EXTRACT: AgencyName, LeadScore, Sector (Luxury/Standard/Commercial), City, Phone." ++ nl ++
  "Return as a clean JSON ARRAY.".

Definition initial_workflow : json :=
  JObj [("name", JStr "KRONOS Elite Swiss Scraper (High-Performance)");
        ("nodes", JArr []);
        ("connections", JObj []);
        ("settings", JObj [("executionOrder", JStr "v1")])].

Definition trigger_node (id : string) : json :=
  JObj [("parameters", JObj [("rule", JObj [("interval", JArr [
          JObj [("field", JStr "minutes");
                ("value", JStr "={{ Math.floor(Math.random() * 60) }}")]])])]);
        ("id", JStr id);
        ("name", JStr "Randomized Trigger");
        ("type", JStr "n8n-nodes-base.scheduleTrigger");
        ("typeVersion", jint 1);
        ("position", JArr [jint 400; jint 600])].

Definition ua_node (id : string) : json :=
  JObj [("parameters", JObj [("jsCode", JStr ua_js_code)]);
        ("id", JStr id);
        ("name", JStr "User-Agent Rotator");
        ("type", JStr "n8n-nodes-base.code");
        ("typeVersion", jint 2);
        ("position", JArr [jint 600; jint 600])].

Definition fetch_node (id : string) : json :=
  JObj [("parameters", JObj [
          ("url", JStr "https://www.immoscout24.ch/en/real-estate/buy/city-lugano");
          ("headerParameters", JObj [("parameters", JArr [
             JObj [("name", JStr "User-Agent");
                   ("value", JStr ("={{ $node[" ++ dq ++ "User-Agent Rotator" ++ dq ++ "].json.userAgent }}"))]])]);
          ("options", JObj [("retry", JObj [("count", jint 5); ("delay", jint 10000)])])]);
        ("id", JStr id);
        ("name", JStr "Fetch ImmoScout24 (Anti-Bot)");
        ("type", JStr "n8n-nodes-base.httpRequest");
        ("typeVersion", jdec 41 10);
        ("position", JArr [jint 800; jint 600])].

Definition parser_node (id : string) : json :=
  JObj [("parameters", JObj [("options", JObj [("systemMessage", JStr parsing_prompt)])]);
        ("id", JStr id);
        ("name", JStr "AI Elite Parser & Scorer");
        ("type", JStr "@n8n/n8n-nodes-langchain.agent");
        ("typeVersion", jdec 16 10);
        ("position", JArr [jint 1050; jint 600])].

(** The upsert's column expressions (lines 101-104). *)
Definition status_expr : string :=
  "={{ $json.LeadScore > 7 ? 'PRIORITY' : 'READY_TO_PROCESS' }}".

Definition upsert_values : list (string * string) :=
  [("company_name", "={{ $json.AgencyName }}");
   ("lead_score", "={{ $json.LeadScore }}");
   ("sector", "={{ $json.Sector }}");
   ("status", status_expr)].

Definition upsert_node (id : string) : json :=
  JObj [("parameters", JObj [
          ("operation", JStr "upsert");
          ("tableId", JStr "leads");
          ("matchColumn", JStr "url");
          ("values", JObj [("values", JArr
             ((fun cv => JObj [("column", JStr cv.1); ("value", JStr cv.2)]) <$> upsert_values))])]);
        ("id", JStr id);
        ("name", JStr "Supabase - Elite Upsert");
        ("type", JStr "n8n-nodes-base.supabase");
        ("typeVersion", jint 1);
        ("position", JArr [jint 1300; jint 600]);
        ("credentials", JObj [("supabaseApi", JObj [("id", JStr "YOUR_CREDENTIALS"); ("name", JStr "Supabase")])])].

(** The linear flow (lines 117-122). *)
Definition scraper_chain : list string :=
  ["Randomized Trigger"; "User-Agent Rotator"; "Fetch ImmoScout24 (Anti-Bot)";
   "AI Elite Parser & Scorer"; "Supabase - Elite Upsert"].

Definition scraper_connections : json :=
  JObj [("Randomized Trigger", main_conn [["User-Agent Rotator"]]);
        ("User-Agent Rotator", main_conn [["Fetch ImmoScout24 (Anti-Bot)"]]);
        ("Fetch ImmoScout24 (Anti-Bot)", main_conn [["AI Elite Parser & Scorer"]]);
        ("AI Elite Parser & Scorer", main_conn [["Supabase - Elite Upsert"]])].

(** ** The script *)

Record state := mkState {
  workflow : json;
  stdout : list string;
  written : option json
}.

Definition set_wf (w : json) (s : state) : state := mkState w (stdout s) (written s).

(** [add_node] (lines 16-18): append, then return [node['name']]. *)
Definition add_node (node : json) (s : state) : res (json * state) :=
  nodes <- getitem (workflow s) (IKey "nodes") ;;
  nodes' <- py_append nodes node ;;
  w' <- setitem (workflow s) (IKey "nodes") nodes' ;;
  nm <- getitem node (IKey "name") ;;
  Ok (nm, set_wf w' s).

(** Lines 9-127: five [add_node] calls (the returned names are unused),
    [workflow['connections'] = {...}], [json.dump], [print]. *)
Definition build_scraper (ids : uuids) (output_path : string) : res state :=
  let s0 := mkState initial_workflow [] None in
  r1 <- add_node (trigger_node (id_trigger ids)) s0 ;;
  r2 <- add_node (ua_node (id_rotator ids)) r1.2 ;;
  r3 <- add_node (fetch_node (id_fetch ids)) r2.2 ;;
  r4 <- add_node (parser_node (id_parser ids)) r3.2 ;;
  r5 <- add_node (upsert_node (id_upsert ids)) r4.2 ;;
  w' <- setitem (workflow r5.2) (IKey "connections") scraper_connections ;;
  Ok (mkState w' (stdout r5.2 ++ ["Elite Swiss Scraper JSON generated at " ++ output_path]) (Some w')).

Local Close Scope string_scope.

(** ** The upsert's expressions as n8n evaluates them on an item *)

(** A JavaScript number: NaN, an infinity, or a finite value. *)
Inductive jsnum : Type :=
  | NaN
  | PosInf
  | NegInf
  | Fin (q : Q).

(** [StrWhiteSpaceChar] restricted to ASCII: tab, LF, VT, FF, CR, space. *)
Definition js_space (c : ascii) : bool :=
  match Ascii.nat_of_ascii c with 9 | 10 | 11 | 12 | 13 | 32 => true | _ => false end.

Fixpoint drop_space (l : list ascii) : list ascii :=
  match l with
  | c :: l' => if js_space c then drop_space l' else l
  | [] => []
  end.

Definition trim (l : list ascii) : list ascii := rev (drop_space (rev (drop_space l))).

(** The value of a digit in [base] (2, 8, 10 or 16). *)
Definition digit_val (base : nat) (c : ascii) : option nat :=
  let n := Ascii.nat_of_ascii c in
  let d := if (48 <=? n) && (n <=? 57) then Some (n - 48)
           else if (97 <=? n) && (n <=? 102) then Some (n - 87)
           else if (65 <=? n) && (n <=? 70) then Some (n - 55)
           else None in
  match d with Some v => if v <? base then Some v else None | None => None end.

(** The longest prefix of [base] digits: their values and the rest. *)
Fixpoint span_digits (base : nat) (l : list ascii) : list nat * list ascii :=
  match l with
  | c :: l' =>
      match digit_val base c with
      | Some d => let '(ds, r) := span_digits base l' in (d :: ds, r)
      | None => ([], l)
      end
  | [] => ([], [])
  end.

Definition digits_value (base : nat) (ds : list nat) : Z :=
  fold_left (fun acc d => acc * Z.of_nat base + Z.of_nat d)%Z ds 0%Z.

(** [ExponentPart] followed by the end of the input ([Some 0] for no
    exponent). *)
Definition parse_exponent (l : list ascii) : option Z :=
  match l with
  | [] => Some 0%Z
  | c :: l' =>
      if bool_decide (c = "e"%char \/ c = "E"%char) then
        let '(sgn, l'') := match l' with
                           | "+"%char :: r => (1%Z, r)
                           | "-"%char :: r => ((-1)%Z, r)
                           | _ => (1%Z, l')
                           end in
        let '(ds, rest) := span_digits 10 l'' in
        if bool_decide (ds <> [] /\ rest = []) then Some (sgn * digits_value 10 ds)%Z else None
      else None
  end.

(** Integer division rounding half to even, for [0 < d]. *)
Definition round_div (n d : Z) : Z :=
  let q := (n / d)%Z in
  match Z.compare (2 * (n mod d)) d with
  | Lt => q
  | Gt => q + 1
  | Eq => if Z.even q then q else q + 1
  end%Z.

(** The binary64 value nearest to [n / d], for [0 < n] and [0 < d],
    ties to even ([RoundMVtoNumber]): [e] is the exponent with
    [2^e <= n/d < 2^(e+1)], the significand has 53 bits in the normal
    range and the step is [2^-1074] below it; [None] when the rounded
    value reaches [2^1024] (an infinity). The value is [m / 2^s]. *)
Definition round_pos (n d : Z) : option Q :=
  let e0 := (Z.log2 n - Z.log2 d)%Z in
  let e := if (n * 2 ^ Z.max 0 (- e0) <? d * 2 ^ Z.max 0 e0)%Z then (e0 - 1)%Z else e0 in
  let s := (52 - Z.max e (-1022))%Z in
  let m := round_div (n * 2 ^ Z.max 0 s) (d * 2 ^ Z.max 0 (- s)) in
  if (2 ^ (1024 + s) <=? m)%Z then None
  else Some (if (0 <=? s)%Z then Qmake m (Z.to_pos (2 ^ s)) else inject_Z (m * 2 ^ (- s))).

(** The number value of a mathematical value [q]. *)
Definition to_binary64 (q : Q) : jsnum :=
  match Qnum q with
  | Z0 => Fin 0
  | Zpos n => match round_pos (Zpos n) (Zpos (Qden q)) with Some r => Fin r | None => PosInf end
  | Zneg n => match round_pos (Zpos n) (Zpos (Qden q)) with Some r => Fin (- r) | None => NegInf end
  end.

(** [StrUnsignedDecimalLiteral]: [Infinity], or digits with an optional
    fraction and exponent, at least one digit before or after the dot. *)
Definition parse_unsigned_decimal (l : list ascii) : jsnum :=
  if bool_decide (l = String.list_ascii_of_string "Infinity") then PosInf else
  let '(ip, r1) := span_digits 10 l in
  let '(fp, r2) := match r1 with
                   | "."%char :: r => span_digits 10 r
                   | _ => ([], r1)
                   end in
  if bool_decide (ip = [] /\ fp = []) then NaN else
  match parse_exponent r2 with
  | Some e => to_binary64 (inject_Z (digits_value 10 (ip ++ fp)) * Qpower (10 # 1) (e - Z.of_nat (length fp)))
  | None => NaN
  end.

Definition js_neg (x : jsnum) : jsnum :=
  match x with NaN => NaN | PosInf => NegInf | NegInf => PosInf | Fin q => Fin (- q) end.

(** [0x], [0o], [0b] literals: the whole rest must be digits. *)
Definition parse_prefixed (base : nat) (l : list ascii) : jsnum :=
  let '(ds, rest) := span_digits base l in
  if bool_decide (ds <> [] /\ rest = []) then to_binary64 (inject_Z (digits_value base ds)) else NaN.

(** [ToNumber] applied to a string ([StringToNumber]). *)
Definition string_to_number (s : string) : jsnum :=
  match trim (String.list_ascii_of_string s) with
  | [] => Fin 0
  | "0"%char :: ("x" | "X")%char :: r => parse_prefixed 16 r
  | "0"%char :: ("o" | "O")%char :: r => parse_prefixed 8 r
  | "0"%char :: ("b" | "B")%char :: r => parse_prefixed 2 r
  | "+"%char :: r => parse_unsigned_decimal r
  | "-"%char :: r => js_neg (parse_unsigned_decimal r)
  | l => parse_unsigned_decimal l
  end.

(** [ToNumber] of a JSON value. An array converts through its [join(",")]:
    the empty array is [0], an array of two or more elements contains a
    comma and is NaN, a one-element array converts as its element's
    string, which for a number is that number, for [null] is [""] (so
    [0]) and for a boolean is ["true"]/["false"] (so NaN). *)
Fixpoint to_number_json (v : json) : jsnum :=
  match v with
  | JNull => Fin 0
  | JBool b => Fin (if b then 1 else 0)
  | JNum q => Fin q
  | JStr s => string_to_number s
  | JArr [] => Fin 0
  | JArr [x] => match x with JBool _ => NaN | _ => to_number_json x end
  | JArr _ => NaN
  | JObj _ => NaN
  end.

(** [ToNumber] of [$json.F]: an absent field is [undefined], NaN. *)
Definition to_number (v : option json) : jsnum :=
  match v with Some j => to_number_json j | None => NaN end.

(** [x > y] on numbers: false when either side is NaN. *)
Definition js_gt (x y : jsnum) : bool :=
  match x, y with
  | NaN, _ | _, NaN => false
  | PosInf, PosInf => false
  | PosInf, _ => true
  | NegInf, _ => false
  | Fin _, PosInf => false
  | Fin _, NegInf => true
  | Fin a, Fin b => negb (Qle_bool a b)
  end.

(** [$json.LeadScore > 7 ? 'PRIORITY' : 'READY_TO_PROCESS'] (line 104). *)
Definition status_of (item : json) : string :=
  if js_gt (to_number (obj_field item "LeadScore")) (Fin 7) then "PRIORITY"
  else "READY_TO_PROCESS".

(** The field [F] of an expression [={{ $json.F }}], when [F] is a plain
    identifier. *)
Definition ident_char (c : ascii) : bool :=
  let n := Ascii.nat_of_ascii c in
  ((48 <=? n) && (n <=? 57)) || ((65 <=? n) && (n <=? 90)) ||
  ((97 <=? n) && (n <=? 122)) || (n =? 95) || (n =? 36).

Definition field_of_expr (e : string) : option string :=
  let pre := "={{ $json." in
  let suf := " }}" in
  let n := String.length e in
  if String.prefix pre e &&
     str_eqb (String.substring (n - 3) 3 e) suf && (String.length pre + 3 <? n)%nat then
    let f := String.substring (String.length pre) (n - String.length pre - 3) e in
    if forallb ident_char (String.list_ascii_of_string f) then Some f else None
  else None.

(** The value an upsert column expression gives on an item ([None]:
    [undefined]). *)
Definition eval_column (e : string) (item : json) : option json :=
  match field_of_expr e with
  | Some f => obj_field item f
  | None => if str_eqb e status_expr then Some (JStr (status_of item)) else None
  end.

(** The row the upsert writes for one item of the parser's output. *)
Definition upsert_row (item : json) : list (string * option json) :=
  (fun cv => (cv.1, eval_column cv.2 item)) <$> upsert_values.

(** C7 *)
(** The priority rule on numeric scores: a lead whose [LeadScore] is the
    JSON number [q] is classified [PRIORITY] exactly when [q > 7], and
    [READY_TO_PROCESS] otherwise (so 8 gives PRIORITY and 7 gives
    READY_TO_PROCESS, as the spec's P3 requires; 7.5 gives PRIORITY). *)
Theorem status_number item q :
  obj_field item "LeadScore" = Some (JNum q) ->
  (status_of item = "PRIORITY" <-> (7 < q)%Q) /\
  (status_of item = "READY_TO_PROCESS" <-> (q <= 7)%Q).
Proof.
  intros H. unfold status_of. rewrite H. simpl.
  destruct (Qle_bool q 7) eqn:E; simpl.
  - apply Qle_bool_iff in E. split; split; try done; intros ?; exfalso; eapply Qle_not_lt; eauto.
  - assert (Hlt : (7 < q)%Q) by (apply Qnot_le_lt; intros Hle; apply Qle_bool_iff in Hle; congruence).
    split; split; try done; intros ?; exfalso; eapply Qle_not_lt; eauto.
Qed.

(** The four column expressions of the upsert evaluate to the item's
    [AgencyName], [LeadScore] and [Sector] fields and to the status rule. *)
Lemma upsert_row_eq item :
  upsert_row item =
    [("company_name", obj_field item "AgencyName"); ("lead_score", obj_field item "LeadScore");
     ("sector", obj_field item "Sector"); ("status", Some (JStr (status_of item)))].
Proof. reflexivity. Qed.

Lemma status_of_nan item : to_number (obj_field item "LeadScore") = NaN -> status_of item = "READY_TO_PROCESS".
Proof. intros H. unfold status_of. by rewrite H. Qed.

(** A score given as a decimal string is compared after rounding to
    binary64: ["7.00000000000000001"] is the number 7, so not above 7,
    while ["7.000000000000001"] is above it. *)
Lemma status_of_decimal_strings :
  status_of (JObj [("LeadScore", JStr "7.00000000000000001")]) = "READY_TO_PROCESS" /\
  status_of (JObj [("LeadScore", JStr "7.000000000000001")]) = "PRIORITY".
Proof. split; vm_compute; reflexivity. Qed.

(** C10 *)
(** The script writes a document whose nodes are the five stages in order,
    with unique names, whose connections form the chain trigger, rotator,
    fetch, parser, upsert, and which has no dangling edge and no orphan
    connection key; it prints the output path. *)
Theorem scraper_document ids p :
  exists s, build_scraper ids p = Ok s /\
    written s = Some (workflow s) /\
    node_names (workflow s) = scraper_chain /\ NoDup (node_names (workflow s)) /\
    edges (workflow s) = zip scraper_chain (tail scraper_chain) /\
    dangling (workflow s) = [] /\ orphans (workflow s) = [] /\
    stdout s = ["Elite Swiss Scraper JSON generated at " ++ p]%string.
Proof.
  eexists. split; [reflexivity |]. cbn [written workflow stdout].
  split_and!; try reflexivity. vm_compute. repeat constructor; vm_compute; set_solver.
Qed.

(** Witnesses. *)
Lemma status_number_witness :
  obj_field (JObj [("LeadScore", jint 8)]) "LeadScore" = Some (JNum 8) /\
  status_of (JObj [("LeadScore", jint 8)]) = "PRIORITY".
Proof. split; [reflexivity | apply (proj2 (proj1 (status_number (JObj [("LeadScore", jint 8)]) 8 eq_refl))); reflexivity]. Defined.

End Scraper.
