(* ===== verification/Fetch.v ===== *)
(** * The fetch step of the scraper and its retry contract

    Spec 6 (Fetch collaborator): the listing page is fetched with a
    rotated [User-Agent] header, retrying up to 5 times with a fixed 10 s
    pause on transport failure, then giving a terminal fetch error.
    [build_scraper_workflow.py] (lines 53-66) writes this as the HTTP
    Request node [fetch_node] with the header under [headerParameters]
    and [options.retry = {count: 5, delay: 10000}].

    What n8n does with such a node, modelled here as a library (not
    repository code): its [WorkflowExecute] retries a node only when the
    node-level setting [retryOnFail] is [true], then makes
    [Math.min(5, Math.max(2, node.maxTries || 3))] tries, pausing
    [Math.min(5000, Math.max(0, node.waitBetweenTries || 1000))] ms
    before each try after the first ([max_tries], [wait_between],
    [run_node]); the HTTP Request node (version 4) sends
    [headerParameters] only when its parameter [sendHeaders] is [true]
    ([sent_headers]). A transport is a function from the try number to
    the page it returns, or [None] for a transport failure. *)

From Stdlib Require Import ZArith QArith Qminmax Qround.
From stdpp Require Import base list strings.
From S2P Require Import Prelude Json Workflow Scraper.

Module Fetch.
Import Scraper.

(** ** n8n's node settings *)

(** [x || d] on a JSON number: [0] and a missing or non-numeric value
    give [d]. *)
Definition num_or (j : option json) (d : Q) : Q :=
  match j with
  | Some (JNum q) => if Qeq_bool q 0 then d else q
  | _ => d
  end.

Definition qclamp (lo hi q : Q) : Q := Qmin hi (Qmax lo q).

Definition retry_on_fail (node : json) : bool :=
  match obj_field node "retryOnFail" with Some (JBool true) => true | _ => false end.

(** The number of tries: the loop [tryIndex < maxTries] runs
    [ceil maxTries] times. *)
Definition max_tries (node : json) : nat :=
  if retry_on_fail node then Z.to_nat (Qceiling (qclamp 2 5 (num_or (obj_field node "maxTries") 3))) else 1.

Definition wait_between (node : json) : Q :=
  if retry_on_fail node then qclamp 0 5000 (num_or (obj_field node "waitBetweenTries") 1000) else 0.

Inductive outcome : Type :=
  | Fetched (page : string)
  | FetchFailure.

(** The try loop from try [i] with [n] tries left: the tries made and the
    outcome. *)
Fixpoint try_loop (transport : nat -> option string) (n i : nat) : nat * outcome :=
  match n with
  | 0 => (i, FetchFailure)
  | S n' => match transport i with
            | Some page => (S i, Fetched page)
            | None => try_loop transport n' (S i)
            end
  end.

Definition run_node (node : json) (transport : nat -> option string) : nat * outcome :=
  try_loop transport (max_tries node) 0.

(** ** The HTTP Request node's headers *)

Definition header_pair (h : json) : option (string * string) :=
  match as_str (obj_field h "name"), as_str (obj_field h "value") with
  | Some k, Some v => Some (k, v)
  | _, _ => None
  end.

Definition params (node : json) : json := default JNull (obj_field node "parameters").

(** The headers written under [headerParameters.parameters]. *)
Definition header_params (node : json) : list (string * string) :=
  omap header_pair (as_arr (obj_field (default JNull (obj_field (params node) "headerParameters")) "parameters")).

Definition sent_headers (node : json) : list (string * string) :=
  match obj_field (params node) "sendHeaders" with
  | Some (JBool true) => header_params node
  | _ => []
  end.

(** The [options.retry] the script writes. *)
Definition retry_option (node : json) : option json :=
  obj_field (default JNull (obj_field (params node) "options")) "retry".

(** ** The contract of spec 6

    A fetch with up to [retries] retries: it returns the page of the
    first try that succeeds, after at most [retries + 1] tries, or fails
    after [retries + 1] failed tries. *)
Definition fetch_spec (retries : nat) (transport : nat -> option string) (r : nat * outcome) : Prop :=
  match r with
  | (n, Fetched page) => 1 <= n <= S retries /\ transport (pred n) = Some page /\
                         forall j, j < pred n -> transport j = None
  | (n, FetchFailure) => n = S retries /\ forall j, j < n -> transport j = None
  end.

(** ** Theorems *)

(** C8 *)
(** The written fetch node tries once and sends no header. The script
    writes the retry policy of spec 6 as [options.retry] (5 tries, 10000
    ms), which is not a setting n8n reads, and no node-level
    [retryOnFail], so n8n makes one try with no pause: the first
    transport failure is the terminal fetch error, where spec 6 retries
    it. It writes the rotated [User-Agent] under [headerParameters]
    without [sendHeaders], so the request carries no header and the
    rotation (spec 6) has no effect. *)
Theorem fetch_single_try id transport :
  retry_option (fetch_node id) = Some (JObj [("count", jint 5); ("delay", jint 10000)]) /\
  max_tries (fetch_node id) = 1 /\ wait_between (fetch_node id) = 0%Q /\
  run_node (fetch_node id) transport =
    (1, match transport 0 with Some page => Fetched page | None => FetchFailure end) /\
  (transport 0 = None -> ~ fetch_spec 5 transport (run_node (fetch_node id) transport)) /\
  header_params (fetch_node id) = [("User-Agent", ("={{ $node[" ++ dq ++ "User-Agent Rotator" ++ dq ++ "].json.userAgent }}")%string)] /\
  sent_headers (fetch_node id) = [].
Proof.
  assert (Hr : run_node (fetch_node id) transport =
                 (1, match transport 0 with Some page => Fetched page | None => FetchFailure end))
    by (unfold run_node; simpl; by destruct (transport 0)).
  split_and!; try reflexivity; [exact Hr |].
  intros H0. rewrite Hr, H0. simpl. lia.
Qed.

(** ** Witnesses *)

Lemma fetch_single_try_witness :
  ~ fetch_spec 5 (fun i => if decide (i = 1) then Some "<html>" else None)
      (run_node (fetch_node "u3") (fun i => if decide (i = 1) then Some "<html>" else None)).
Proof.
  exact (proj1 (proj2 (proj2 (proj2 (proj2 (fetch_single_try "u3" (fun i => if decide (i = 1) then Some "<html>" else None))))))
           eq_refl).
Defined.

End Fetch.
