(* ===== verification/Regex.v ===== *)
(** * The subset of Python's [re] the sanitizer's patterns use

    A backtracking matcher in continuation-passing style with the
    priority order of CPython's [sre]: alternatives left to right, a
    greedy repeat of a one-character class longest first, a lazy one
    shortest first; [^] and [$] in MULTILINE mode; numbered capturing
    groups. [re.subn] scans left to right, replacing each leftmost match
    and resuming after it. Text is a list of ASCII characters. *)

From Stdlib Require Import Ascii.
From stdpp Require Import base list strings.
From S2P Require Import Prelude.

Module Regex.

(** ** Syntax *)

Inductive regex : Type :=
  | RClass (c : ascii -> bool)              (** one character of a class *)
  | REmpty                                  (** the empty string *)
  | RSeq (r1 r2 : regex)
  | RAlt (r1 r2 : regex)                    (** [r1|r2] *)
  | RStar (c : ascii -> bool) (greedy : bool) (** [c*] or [c*?] on a class *)
  | RBol                                    (** [^] under [re.M] *)
  | REol                                    (** [$] under [re.M] *)
  | RGroup (n : nat) (r : regex).           (** [( r )], group [n] *)

Definition newline : ascii := Ascii.ascii_of_nat 10.

(** The text each group captured, most recent first. *)
Definition caps := list (nat * list ascii).

Definition group (cs : caps) (n : nat) : list ascii :=
  match list_find (fun p => p.1 = n) cs with Some (_, (_, t)) => t | None => [] end.

(** ** Character classes *)

Definition chr (n : nat) : ascii := Ascii.ascii_of_nat n.
Definition code (c : ascii) : nat := Ascii.nat_of_ascii c.

(** [str.lower] on ASCII. *)
Definition lower (c : ascii) : ascii :=
  let n := code c in if (65 <=? n) && (n <=? 90) then chr (n + 32) else c.

(** A literal character under [re.I]. *)
Definition ci (a : ascii) : ascii -> bool := fun x => bool_decide (lower x = lower a).

(** A character set [[...]] of literal characters. *)
Definition one_of (l : list ascii) : ascii -> bool := fun x => bool_decide (x ∈ l).

(** [\s] on a [str] pattern: [str.isspace], on ASCII the characters
    9-13 and 28-32. *)
Definition is_space (c : ascii) : bool :=
  let n := code c in ((9 <=? n) && (n <=? 13)) || ((28 <=? n) && (n <=? 32)).

(** [.] without DOTALL. *)
Definition any_but_nl (c : ascii) : bool := negb (bool_decide (c = newline)).

(** ** Derived forms *)

Fixpoint seqs (l : list regex) : regex :=
  match l with [] => REmpty | [r] => r | r :: l' => RSeq r (seqs l') end.

Definition RFail : regex := RClass (fun _ => false).

Fixpoint alts (l : list regex) : regex :=
  match l with [] => RFail | [r] => r | r :: l' => RAlt r (alts l') end.

(** [r?], greedy. *)
Definition ROpt (r : regex) : regex := RAlt r REmpty.

(** A literal word under [re.I]. *)
Definition word_ci (w : string) : regex := seqs (RClass ∘ ci <$> String.list_ascii_of_string w).

(** ** The matcher *)

Fixpoint span_class (c : ascii -> bool) (s : list ascii) : nat :=
  match s with x :: s' => if c x then S (span_class c s') else 0 | [] => 0 end.

(** The character before position [i] of [s], [prev] at position 0. *)
Definition char_before (prev : option ascii) (s : list ascii) (i : nat) : option ascii :=
  match i with 0 => prev | S j => s !! j end.

Fixpoint first_of {R} (l : list nat) (f : nat -> option R) : option R :=
  match l with
  | [] => None
  | i :: l' => match f i with Some x => Some x | None => first_of l' f end
  end.

Section Matcher.
Context {R : Type}.

(** [m r prev s cs k]: match [r] at the start of [s] ([prev] is the
    character before), then run the continuation [k] on the character
    before the rest, the rest and the captures; backtrack into [r] when
    [k] fails. *)
Fixpoint m (r : regex) (prev : option ascii) (s : list ascii) (cs : caps)
    (k : option ascii -> list ascii -> caps -> option R) : option R :=
  match r with
  | RClass c => match s with x :: s' => if c x then k (Some x) s' cs else None | [] => None end
  | REmpty => k prev s cs
  | RSeq r1 r2 => m r1 prev s cs (fun p s' cs' => m r2 p s' cs' k)
  | RAlt r1 r2 => match m r1 prev s cs k with Some x => Some x | None => m r2 prev s cs k end
  | RStar c greedy =>
      let n := span_class c s in
      first_of (if greedy then reverse (seq 0 (S n)) else seq 0 (S n))
        (fun i => k (char_before prev s i) (drop i s) cs)
  | RBol => if bool_decide (prev = None \/ prev = Some newline) then k prev s cs else None
  | REol => match s with [] => k prev s cs | x :: _ => if bool_decide (x = newline) then k prev s cs else None end
  | RGroup n r1 => m r1 prev s cs (fun p s' cs' => k p s' ((n, take (length s - length s') s) :: cs'))
  end.

End Matcher.

(** A match at the start of [s]: the character before the rest, the
    rest, the captures. *)
Definition accept (p : option ascii) (s : list ascii) (cs : caps)
    : option (option ascii * list ascii * caps) := Some (p, s, cs).

Definition match_at (r : regex) (prev : option ascii) (s : list ascii)
    : option (option ascii * list ascii * caps) :=
  m r prev s [] accept.

(** [pattern.subn(f, text)] with fuel: at each position the match at
    that position if there is one (replaced by [f] of its captures),
    otherwise the character is copied. After an empty match one
    character is copied, as [sre] does. *)
Fixpoint subn_go (fuel : nat) (r : regex) (f : caps -> list ascii)
    (prev : option ascii) (s : list ascii) : list ascii * nat :=
  match fuel with
  | 0 => (s, 0)
  | S fuel' =>
      match match_at r prev s with
      | Some (p, s', cs) =>
          if length s' <? length s then
            let '(out, n) := subn_go fuel' r f p s' in (f cs ++ out, S n)
          else
            match s with
            | [] => (f cs, 1)
            | x :: s'' => let '(out, n) := subn_go fuel' r f (Some x) s'' in (f cs ++ x :: out, S n)
            end
      | None =>
          match s with
          | [] => ([], 0)
          | x :: s'' => let '(out, n) := subn_go fuel' r f (Some x) s'' in (x :: out, n)
          end
      end
  end.

(** One unit of fuel per character and one for the end of the text. *)
Definition subn (r : regex) (f : caps -> list ascii) (s : list ascii) : list ascii * nat :=
  subn_go (S (length s)) r f None s.

(** ** Lemmas *)

Lemma m_RSeq {R} r1 r2 prev s cs (k : option ascii -> list ascii -> caps -> option R) :
  m (RSeq r1 r2) prev s cs k = m r1 prev s cs (fun p s' cs' => m r2 p s' cs' k).
Proof. reflexivity. Qed.

Lemma first_of_Some {R} l (f : nat -> option R) x :
  first_of l f = Some x -> exists i, i ∈ l /\ f i = Some x.
Proof.
  induction l as [|i l IH]; simpl; [done |].
  destruct (f i) eqn:E; [intros [= <-]; exists i; split; [apply elem_of_cons; by left | done] |].
  intros (j & Hj & Hf)%IH. exists j. split; [apply elem_of_cons; by right | done].
Qed.

Lemma first_of_hit {R} l1 i l2 (f : nat -> option R) x :
  Forall (fun j => f j = None) l1 -> f i = Some x -> first_of (l1 ++ i :: l2) f = Some x.
Proof. induction 1 as [|j l1 Hj _ IH]; simpl; [by intros -> | rewrite Hj; exact IH]. Qed.

Lemma first_of_none {R} l (f : nat -> option R) :
  Forall (fun j => f j = None) l -> first_of l f = None.
Proof. induction 1 as [|j l Hj _ IH]; simpl; [done | by rewrite Hj]. Qed.

Lemma span_class_app c u s :
  Forall (fun x => c x = true) u -> span_class c (u ++ s) = length u + span_class c s.
Proof. induction 1 as [|x u Hx _ IH]; simpl; [done | by rewrite Hx, IH]. Qed.

Lemma span_class_stop c x s : c x = false -> span_class c (x :: s) = 0.
Proof. simpl. by intros ->. Qed.

Lemma span_class_le c s : span_class c s <= length s.
Proof. induction s as [|x s IH]; simpl; [lia | destruct (c x); simpl; lia]. Qed.

(** The matcher hands its continuation a suffix of the text. *)
Lemma m_suffix {R} r prev s cs (k : option ascii -> list ascii -> caps -> option R) x :
  m r prev s cs k = Some x -> exists p u s' cs', s = u ++ s' /\ k p s' cs' = Some x.
Proof.
  revert prev s cs k. induction r as [c| |r1 IH1 r2 IH2|r1 IH1 r2 IH2|c g| | |n r IH];
    intros prev s cs k H; simpl in H.
  - destruct s as [|y s]; [done |]. destruct (c y); [| done]. by exists (Some y), [y], s, cs.
  - by exists prev, [], s, cs.
  - apply IH1 in H as (p & u & s1 & cs1 & -> & H). apply IH2 in H as (p2 & u2 & s2 & cs2 & -> & H).
    exists p2, (u ++ u2), s2, cs2. by rewrite app_assoc.
  - destruct (m r1 prev s cs k) eqn:E; [injection H as <-; by apply IH1 in E | by apply IH2 in H].
  - apply first_of_Some in H as (i & _ & H). exists (char_before prev s i), (take i s), (drop i s), cs.
    by rewrite take_drop.
  - case_bool_decide; [by exists prev, [], s, cs | done].
  - destruct s as [|y s]; [by exists prev, [], [], cs |].
    case_bool_decide; [by exists prev, [], (y :: s), cs | done].
  - apply IH in H as (p & u & s1 & cs1 & -> & H). eexists p, u, s1, _. split; [done | exact H].
Qed.

Lemma match_at_suffix r prev s p s' cs :
  match_at r prev s = Some (p, s', cs) -> length s' <= length s.
Proof.
  unfold match_at. intros (p1 & u & s1 & cs1 & -> & [= -> -> ->])%m_suffix.
  rewrite length_app. lia.
Qed.

(** Unfolding [subn_go] one step. *)
Lemma subn_go_hit fuel r f prev s p s' cs :
  match_at r prev s = Some (p, s', cs) -> length s' < length s ->
  subn_go (S fuel) r f prev s = let '(out, n) := subn_go fuel r f p s' in (f cs ++ out, S n).
Proof. intros H Hlt. simpl. rewrite H. by apply Nat.ltb_lt in Hlt as ->. Qed.

Lemma subn_go_miss fuel r f prev x s :
  match_at r prev (x :: s) = None ->
  subn_go (S fuel) r f prev (x :: s) = let '(out, n) := subn_go fuel r f (Some x) s in (x :: out, n).
Proof. intros H. simpl. by rewrite H. Qed.

Lemma subn_go_end fuel r f prev :
  match_at r prev [] = None -> subn_go (S fuel) r f prev [] = ([], 0).
Proof. intros H. simpl. by rewrite H. Qed.

Lemma subn_go_fuel r f fuel1 fuel2 prev s :
  length s < fuel1 -> length s < fuel2 -> subn_go fuel1 r f prev s = subn_go fuel2 r f prev s.
Proof.
  revert fuel2 prev s. induction fuel1 as [|fuel1 IH]; intros [|fuel2] prev s H1 H2; try lia.
  simpl. destruct (match_at r prev s) as [[[p s'] cs]|] eqn:E.
  - destruct (length s' <? length s) eqn:Hlt.
    + apply Nat.ltb_lt in Hlt. by rewrite (IH fuel2) by lia.
    + destruct s as [|x s'']; [done |]. simpl in *. by rewrite (IH fuel2) by lia.
  - destruct s as [|x s'']; [done |]. simpl in *. by rewrite (IH fuel2) by lia.
Qed.

Lemma first_of_top {R} n (f : nat -> option R) x :
  f n = Some x -> first_of (reverse (0 :: seq 1 n)) f = Some x.
Proof. intros H. change (0 :: seq 1 n) with (seq 0 (S n)). rewrite seq_S, reverse_snoc. simpl. by rewrite H. Qed.

(** The text up to the end of a line: the rest is empty or starts with a
    newline. *)
Definition at_eol (rest : list ascii) : Prop := rest = [] \/ exists r', rest = newline :: r'.

Lemma span_line v rest :
  Forall (fun x => any_but_nl x = true) v -> at_eol rest ->
  span_class any_but_nl (v ++ rest) = length v.
Proof.
  intros Hv Hr. rewrite span_class_app by done.
  destruct Hr as [-> | (r' & ->)]; simpl; lia.
Qed.

Lemma lookup_last {A} (x : A) v rest : (x :: v ++ rest) !! length v = last (x :: v).
Proof. revert x. induction v as [|y v IH]; intros x; [done |]. simpl. rewrite <- IH. done. Qed.

Lemma take_eq_prefix {A} (w l : list A) n : n = length w -> take n (w ++ l) = w.
Proof. intros ->. apply take_app_length. Qed.

(** A match that consumes something is replaced, and [subn] resumes
    after it with enough fuel for the rest. *)
Lemma subn_go_step fuel r f prev s p rest cs :
  match_at r prev s = Some (p, rest, cs) -> length rest < length s -> length s < fuel ->
  subn_go fuel r f prev s = let '(out, n) := subn_go (S (length rest)) r f p rest in (f cs ++ out, S n).
Proof.
  intros H Hlt Hf. destruct fuel as [|fuel]; [lia |].
  rewrite (subn_go_hit _ _ _ _ _ _ _ _ H Hlt). by rewrite (subn_go_fuel _ _ fuel (S (length rest))) by lia.
Qed.

(** A lazy repeat stops at the first length where the continuation
    accepts. *)
Lemma first_of_lazy {R} n j (f : nat -> option R) x :
  j <= n -> (forall i, i < j -> f i = None) -> f j = Some x -> first_of (0 :: seq 1 n) f = Some x.
Proof.
  intros Hj Hlt Hf. change (0 :: seq 1 n) with (seq 0 (S n)).
  replace (S n) with (j + S (n - j)) by lia. rewrite seq_app. simpl.
  apply first_of_hit; [| done]. apply Forall_seq. intros i Hi. apply Hlt. lia.
Qed.

(** [subn] terminates within its fuel: one unit per character and one
    for the end of the text suffice, and more fuel gives the same
    result. *)
Theorem subn_fuel_enough r f s fuel :
  length s < fuel -> subn_go fuel r f None s = subn r f s.
Proof. intros H. unfold subn. apply subn_go_fuel; lia. Qed.

End Regex.
