(* ===== verification/Sanitizer.v ===== *)
(** * The secret sanitizer: [src/scripts/sanitize_secrets.py]

    [KEY_PATTERN] and [ENV_PATTERN] (lines 14-15) as [Regex.regex]
    values, the two replacement functions, [redact_text] (lines 20-30),
    [is_text_file] (lines 17-18) and [main] (lines 32-52) over a file
    tree given as the list of files [rglob('*')] yields. *)

From Stdlib Require Import Ascii.
From stdpp Require Import base list strings gmap.
From S2P Require Import Prelude Regex.

Module Sanitizer.
Import Regex.

Definition txt (s : string) : list ascii := String.list_ascii_of_string s.

(** ** The patterns (lines 14-15) *)

(** [Q]: a double or a single quote. *)
Definition quote : ascii -> bool := one_of [chr 34; chr 39].
Definition sep : ascii -> bool := one_of ["_"; "-"]%char.          (** [[_-]] *)

(** The alternatives of [KEY_PATTERN], in the order of the source. *)
Definition key_names : list regex :=
  [seqs [word_ci "api"; ROpt (RClass sep); word_ci "key"];
   seqs [word_ci "api"; ROpt (RClass sep); word_ci "token"];
   word_ci "token";
   word_ci "secret";
   word_ci "password";
   seqs [word_ci "access"; ROpt (RClass sep); word_ci "token"];
   word_ci "aws_access_key_id";
   word_ci "aws_secret_access_key";
   word_ci "sendgrid";
   word_ci "twilio"].

(** Case-insensitive. Group 1 ([key_prefix]): an optional quote, a key
    name, an optional quote, spaces, [:] or [=], spaces; then
    [key_value]: group 2 a quote, group 3 the value, lazily, group 4 a
    quote. *)
Definition key_prefix : regex :=
  seqs [ROpt (RClass quote); alts key_names; ROpt (RClass quote);
        RStar is_space true; RClass (one_of [":"; "="]%char); RStar is_space true].

Definition key_value : regex :=
  seqs [RGroup 2 (RClass quote); RGroup 3 (RStar any_but_nl false); RGroup 4 (RClass quote)].

Definition KEY_PATTERN : regex := RSeq (RGroup 1 key_prefix) key_value.

(** The alternatives of [ENV_PATTERN], in the order of the source. *)
Definition env_names : list string :=
  ["API_KEY"; "API_TOKEN"; "TOKEN"; "SECRET"; "PASSWORD"; "ACCESS_TOKEN";
   "AWS_ACCESS_KEY_ID"; "AWS_SECRET_ACCESS_KEY"].

(** Case-insensitive and multi-line: at a line start, group 1: spaces,
    a name, spaces, [=], spaces; group 2: the rest of the line, greedily;
    then the end of the line. *)
Definition ENV_PATTERN : regex :=
  seqs [RBol;
        RGroup 1 (seqs [RStar is_space true; alts (word_ci <$> env_names);
                        RStar is_space true; RClass (ci "="%char); RStar is_space true]);
        RGroup 2 (RStar any_but_nl true);
        REol].

(** ** [redact_text] (lines 20-30) *)

(** [_repl]: [f"{m.group(1)}{m.group(2)}REDACTED{m.group(4)}"]. *)
Definition key_repl (cs : caps) : list ascii :=
  group cs 1 ++ group cs 2 ++ txt "REDACTED" ++ group cs 4.

(** [lambda m: m.group(1) + 'REDACTED'] *)
Definition env_repl (cs : caps) : list ascii := group cs 1 ++ txt "REDACTED".

(** [_repl] sets [changed] once per [KEY_PATTERN] match; afterwards
    [if n1 or n2: changed = True]. *)
Definition redact_text (text : list ascii) : list ascii * bool :=
  let '(text1, n1) := subn KEY_PATTERN key_repl text in
  let changed := negb (n1 =? 0) in
  let '(text2, n2) := subn ENV_PATTERN env_repl text1 in
  let changed := if negb (n1 =? 0) || negb (n2 =? 0) then true else changed in
  (text2, changed).

(** ** [is_text_file] and [main] (lines 17-18, 32-52)

    The workspace is a map from relative paths to file contents; the
    paths [ROOT.rglob('*')] yields are the list [listing], taken when the
    loop starts. A path of the listing that is not a file of the map
    ([p.is_file()] false, or the file gone so [read_text] raises) is
    skipped. *)

Abbreviation fs := (gmap string (list ascii)).

Record run_state := mkRun {
  files : fs;
  changed_files : list string
}.

(** [SKIP_EXT] (line 12). *)
Definition SKIP_EXT : list string :=
  [".png"; ".jpg"; ".jpeg"; ".gif"; ".pdf"; ".docx"; ".xlsx"; ".zip"; ".exe"; ".dll"; ".so"].

(** [str.rfind] of a character. *)
Fixpoint rfind (c : ascii) (l : list ascii) : option nat :=
  match l with
  | [] => None
  | x :: l' =>
      match rfind c l' with
      | Some i => Some (S i)
      | None => if bool_decide (x = c) then Some 0 else None
      end
  end.

(** [PurePath.name]: the text after the last [/]. *)
Definition path_name (p : string) : list ascii :=
  match rfind "/"%char (txt p) with Some i => drop (S i) (txt p) | None => txt p end.

(** [PurePath.suffix]: [i = name.rfind('.')]; [name[i:]] when
    [0 < i < len(name) - 1], else empty. *)
Definition path_suffix (p : string) : list ascii :=
  let nm := path_name p in
  match rfind "."%char nm with
  | Some i => if (0 <? i) && (i <? length nm - 1) then drop i nm else []
  | None => []
  end.

Definition is_text_file (p : string) : bool :=
  negb (bool_decide (lower <$> path_suffix p ∈ txt <$> SKIP_EXT)).

(** [p.with_suffix(p.suffix + '.bak')]: the path with [.bak] appended. *)
Definition bak_path (p : string) : string := p +:+ ".bak".

(** One iteration of the loop of [main] (lines 35-45). *)
Definition process (st : run_state) (p : string) : run_state :=
  if is_text_file p then
    match files st !! p with
    | None => st
    | Some s =>
        let '(new_s, changed) := redact_text s in
        if changed then
          mkRun (<[p := new_s]> (<[bak_path p := s]> (files st))) (changed_files st ++ [p])
        else st
    end
  else st.

(** The report of lines 46-52, one string per printed line. *)
Definition report (changed : list string) : list string :=
  match changed with
  | [] => ["No likely secrets found/redacted."]
  | _ => ["Redacted values in:"] ++ ((fun f => " - " +:+ f) <$> changed) ++
         [nl +:+ "Backups saved with .bak suffix alongside originals. Review before pushing."]
  end.

Definition main (listing : list string) (w : fs) : fs * list string :=
  let st := foldl process (mkRun w []) listing in
  (files st, report (changed_files st)).

(** ** [ENV_PATTERN] on an assignment line *)

(** At the start of a line, [NAME=] followed by spaces and a value that
    starts with a non-space is one match: group 1 runs up to the value
    (the spaces included, newlines among them), the value runs to the
    end of its line. *)
Lemma env_match name prev sp x v rest :
  name ∈ env_names -> prev = None \/ prev = Some newline ->
  Forall (fun c => is_space c = true) sp ->
  is_space x = false -> Forall (fun c => any_but_nl c = true) (x :: v) -> at_eol rest ->
  exists cs, match_at ENV_PATTERN prev (txt name ++ "="%char :: sp ++ x :: v ++ rest) = Some (last (x :: v), rest, cs)
   /\ group cs 1 = txt name ++ "="%char :: sp.
Proof.
  intros Hn Hp Hsp Hx Hv Hr.
  pose proof (span_line (x :: v) rest Hv Hr) as Hs. simpl in Hs.
  assert (Hs2 : span_class is_space (sp ++ x :: v ++ rest) = length sp)
    by (rewrite span_class_app, span_class_stop by done; lia).
  unfold match_at, ENV_PATTERN. cbn [seqs m]. rewrite bool_decide_eq_true_2 by done.
  unfold env_names in Hn. repeat (apply elem_of_cons in Hn as [-> | Hn]); [..| by apply elem_of_nil in Hn].
  all: simpl; rewrite Hs2; erewrite first_of_top; [| cbn beta; rewrite drop_app_length; simpl; rewrite Hs;
    erewrite first_of_top;
    [| cbn beta; change (drop (S (length v)) (x :: v ++ rest)) with (drop (length v) (v ++ rest));
       rewrite drop_app_length; destruct Hr as [-> | (r' & ->)];
       [reflexivity | rewrite bool_decide_eq_true_2 by done; reflexivity]]; reflexivity].
  all: eexists; split; [cbn [char_before]; by rewrite lookup_last |].
  all: unfold group; simpl; lazymatch goal with |- take ?n _ = ?w =>
         apply (take_eq_prefix w (x :: v ++ rest) n); rewrite ?length_app; simpl; rewrite ?length_app; simpl; lia end.
Qed.

Lemma env_line_length name sp x v rest :
  length rest < length (txt name ++ "="%char :: sp ++ x :: v ++ rest).
Proof. repeat (rewrite length_app || rewrite length_cons). lia. Qed.

(** C11 *)
(** An assignment [NAME=value] at the start of a line, [NAME] one of the
    eight names of [ENV_PATTERN], has its value replaced by [REDACTED]
    (the spaces after [=] are kept), and [subn] goes on with the next
    line. *)
Theorem env_line_redacted name prev sp x v rest fuel :
  name ∈ env_names -> prev = None \/ prev = Some newline ->
  Forall (fun c => is_space c = true) sp ->
  is_space x = false -> Forall (fun c => any_but_nl c = true) (x :: v) -> at_eol rest ->
  length (txt name ++ "="%char :: sp ++ x :: v ++ rest) < fuel ->
  subn_go fuel ENV_PATTERN env_repl prev (txt name ++ "="%char :: sp ++ x :: v ++ rest) =
    let '(out, n) := subn_go (S (length rest)) ENV_PATTERN env_repl (last (x :: v)) rest in
    (txt name ++ "="%char :: sp ++ txt "REDACTED" ++ out, S n).
Proof.
  intros Hn Hp Hsp Hx Hv Hr Hf.
  destruct (env_match name prev sp x v rest Hn Hp Hsp Hx Hv Hr) as (cs & Hm & Hg).
  rewrite (subn_go_step _ _ _ _ _ _ _ _ Hm (env_line_length _ _ _ _ _) Hf).
  unfold env_repl. rewrite Hg. destruct (subn_go _ _ _ _ rest). by rewrite <- !app_assoc.
Qed.

(** ** [KEY_PATTERN] on a JSON entry *)

(** The key names of [KEY_PATTERN], one spelling each. *)
Definition key_words : list string :=
  ["api_key"; "api_token"; "token"; "secret"; "password"; "access_token";
   "aws_access_key_id"; "aws_secret_access_key"; "sendgrid"; "twilio"].

Definition dquote : ascii := chr 34.
Definition squote : ascii := chr 39.

Lemma quote_not_space c : quote c = true -> is_space c = false.
Proof. unfold quote, one_of. intros Hq%bool_decide_eq_true. repeat (apply elem_of_cons in Hq as [-> | Hq]); [done | done |]. by apply elem_of_nil in Hq. Qed.

(** Group 2 is the opening quote, the lazy group 3 stops before the
    first quote of either kind, which is group 4. *)
Lemma key_value_match p q1 v q rest cs :
  quote q1 = true -> Forall (fun c => quote c = false /\ any_but_nl c = true) v -> quote q = true ->
  m key_value p (q1 :: v ++ q :: rest) cs accept = Some (Some q, rest, (4, [q]) :: (3, v) :: (2, [q1]) :: cs).
Proof.
  intros Hq1 Hv Hq. cbn [key_value seqs m]. rewrite Hq1.
  assert (Hn : length v <= span_class any_but_nl (v ++ q :: rest)).
  { rewrite span_class_app; [lia |]. eapply Forall_impl; [exact Hv | intros c [_ ?]; done]. }
  apply (first_of_lazy _ (length v)); [exact Hn | |].
  - intros i Hi. destruct (lookup_lt_is_Some_2 v i Hi) as [c Hc].
    rewrite drop_app_le by lia. rewrite (drop_S _ _ _ Hc). simpl.
    rewrite Forall_lookup in Hv. by rewrite (proj1 (Hv _ _ Hc)).
  - rewrite drop_app_length. simpl. rewrite Hq. unfold accept. rewrite !length_app. simpl.
    replace (S (length rest) - length rest) with 1 by lia.
    replace (length v + S (length rest) - S (length rest)) with (length v) by lia.
    replace (S (length v + S (length rest)) - (length v + S (length rest))) with 1 by lia.
    by rewrite take_app_length.
Qed.

(** Group 1 on a double-quoted key name followed by [:] and spaces hands
    the rest to the continuation. *)
Lemma key_prefix_match {R} name prev sp x t cs (k : option ascii -> list ascii -> caps -> option R) r :
  name ∈ key_words -> Forall (fun c => is_space c = true) sp -> is_space x = false ->
  (forall p, k p (x :: t) ((1, dquote :: txt name ++ dquote :: ":"%char :: sp) :: cs) = Some r) ->
  m (RGroup 1 key_prefix) prev (dquote :: txt name ++ dquote :: ":"%char :: sp ++ x :: t) cs k = Some r.
Proof.
  intros Hn Hsp Hx Hk.
  assert (Hs2 : span_class is_space (sp ++ x :: t) = length sp)
    by (rewrite span_class_app, span_class_stop by done; lia).
  unfold key_words in Hn. repeat (apply elem_of_cons in Hn as [-> | Hn]); [..| by apply elem_of_nil in Hn].
  all: simpl; rewrite Hs2; erewrite first_of_top; [reflexivity |]; cbn beta; rewrite drop_app_length;
    lazymatch goal with |- _ _ _ ((1, take ?n ?L) :: _) = _ =>
      lazymatch type of Hk with forall p, _ p _ ((1, ?w) :: _) = _ =>
        replace (take n L) with w; [apply Hk | symmetry; apply (take_eq_prefix w (x :: t) n);
          rewrite ?length_app; simpl; rewrite ?length_app; simpl; lia] end end.
Qed.

Lemma key_match name prev sp q1 v q rest :
  name ∈ key_words -> Forall (fun c => is_space c = true) sp -> quote q1 = true ->
  Forall (fun c => quote c = false /\ any_but_nl c = true) v -> quote q = true ->
  exists cs,
    match_at KEY_PATTERN prev (dquote :: txt name ++ dquote :: ":"%char :: sp ++ q1 :: v ++ q :: rest)
      = Some (Some q, rest, cs) /\
    key_repl cs = dquote :: txt name ++ dquote :: ":"%char :: sp ++ q1 :: txt "REDACTED" ++ [q].
Proof.
  intros Hn Hsp Hq1 Hv Hq. eexists. split.
  - unfold match_at, KEY_PATTERN. rewrite m_RSeq.
    apply (key_prefix_match name prev sp q1 (v ++ q :: rest)); [done | done | by apply quote_not_space |].
    intros p. by apply key_value_match.
  - unfold key_repl, group. simpl. by rewrite <- !app_assoc.
Qed.

Lemma key_entry_length name sp q1 v q rest :
  length rest < length (dquote :: txt name ++ dquote :: ":"%char :: sp ++ q1 :: v ++ q :: rest).
Proof. repeat (rewrite length_app || rewrite length_cons). lia. Qed.

(** C12 *)
(** A JSON entry [\"name\": \"value\"] whose key is one of the names of
    [KEY_PATTERN] and whose value holds no quote has its value replaced by
    [REDACTED], quotes and spacing kept; [subn] goes on after the closing
    quote. *)
Theorem key_json_redacted name prev sp v rest fuel :
  name ∈ key_words -> Forall (fun c => is_space c = true) sp ->
  Forall (fun c => quote c = false /\ any_but_nl c = true) v ->
  length (dquote :: txt name ++ dquote :: ":"%char :: sp ++ dquote :: v ++ dquote :: rest) < fuel ->
  subn_go fuel KEY_PATTERN key_repl prev (dquote :: txt name ++ dquote :: ":"%char :: sp ++ dquote :: v ++ dquote :: rest) =
    let '(out, n) := subn_go (S (length rest)) KEY_PATTERN key_repl (Some dquote) rest in
    (dquote :: txt name ++ dquote :: ":"%char :: sp ++ dquote :: txt "REDACTED" ++ dquote :: out, S n).
Proof.
  intros Hn Hsp Hv Hf.
  destruct (key_match name prev sp dquote v dquote rest Hn Hsp eq_refl Hv eq_refl) as (cs & Hm & Hr).
  rewrite (subn_go_step _ _ _ _ _ _ _ _ Hm (key_entry_length _ _ _ _ _ _) Hf), Hr.
  destruct (subn_go _ _ _ _ rest). f_equal. simpl. repeat (rewrite <- app_assoc; simpl). reflexivity.
Qed.

(** C13 *)
(** The value group is lazy and either quote closes it: in a
    double-quoted value that contains a single quote, only the part
    before the single quote is replaced; the rest of the value, from the
    single quote on, is handed on to [subn] as ordinary text and is kept
    unless it matches again ([\"password\": \"it's-secret\"] becomes
    [\"password\": \"REDACTED's-secret\"]). *)
Theorem key_quote_mismatch_leak name prev sp v w fuel :
  name ∈ key_words -> Forall (fun c => is_space c = true) sp ->
  Forall (fun c => quote c = false /\ any_but_nl c = true) v ->
  length (dquote :: txt name ++ dquote :: ":"%char :: sp ++ dquote :: v ++ squote :: w) < fuel ->
  (subn_go fuel KEY_PATTERN key_repl prev (dquote :: txt name ++ dquote :: ":"%char :: sp ++ dquote :: v ++ squote :: w)).1 =
    dquote :: txt name ++ dquote :: ":"%char :: sp ++ dquote :: txt "REDACTED" ++ squote ::
    (subn_go (S (length w)) KEY_PATTERN key_repl (Some squote) w).1.
Proof.
  intros Hn Hsp Hv Hf.
  destruct (key_match name prev sp dquote v squote w Hn Hsp eq_refl Hv eq_refl) as (cs & Hm & Hr).
  rewrite (subn_go_step _ _ _ _ _ _ _ _ Hm (key_entry_length _ _ _ _ _ _) Hf), Hr.
  destruct (subn_go _ _ _ _ w). simpl. repeat (rewrite <- app_assoc; simpl). reflexivity.
Qed.

(** ** [main]: backups *)

Lemma bak_path_inj p q : bak_path p = bak_path q -> p = q.
Proof. apply string_app_inj_r. Qed.

Lemma bak_path_neq p : bak_path p <> p.
Proof.
  intros H. apply (f_equal (fun s => length (String.list_ascii_of_string s))) in H.
  unfold bak_path in H. rewrite list_ascii_of_string_app, length_app in H. simpl in H. lia.
Qed.

(** A loop iteration on [q] writes [q] and its backup, nothing else. *)
Lemma process_frame st q k :
  k <> q -> k <> bak_path q -> files (process st q) !! k = files st !! k.
Proof.
  intros H1 H2. unfold process. destruct (is_text_file q); [| done].
  destruct (files st !! q) as [s|]; [| done]. destruct (redact_text s) as [new_s []]; [| done].
  cbn [files]. by rewrite !lookup_insert_ne by congruence.
Qed.

Lemma foldl_process_frame l st k :
  (forall q, q ∈ l -> k <> q /\ k <> bak_path q) ->
  files (foldl process st l) !! k = files st !! k.
Proof.
  revert st. induction l as [|q l IH]; intros st Hl; simpl; [done |].
  rewrite IH by (intros q' Hq'; apply Hl; apply elem_of_cons; by right).
  destruct (Hl q) as [H1 H2]; [apply elem_of_cons; by left |]. by apply process_frame.
Qed.

Lemma foldl_process_changed l st :
  exists extra, changed_files (foldl process st l) = changed_files st ++ extra.
Proof.
  revert st. induction l as [|q l IH]; intros st; simpl; [exists []; by rewrite app_nil_r |].
  destruct (IH (process st q)) as [extra ->]. unfold process.
  destruct (is_text_file q); [| by eexists].
  destruct (files st !! q) as [s|]; [| by eexists]. destruct (redact_text s) as [new_s []]; [| by eexists].
  cbn [changed_files]. exists (q :: extra). by rewrite <- app_assoc.
Qed.

Lemma bak_bak_neq p : bak_path (bak_path p) <> p.
Proof.
  intros H. apply (f_equal (fun s => length (String.list_ascii_of_string s))) in H.
  unfold bak_path in H. rewrite !list_ascii_of_string_app, !length_app in H. simpl in H. lia.
Qed.

(** An iteration that redacts [p] writes the new text at [p] and the old
    one at its backup. *)
Lemma process_files st p s s' :
  files st !! p = Some s -> is_text_file p = true -> redact_text s = (s', true) ->
  files (process st p) = <[p := s']> (<[bak_path p := s]> (files st)).
Proof. intros Hs Ht Hr. unfold process. by rewrite Ht, Hs, Hr. Qed.

Lemma process_changed st p c :
  files st !! p = Some c -> is_text_file p = true -> (redact_text c).2 = true ->
  files (process st p) !! p = Some (redact_text c).1 /\
  files (process st p) !! bak_path p = Some c /\ p ∈ changed_files (process st p).
Proof.
  intros Hc Ht Hr. unfold process. rewrite Ht, Hc. destruct (redact_text c) as [new_s ch]. simpl in Hr. subst ch.
  cbn [files changed_files fst]. split_and!.
  - by rewrite lookup_insert_eq.
  - rewrite lookup_insert_ne by (symmetry; apply bak_path_neq).
    by rewrite lookup_insert_eq.
  - apply elem_of_app. right. by apply list_elem_of_singleton.
Qed.

Lemma report_mentions p changed : p ∈ changed -> " - " +:+ p ∈ report changed.
Proof.
  intros Hp. destruct changed as [|f changed]; [by apply elem_of_nil in Hp |].
  unfold report. apply elem_of_app. right. apply elem_of_app. left.
  apply list_elem_of_fmap. by exists p.
Qed.

(** C14 *)
(** [main] keeps a backup of every file it redacts: for a text file [p]
    of the workspace whose text [redact_text] reports changed, the
    workspace after the loop holds the redacted text at [p] and the
    original text at [p.bak], and the report lists [p] - provided no
    other listed path has [p] as its backup and [p.bak] is not listed
    itself (a rerun lists it: see C16). *)
Theorem main_backup listing w p c :
  NoDup listing -> p ∈ listing -> w !! p = Some c -> is_text_file p = true -> (redact_text c).2 = true ->
  bak_path p ∉ listing -> (forall q, q ∈ listing -> bak_path q <> p) ->
  (main listing w).1 !! p = Some (redact_text c).1 /\ (main listing w).1 !! bak_path p = Some c /\
  " - " +:+ p ∈ (main listing w).2.
Proof.
  intros Hnd Hp Hc Ht Hr Hb Hq. apply list_elem_of_split in Hp as (l1 & l2 & ->).
  apply NoDup_app in Hnd as (_ & Hdis & Hnd2). apply NoDup_cons in Hnd2 as [Hp2 _].
  assert (Hin : forall q, q ∈ l1 ++ p :: l2 -> q <> p -> bak_path p <> bak_path q)
    by (intros q _ Hqp Heq; apply Hqp; symmetry; by apply bak_path_inj).
  unfold main. rewrite foldl_app. cbn [foldl].
  set (st1 := foldl process (mkRun w []) l1).
  assert (H1 : files st1 !! p = Some c).
  { unfold st1. rewrite foldl_process_frame; [done |]. intros q Hq1. split.
    - intros ->. apply (Hdis q Hq1). apply elem_of_cons. by left.
    - intros E. apply (Hq q); [apply elem_of_app; by left | done]. }
  destruct (process_changed st1 p c H1 Ht Hr) as (Hp' & Hb' & Hch).
  destruct (foldl_process_changed l2 (process st1 p)) as [extra Hext].
  cbn [fst snd]. rewrite !foldl_process_frame; [split_and! | |].
  - done.
  - done.
  - apply report_mentions. rewrite Hext. apply elem_of_app. by left.
  - intros q Hq2. split.
    + intros E. apply Hb. rewrite E. apply elem_of_app. right. apply elem_of_cons. by right.
    + apply Hin; [apply elem_of_app; right; apply elem_of_cons; by right | intros ->; done].
  - intros q Hq2. split.
    + intros ->. done.
    + intros E. apply (Hq q); [apply elem_of_app; right; apply elem_of_cons; by right | done].
Qed.

(** ** Rerunning the sanitizer *)

(** Every [KEY_PATTERN] match starts its value with a quote. *)
Lemma key_match_quote prev s p rest cs :
  match_at KEY_PATTERN prev s = Some (p, rest, cs) -> exists c, c ∈ s /\ quote c = true.
Proof.
  unfold match_at, KEY_PATTERN. rewrite m_RSeq.
  intros (p1 & u & s1 & cs1 & -> & H)%m_suffix. cbn [key_value seqs m] in H.
  destruct s1 as [|c s1]; [done |]. destruct (quote c) eqn:E; [| done].
  exists c. split; [apply elem_of_app; right; apply elem_of_cons; by left | done].
Qed.

(** Text without quotes goes through [KEY_PATTERN.subn] unchanged. *)
Lemma key_subn_no_quote fuel prev s :
  Forall (fun c => quote c = false) s -> subn_go fuel KEY_PATTERN key_repl prev s = (s, 0).
Proof.
  revert prev s. induction fuel as [|fuel IH]; intros prev s Hs; [done |]. simpl.
  destruct (match_at KEY_PATTERN prev s) as [[[p rest] cs]|] eqn:E.
  - destruct (key_match_quote _ _ _ _ _ E) as (c & Hc & Hq).
    rewrite Forall_forall in Hs. by rewrite (Hs c Hc) in Hq.
  - destruct s as [|x s]; [done |]. apply Forall_cons in Hs as [_ Hs]. by rewrite IH.
Qed.

Lemma env_names_no_quote name :
  name ∈ env_names -> Forall (fun c => quote c = false) (txt name ++ txt "=REDACTED").
Proof.
  unfold env_names. intros Hn. repeat (apply elem_of_cons in Hn as [-> | Hn]); [..| by apply elem_of_nil in Hn].
  all: apply (bool_decide_unpack _); by vm_compute.
Qed.

(** C15 *)
(** Redaction is idempotent on an assignment line but [redact_text]
    still reports it changed: [NAME=REDACTED] comes back unchanged with
    [changed = True], because [changed] counts matches, not differences.
    So a second run of [main] rewrites the file and overwrites its
    [.bak], the backup of the original text, with the redacted text. *)
Theorem redact_redacted_changed name :
  name ∈ env_names ->
  redact_text (txt name ++ txt "=REDACTED") = (txt name ++ txt "=REDACTED", true).
Proof.
  intros Hn. unfold redact_text, subn. rewrite key_subn_no_quote by (by apply env_names_no_quote).
  assert (Hsp : Forall (fun c => is_space c = true) []) by constructor.
  assert (Hv : Forall (fun c => any_but_nl c = true) (txt "REDACTED")) by (apply (bool_decide_unpack _); by vm_compute).
  destruct (env_match name None [] "R"%char (txt "EDACTED") [] Hn (or_introl eq_refl) Hsp eq_refl Hv (or_introl eq_refl))
    as (cs & Hm & Hg).
  change (txt name ++ "="%char :: [] ++ "R"%char :: txt "EDACTED" ++ []) with (txt name ++ txt "=REDACTED") in Hm.
  rewrite (subn_go_step _ _ _ _ _ _ _ _ Hm); [| rewrite length_app; simpl; lia | lia].
  unfold env_repl. rewrite Hg. simpl. by rewrite app_nil_r, <- app_assoc.
Qed.

(** C16 *)
(** A second run of [main] overwrites the backup of the original text,
    whatever order [rglob] lists the file and its backup in. For a text
    [c] that [redact_text] changes into [c'], on which it reports a
    change again (as on every [NAME=REDACTED] line, C15): after the first
    run [p.bak] holds [c]; after the second, [p] and [p.bak] both hold
    [c'], and [c] survives only in [p.bak.bak], and only when the
    backup is listed before [p]. *)
Theorem main_rerun_loses_original p c c' l2 :
  is_text_file p = true -> is_text_file (bak_path p) = true ->
  redact_text c = (c', true) -> redact_text c' = (c', true) -> l2 ≡ₚ [p; bak_path p] ->
  let w1 := (main [p] {[p := c]}).1 in
  let w2 := (main l2 w1).1 in
  w1 !! bak_path p = Some c /\ w2 !! p = Some c' /\ w2 !! bak_path p = Some c' /\
  w2 !! bak_path (bak_path p) = Some (if bool_decide (l2 = [p; bak_path p]) then c' else c).
Proof.
  intros Hp Hb Hc Hc' Hl w1 w2.
  pose proof (bak_path_neq p) as N1. pose proof (bak_path_neq (bak_path p)) as N2. pose proof (bak_bak_neq p) as N3.
  assert (Hw1 : w1 = <[p := c']> (<[bak_path p := c]> {[p := c]}))
    by (unfold w1, main; cbn [foldl]; apply process_files; [apply lookup_singleton_eq | done | done]).
  unfold w2. clearbody w1. subst w1. unfold main. cbn [fst].
  set (st := mkRun (<[p := c']> (<[bak_path p := c]> {[p := c]})) []).
  assert (Ep : files (process st p) = <[p := c']> (<[bak_path p := c']> (files st)))
    by (apply process_files; [cbn; by simplify_map_eq | done | done]).
  assert (Eb : files (process st (bak_path p)) = <[bak_path p := c']> (<[bak_path (bak_path p) := c]> (files st)))
    by (apply process_files; [cbn; by simplify_map_eq | done | done]).
  apply Permutation_sym, Permutation_length_2_inv in Hl as [-> | ->]; cbn [foldl].
  - rewrite bool_decide_eq_true_2 by done.
    rewrite (process_files _ (bak_path p) c' c'); [| rewrite Ep; by simplify_map_eq | done | done].
    rewrite Ep. cbn [files st]. split_and!; by simplify_map_eq.
  - rewrite bool_decide_eq_false_2 by (intros [= E]; by apply N1).
    rewrite (process_files _ p c' c'); [| rewrite Eb; cbn [files st]; by simplify_map_eq | done | done].
    rewrite Eb. cbn [files st]. split_and!; by simplify_map_eq.
Qed.

(** Names outside the two lists are not redacted, even when they contain
    a listed word: [SECRET_KEY=\"abc\"] ([secret] must be followed by the
    separator) and [DB_PASSWORD=xyz] ([ENV_PATTERN] needs the name at the
    start of the line, [KEY_PATTERN] a quoted value) come back unchanged
    and [changed] is false. *)
Theorem uncovered_names_kept :
  redact_text (txt "SECRET_KEY=" ++ dquote :: txt "abc" ++ [dquote]) =
    (txt "SECRET_KEY=" ++ dquote :: txt "abc" ++ [dquote], false) /\
  redact_text (txt "DB_PASSWORD=xyz") = (txt "DB_PASSWORD=xyz", false).
Proof. split; vm_compute; reflexivity. Qed.

(** ** Witnesses *)

Lemma env_line_redacted_witness :
  (subn ENV_PATTERN env_repl (txt "API_KEY=abc")).1 = txt "API_KEY=REDACTED".
Proof.
  unfold subn. change (txt "API_KEY=abc") with (txt "API_KEY" ++ "="%char :: [] ++ "a"%char :: txt "bc" ++ []).
  rewrite (env_line_redacted "API_KEY" None [] "a"%char (txt "bc") [] _);
    [vm_compute; reflexivity | unfold env_names; in_list | by left | constructor | reflexivity
    | apply (bool_decide_unpack _); vm_compute; reflexivity | by left | vm_compute; lia].
Defined.

Lemma key_json_redacted_witness :
  (subn KEY_PATTERN key_repl (dquote :: txt "api_key" ++ dquote :: ":"%char :: [" "%char] ++ dquote :: txt "sk-1" ++ dquote :: [])).1 =
    dquote :: txt "api_key" ++ dquote :: ":"%char :: [" "%char] ++ dquote :: txt "REDACTED" ++ [dquote].
Proof.
  unfold subn.
  rewrite (key_json_redacted "api_key" None [" "%char] (txt "sk-1") [] _);
    [vm_compute; reflexivity | unfold key_words; in_list | apply (bool_decide_unpack _); vm_compute; reflexivity
    | apply (bool_decide_unpack _); vm_compute; reflexivity | vm_compute; lia].
Defined.

Lemma key_quote_mismatch_leak_witness :
  (subn KEY_PATTERN key_repl (dquote :: txt "password" ++ dquote :: ":"%char :: [" "%char] ++ dquote :: txt "it" ++ squote :: txt "s-secret" ++ [dquote])).1 =
    dquote :: txt "password" ++ dquote :: ":"%char :: [" "%char] ++ dquote :: txt "REDACTED" ++ squote :: txt "s-secret" ++ [dquote].
Proof.
  unfold subn.
  rewrite (key_quote_mismatch_leak "password" None [" "%char] (txt "it") (txt "s-secret" ++ [dquote]) _);
    [vm_compute; reflexivity | unfold key_words; in_list | apply (bool_decide_unpack _); vm_compute; reflexivity
    | apply (bool_decide_unpack _); vm_compute; reflexivity | vm_compute; lia].
Defined.

Lemma main_backup_witness :
  let w0 : fs := {[ ".env" := txt "API_KEY=abc" ]} in
  (main [".env"] w0).1 !! ".env" = Some (txt "API_KEY=REDACTED") /\
  (main [".env"] w0).1 !! bak_path ".env" = Some (txt "API_KEY=abc").
Proof.
  intros w0. destruct (main_backup [".env"] w0 ".env" (txt "API_KEY=abc")) as (H1 & H2 & _).
  - apply NoDup_singleton.
  - in_list.
  - reflexivity.
  - vm_compute; reflexivity.
  - vm_compute; reflexivity.
  - apply (bool_decide_unpack _); vm_compute; exact I.
  - apply Forall_forall, (bool_decide_unpack _); vm_compute; exact I.
  - split; [exact H1 | exact H2].
Defined.

Lemma redact_redacted_changed_witness :
  redact_text (txt "TOKEN" ++ txt "=REDACTED") = (txt "TOKEN" ++ txt "=REDACTED", true).
Proof. apply redact_redacted_changed. unfold env_names; in_list. Defined.

Lemma main_rerun_loses_original_witness :
  let w1 := (main [".env"] {[".env" := txt "API_KEY=abc"]}).1 in
  (main [".env.bak"; ".env"] w1).1 !! ".env.bak.bak" = Some (txt "API_KEY=abc") /\
  (main [".env.bak"; ".env"] w1).1 !! ".env.bak" = Some (txt "API_KEY=REDACTED").
Proof.
  intros w1.
  destruct (main_rerun_loses_original ".env" (txt "API_KEY=abc") (txt "API_KEY=REDACTED") [".env.bak"; ".env"])
    as (_ & _ & H2 & H3); [reflexivity | reflexivity | vm_compute; reflexivity | vm_compute; reflexivity
    | apply Permutation_swap |].
  split; [exact H3 | exact H2].
Defined.

End Sanitizer.
