(* ===== verification/Paths.v ===== *)
(** * Paths: where the scripts read and write

    The three scripts compute their paths from [__file__] at module
    level: [perfect_workflow.py] (lines 7-9) and
    [build_scraper_workflow.py] (lines 5-6) take
    [os.path.dirname(os.path.dirname(os.path.abspath(__file__)))] and
    join a file name to it; [sanitize_secrets.py] (line 11) takes
    [Path(__file__).resolve().parents[1]] as the root of its walk and
    reports paths [relative_to] it. This file writes out [posixpath]'s
    [normpath], [join], [dirname] and [abspath], pathlib's [parents] on
    a resolved path, and [relative_to], on paths as character lists;
    the working directory is an argument. [resolve] is [abspath]: the
    paths involved are taken to contain no symbolic link. *)

From Stdlib Require Import Ascii.
From stdpp Require Import base list strings.
From S2P Require Import Prelude Sanitizer.

Module Paths.

Abbreviation path := (list ascii).

Definition txt (s : string) : path := String.list_ascii_of_string s.
Definition slash : ascii := "/".

(** ** [posixpath] *)

(** [p.split('/')]. *)
Fixpoint split_go (acc : path) (p : path) : list path :=
  match p with
  | [] => [rev acc]
  | c :: p' => if bool_decide (c = slash) then rev acc :: split_go [] p' else split_go (c :: acc) p'
  end.

Definition split_slash (p : path) : list path := split_go [] p.

(** ['/'.join(cs)]. *)
Fixpoint join_slash (cs : list path) : path :=
  match cs with
  | [] => []
  | [c] => c
  | c :: cs' => c ++ slash :: join_slash cs'
  end.

(** One component of [normpath]'s loop, on the components kept so far
    (last kept first): [''] and ['.'] are dropped; ['..'] pops a kept
    component, unless there is none (kept when the path is relative,
    dropped at the root) or the last kept one is ['..']. *)
Definition norm_step (absolute : bool) (kept : list path) (comp : path) : list path :=
  if bool_decide (comp = []) || bool_decide (comp = txt ".") then kept
  else if negb (bool_decide (comp = txt "..")) || (negb absolute && bool_decide (kept = [])) ||
          match kept with top :: _ => bool_decide (top = txt "..") | [] => false end
  then comp :: kept
  else match kept with _ :: kept' => kept' | [] => [] end.

Definition isabs (p : path) : bool := bool_decide (head p = Some slash).

(** Two leading slashes are kept, one or three and more become one. *)
Definition initial_slashes (p : path) : nat :=
  if isabs p then (if isabs (tail p) && negb (isabs (tail (tail p))) then 2 else 1) else 0.

Definition normpath (p : path) : path :=
  match p with
  | [] => txt "."
  | _ =>
      let n := initial_slashes p in
      let q := replicate n slash ++ join_slash (rev (foldl (norm_step (0 <? n)) [] (split_slash p))) in
      match q with [] => txt "." | _ => q end
  end.

(** [os.path.join(a, b)]. *)
Definition join (a b : path) : path :=
  if isabs b then b
  else match last a with
       | None => b
       | Some c => if bool_decide (c = slash) then a ++ b else a ++ slash :: b
       end.

(** [str.rfind('/')]. *)
Fixpoint rfind (c : ascii) (l : path) : option nat :=
  match l with
  | [] => None
  | x :: l' =>
      match rfind c l' with
      | Some i => Some (S i)
      | None => if bool_decide (x = c) then Some 0 else None
      end
  end.

(** [str.lstrip('/')] and [str.rstrip('/')]. *)
Fixpoint lstrip_slash (p : path) : path :=
  match p with c :: p' => if bool_decide (c = slash) then lstrip_slash p' else p | [] => [] end.

Definition rstrip_slash (p : path) : path := rev (lstrip_slash (rev p)).

(** [os.path.dirname]: the text up to the last slash, trailing slashes
    removed unless it is all slashes. *)
Definition dirname (p : path) : path :=
  let head := match rfind slash p with Some i => take (S i) p | None => [] end in
  if bool_decide (head <> []) && negb (forallb (fun c => bool_decide (c = slash)) head)
  then rstrip_slash head else head.

(** [os.path.abspath], in the working directory [cwd]. *)
Definition abspath (cwd p : path) : path := normpath (if isabs p then p else join cwd p).

(** ** [pathlib] *)

(** [parents[1]] of an absolute normalized path: the path without its
    last two components; [IndexError] when it has fewer. *)
Definition parents_1 (p : path) : res path :=
  let cs := filter (fun c => c <> []) (split_slash p) in
  if bool_decide (2 <= length cs) then Ok (slash :: join_slash (take (length cs - 2) cs))
  else Raise IndexError.

(** [p.relative_to(root)]: the rest of [p] after [root] and a slash;
    [None] (Python raises [ValueError]) when [p] is not under [root]. *)
Definition relative_to (p root : path) : option path :=
  let pre := if bool_decide (root = [slash]) then root else root ++ [slash] in
  if bool_decide (take (length pre) p = pre) then Some (drop (length pre) p) else None.

(** ** Normal paths

    A path written as a slash and components [cs], each non-empty, with
    no slash, and neither [.] nor [..]. *)

Definition comp_ok (c : path) : Prop := c <> [] /\ (slash ∉ c) /\ c <> txt "." /\ c <> txt "..".

#[export] Instance comp_ok_dec c : Decision (comp_ok c).
Proof. unfold comp_ok. apply _. Defined.

Definition dir_of (cs : list path) : path := slash :: join_slash cs.

Section Normal.
Implicit Types (c x y : path) (cs : list path).

Lemma split_go_noslash acc x : slash ∉ x -> split_go acc x = [rev acc ++ x].
Proof.
  revert acc. induction x as [|a x IH]; intros acc Hx; simpl; [by rewrite app_nil_r |].
  apply not_elem_of_cons in Hx as [Ha Hx]. rewrite bool_decide_false by done.
  rewrite IH by done. simpl. by rewrite <- app_assoc.
Qed.

Lemma split_go_app acc x y : slash ∉ x -> split_go acc (x ++ slash :: y) = (rev acc ++ x) :: split_go [] y.
Proof.
  revert acc. induction x as [|a x IH]; intros acc Hx; simpl.
  - by rewrite app_nil_r.
  - apply not_elem_of_cons in Hx as [Ha Hx]. rewrite bool_decide_false by done.
    rewrite IH by done. simpl. by rewrite <- app_assoc.
Qed.

Lemma split_join cs : cs <> [] -> Forall (fun c => slash ∉ c) cs -> split_slash (join_slash cs) = cs.
Proof.
  unfold split_slash. induction cs as [|c [|c' cs] IH]; intros Hne Hcs; [done | |].
  - apply Forall_cons in Hcs as [Hc _]. by rewrite split_go_noslash.
  - apply Forall_cons in Hcs as [Hc Hcs]. cbn [join_slash]. rewrite split_go_app by done.
    simpl. f_equal. by apply IH.
Qed.

Lemma comp_ok_noslash cs : Forall comp_ok cs -> Forall (fun c => slash ∉ c) cs.
Proof. intros H. eapply Forall_impl; [exact H |]. by intros c (_ & ? & _). Qed.

Lemma split_dir_of cs : Forall comp_ok cs -> split_slash (dir_of cs) = [] :: (if bool_decide (cs = []) then [[]] else cs).
Proof.
  intros H. unfold split_slash, dir_of. simpl. f_equal.
  case_bool_decide as E; [by subst |]. by apply split_join, comp_ok_noslash.
Qed.

Lemma norm_push b kept c : comp_ok c -> norm_step b kept c = c :: kept.
Proof.
  intros (Hne & _ & Hd & Hdd). unfold norm_step.
  rewrite (bool_decide_false (c = [])), (bool_decide_false (c = txt ".")), (bool_decide_false (c = txt "..")) by done.
  done.
Qed.

Lemma foldl_norm b kept cs : Forall comp_ok cs -> foldl (norm_step b) kept cs = rev cs ++ kept.
Proof.
  revert kept. induction cs as [|c cs IH]; intros kept H; [done |].
  apply Forall_cons in H as [Hc H]. simpl. rewrite norm_push, IH by done. by rewrite <- app_assoc.
Qed.

Lemma join_slash_head cs : Forall comp_ok cs -> join_slash cs = [] \/ exists a rest, join_slash cs = a :: rest /\ a <> slash.
Proof.
  intros H. destruct cs as [|c cs]; [by left |]. right. apply Forall_cons in H as [(Hne & Hs & _) _].
  destruct c as [|a c]; [done |]. exists a. destruct cs; simpl; eexists; (split; [done |]);
    intros ->; apply Hs; left.
Qed.

Lemma normpath_dir_of cs : Forall comp_ok cs -> normpath (dir_of cs) = dir_of cs.
Proof.
  intros H. unfold normpath. cbn zeta.
  assert (Hn : initial_slashes (dir_of cs) = 1).
  { unfold initial_slashes, isabs, dir_of. simpl.
    destruct (join_slash_head cs H) as [-> | (a & rest & -> & Ha)]; [done |].
    simpl. by rewrite bool_decide_false by congruence. }
  rewrite Hn, split_dir_of by done. simpl.
  change (0 <? 1) with true. change (norm_step true [] []) with (@nil path).
  case_bool_decide as E; [by subst |]. rewrite foldl_norm, app_nil_r, rev_involutive by done. done.
Qed.

Lemma join_slash_app cs rs : cs <> [] -> rs <> [] -> join_slash (cs ++ rs) = join_slash cs ++ slash :: join_slash rs.
Proof.
  intros Hc Hr. induction cs as [|c [|c' cs] IH]; [done | |].
  - simpl. destruct rs; [done | reflexivity].
  - change ((c :: c' :: cs) ++ rs) with (c :: ((c' :: cs) ++ rs)).
    cbn [join_slash]. rewrite IH by done. by rewrite <- app_assoc.
Qed.

Lemma dir_of_app cs rs : rs <> [] ->
  dir_of (cs ++ rs) = if bool_decide (cs = []) then dir_of rs else dir_of cs ++ slash :: join_slash rs.
Proof.
  intros Hr. case_bool_decide as E; [by subst |]. unfold dir_of. by rewrite join_slash_app.
Qed.

Lemma last_join_slash cs : cs <> [] -> Forall comp_ok cs -> exists a, last (dir_of cs) = Some a /\ a <> slash.
Proof.
  intros Hne H. destruct cs as [|c cs _] using rev_ind; [done |].
  apply Forall_app in H as [_ Hl]. apply Forall_cons in Hl as [(Hc & Hs & _) _].
  destruct c as [|a c _] using rev_ind; [done |]. exists a.
  split; [| intros ->; apply Hs, elem_of_app; right; left].
  rewrite dir_of_app by done. case_bool_decide.
  - unfold dir_of. cbn [join_slash]. rewrite app_comm_cons. apply last_snoc.
  - cbn [join_slash]. rewrite app_comm_cons, app_assoc. apply last_snoc.
Qed.

Lemma isabs_join_slash rs : Forall comp_ok rs -> isabs (join_slash rs) = false.
Proof.
  intros H. unfold isabs. destruct (join_slash_head rs H) as [-> | (a & rest & -> & Ha)]; [done |].
  simpl. apply bool_decide_false. congruence.
Qed.

Lemma join_dir_of cs rs :
  Forall comp_ok cs -> Forall comp_ok rs -> rs <> [] -> join (dir_of cs) (join_slash rs) = dir_of (cs ++ rs).
Proof.
  intros Hc Hr Hne. unfold join. rewrite isabs_join_slash by done. rewrite dir_of_app by done.
  case_bool_decide as E.
  - subst. done.
  - destruct (last_join_slash cs E Hc) as (a & -> & Ha). by rewrite bool_decide_false.
Qed.

(** Where a script runs from: [__file__] is its absolute path, or its
    path [rel] relative to the working directory [cwd], the directory
    [dir_of rs]. *)
Definition invoked (rs : list path) (cwd file : path) (rel : list path) : Prop :=
  file = dir_of (rs ++ rel) \/ (cwd = dir_of rs /\ file = join_slash rel).

Lemma abspath_invoked rs cwd file rel :
  Forall comp_ok rs -> Forall comp_ok rel -> rel <> [] -> invoked rs cwd file rel ->
  abspath cwd file = dir_of (rs ++ rel).
Proof.
  intros Hs Hr Hne [-> | [-> ->]]; unfold abspath.
  - unfold isabs, dir_of at 1. simpl. apply normpath_dir_of, Forall_app. done.
  - rewrite isabs_join_slash, join_dir_of by done. apply normpath_dir_of, Forall_app. done.
Qed.

Lemma rfind_None (ch : ascii) l : ch ∉ l -> rfind ch l = None.
Proof.
  induction l as [|x l IH]; intros H; [done |]. apply not_elem_of_cons in H as [Hx H].
  simpl. rewrite IH by done. by rewrite bool_decide_false by congruence.
Qed.

Lemma rfind_app (ch : ascii) l1 l2 : ch ∉ l2 -> rfind ch (l1 ++ ch :: l2) = Some (length l1).
Proof.
  intros H. induction l1 as [|x l1 IH]; simpl.
  - rewrite rfind_None by done. by rewrite bool_decide_true.
  - by rewrite IH.
Qed.

Lemma dirname_dir_of cs c : Forall comp_ok (cs ++ [c]) -> dirname (dir_of (cs ++ [c])) = dir_of cs.
Proof.
  intros H. pose proof H as H'. apply Forall_app in H' as [Hcs Hl]. apply Forall_cons in Hl as [(Hc & Hs & _) _].
  assert (Hx : exists X, dir_of (cs ++ [c]) = X ++ slash :: c /\
                 (X = [] /\ cs = [] \/ X = dir_of cs /\ cs <> [])).
  { rewrite dir_of_app by done. case_bool_decide as E; [subst; by exists [] ; split; [| left] |].
    exists (dir_of cs). split; [done | by right]. }
  destruct Hx as (X & -> & [[-> ->] | [-> Hne]]); unfold dirname.
  - by rewrite (rfind_app _ [] c Hs).
  - rewrite rfind_app by done.
    replace (dir_of cs ++ slash :: c) with ((dir_of cs ++ [slash]) ++ c) by (by rewrite <- app_assoc).
    replace (S (length (dir_of cs))) with (length (dir_of cs ++ [slash])) by (rewrite length_app; simpl; lia).
    rewrite take_app_length, bool_decide_true by (by destruct (dir_of cs)).
    destruct (last_join_slash cs Hne Hcs) as (a & Hla & Ha).
    assert (Hf : forallb (fun ch : ascii => bool_decide (ch = slash)) (dir_of cs ++ [slash]) = false).
    { apply not_true_iff_false. intros Hall. rewrite forallb_forall in Hall.
      apply last_Some_elem_of in Hla.
      specialize (Hall a (proj1 (list_elem_of_In _ _) (proj2 (elem_of_app _ _ _) (or_introl Hla)))).
      by apply bool_decide_eq_true in Hall. }
    rewrite Hf. cbn [negb andb]. unfold rstrip_slash. rewrite rev_app_distr. cbn [rev app lstrip_slash].
    rewrite bool_decide_true by done.
    apply last_Some in Hla as [Y HY]. rewrite HY, rev_app_distr. cbn [rev app lstrip_slash].
    rewrite bool_decide_false by done. simpl. by rewrite rev_involutive.
Qed.

Lemma parents_1_dir_of cs : Forall comp_ok cs -> 2 <= length cs ->
  parents_1 (dir_of cs) = Ok (dir_of (take (length cs - 2) cs)).
Proof.
  intros H Hl. unfold parents_1. rewrite split_dir_of by done.
  rewrite (bool_decide_false (cs = [])) by (intros ->; simpl in Hl; lia).
  rewrite filter_cons_False by (intros Hn; by apply Hn).
  assert (Hf : filter (fun c => c <> []) cs = cs).
  { clear Hl. induction cs as [|c cs IH]; [done |]. apply Forall_cons in H as [[Hc _] H].
    rewrite filter_cons_True by done. by rewrite IH. }
  rewrite Hf. by rewrite bool_decide_true by done.
Qed.

Lemma join_slash_nil cs : Forall comp_ok cs -> join_slash cs = [] -> cs = [].
Proof.
  intros H E. destruct cs as [|c [|c' cs]]; [done | |].
  - apply Forall_cons in H as [[Hc _] _]. done.
  - simpl in E. by destruct c.
Qed.

Lemma relative_to_dir_of cs f : Forall comp_ok cs -> relative_to (dir_of (cs ++ [f])) (dir_of cs) = Some f.
Proof.
  intros H. unfold relative_to. destruct cs as [|c cs]; [done |].
  rewrite (bool_decide_false (dir_of (c :: cs) = [slash])) by (unfold dir_of; intros [= E]; by apply (join_slash_nil _ H) in E).
  rewrite dir_of_app by done. rewrite (bool_decide_false (c :: cs = [])) by done.
  change (join_slash [f]) with f.
  replace (dir_of (c :: cs) ++ slash :: f) with ((dir_of (c :: cs) ++ [slash]) ++ f) by (by rewrite <- app_assoc).
  rewrite take_app_length, drop_app_length. by rewrite bool_decide_true.
Qed.

End Normal.

(** ** The scripts' paths *)

(** [BASE_DIR] of both builders ([perfect_workflow.py] line 7,
    [build_scraper_workflow.py] line 5). *)
Definition base_dir (cwd file : path) : path := dirname (dirname (abspath cwd file)).

(** [perfect_workflow.py], lines 8-9. *)
Definition perfect_input_path (cwd file : path) : path := join (base_dir cwd file) (txt "KRONOS_V1_LEGACY.json").
Definition perfect_output_path (cwd file : path) : path := join (base_dir cwd file) (txt "KRONOS_V2_PERFECTED.json").

(** [build_scraper_workflow.py], line 6. *)
Definition scraper_output_path (cwd file : path) : path := join (base_dir cwd file) (txt "KRONOS_LEAD_SCRAPER_V1.json").

(** [sanitize_secrets.py], line 11: [ROOT]. *)
Definition sanitizer_root (cwd file : path) : res path := parents_1 (abspath cwd file).

(** ** The three scripts share one directory *)

Lemma base_dir_invoked rs cwd file d f :
  Forall comp_ok rs -> Forall comp_ok [txt "src"; d; f] -> invoked rs cwd file [txt "src"; d; f] ->
  base_dir cwd file = dir_of (rs ++ [txt "src"]).
Proof.
  intros Hr Hc Hi. unfold base_dir. rewrite (abspath_invoked _ _ _ _ Hr Hc) by done.
  assert (Hall : Forall comp_ok (rs ++ [txt "src"; d; f])) by (apply Forall_app; done).
  replace (rs ++ [txt "src"; d; f]) with ((rs ++ [txt "src"; d]) ++ [f]) in * by (by rewrite <- app_assoc).
  rewrite dirname_dir_of by done.
  replace (rs ++ [txt "src"; d]) with ((rs ++ [txt "src"]) ++ [d]) in * by (by rewrite <- app_assoc).
  apply dirname_dir_of. apply Forall_app in Hall as [Hall _]. exact Hall.
Qed.

Lemma join_file rs name :
  Forall comp_ok rs -> comp_ok (txt name) -> join (dir_of rs) (txt name) = dir_of (rs ++ [txt name]).
Proof. intros Hr Hn. change (txt name) with (join_slash [txt name]) at 1. apply join_dir_of; [done | by apply Forall_singleton | done]. Qed.

Lemma sanitizer_root_invoked rs cwd file :
  Forall comp_ok rs -> invoked rs cwd file [txt "src"; txt "scripts"; txt "sanitize_secrets.py"] ->
  sanitizer_root cwd file = Ok (dir_of (rs ++ [txt "src"])).
Proof.
  intros Hr Hi. unfold sanitizer_root.
  assert (Hc : Forall comp_ok [txt "src"; txt "scripts"; txt "sanitize_secrets.py"])
    by (apply (bool_decide_unpack _); by vm_compute).
  rewrite (abspath_invoked _ _ _ _ Hr Hc ltac:(done) Hi).
  rewrite parents_1_dir_of by (try (apply Forall_app; split; [done | apply (bool_decide_unpack _); by vm_compute]);
                                rewrite length_app; simpl; lia).
  rewrite length_app. simpl. replace (length rs + 3 - 2) with (length rs + 1) by lia.
  by rewrite take_app_add'.
Qed.

Lemma relative_to_sub rs a n :
  Forall comp_ok (rs ++ [a]) -> relative_to (dir_of (rs ++ [a; n])) (dir_of (rs ++ [a])) = Some n.
Proof.
  intros H. replace (rs ++ [a; n]) with ((rs ++ [a]) ++ [n]) by (by rewrite <- app_assoc).
  by apply relative_to_dir_of.
Qed.

Lemma comp_ok_names :
  Forall comp_ok [txt "src"; txt "execution"; txt "scripts"; txt "perfect_workflow.py";
                  txt "build_scraper_workflow.py"; txt "sanitize_secrets.py"; txt "KRONOS_V1_LEGACY.json";
                  txt "KRONOS_V2_PERFECTED.json"; txt "KRONOS_LEAD_SCRAPER_V1.json"].
Proof. apply (bool_decide_unpack _). by vm_compute. Qed.

(** The three scripts meet in one directory. For a repository at
    [dir_of rs], and each script run by its absolute path from any
    directory or by its relative path from the repository, the two
    builders take [src] as [BASE_DIR]: the patcher reads
    [src/KRONOS_V1_LEGACY.json] and writes [src/KRONOS_V2_PERFECTED.json],
    the scraper writes [src/KRONOS_LEAD_SCRAPER_V1.json]; and [src] is
    the sanitizer's [ROOT], so its walk reaches the three documents,
    reports them by their file names, and treats them as text files. *)
Theorem script_paths rs cwd1 cwd2 cwd3 f1 f2 f3 :
  Forall comp_ok rs ->
  invoked rs cwd1 f1 [txt "src"; txt "execution"; txt "perfect_workflow.py"] ->
  invoked rs cwd2 f2 [txt "src"; txt "execution"; txt "build_scraper_workflow.py"] ->
  invoked rs cwd3 f3 [txt "src"; txt "scripts"; txt "sanitize_secrets.py"] ->
  perfect_input_path cwd1 f1 = dir_of (rs ++ [txt "src"; txt "KRONOS_V1_LEGACY.json"]) /\
  perfect_output_path cwd1 f1 = dir_of (rs ++ [txt "src"; txt "KRONOS_V2_PERFECTED.json"]) /\
  scraper_output_path cwd2 f2 = dir_of (rs ++ [txt "src"; txt "KRONOS_LEAD_SCRAPER_V1.json"]) /\
  sanitizer_root cwd3 f3 = Ok (dir_of (rs ++ [txt "src"])) /\
  relative_to (perfect_input_path cwd1 f1) (dir_of (rs ++ [txt "src"])) = Some (txt "KRONOS_V1_LEGACY.json") /\
  relative_to (perfect_output_path cwd1 f1) (dir_of (rs ++ [txt "src"])) = Some (txt "KRONOS_V2_PERFECTED.json") /\
  relative_to (scraper_output_path cwd2 f2) (dir_of (rs ++ [txt "src"])) = Some (txt "KRONOS_LEAD_SCRAPER_V1.json") /\
  Forall (fun n => Sanitizer.is_text_file n = true) ["KRONOS_V1_LEGACY.json"; "KRONOS_V2_PERFECTED.json"; "KRONOS_LEAD_SCRAPER_V1.json"].
Proof.
  intros Hr H1 H2 H3. pose proof comp_ok_names as Hn. repeat (apply Forall_cons in Hn as [? Hn]).
  assert (Hs : Forall comp_ok (rs ++ [txt "src"])) by (apply Forall_app; split; [done | by apply Forall_singleton]).
  assert (E : forall name, comp_ok (txt name) ->
            join (dir_of (rs ++ [txt "src"])) (txt name) = dir_of (rs ++ [txt "src"; txt name]))
    by (intros name Hc; rewrite join_file by done; by rewrite <- app_assoc).
  unfold perfect_input_path, perfect_output_path, scraper_output_path.
  assert (Hp : Forall comp_ok [txt "src"; txt "execution"; txt "perfect_workflow.py"]) by (apply (bool_decide_unpack _); by vm_compute).
  assert (Hq : Forall comp_ok [txt "src"; txt "execution"; txt "build_scraper_workflow.py"]) by (apply (bool_decide_unpack _); by vm_compute).
  rewrite (base_dir_invoked _ _ _ _ _ Hr Hp H1), (base_dir_invoked _ _ _ _ _ Hr Hq H2), !E by done.
  split_and!; [done | done | done | by apply sanitizer_root_invoked | | | |].
  1-3: by apply relative_to_sub.
  apply (bool_decide_unpack _). by vm_compute.
Qed.

End Paths.
