(* ===== verification/Lifecycle.v ===== *)
(** * The lead lifecycle at run time

    What n8n does with the lock and release nodes [perfect_workflow.py]
    writes, against the specification's claim protocol (spec 4.1, 4.3,
    4.4, P1, P4). A Supabase [update] node is run by reading its
    [parameters.values.values] columns from the node's JSON and writing
    them into the row of the lead in flight (the row whose [matchColumn]
    holds the lead's key), when that row also meets the node's filter
    conditions ([filters.conditions], combined by [matchType]); when no
    row is updated the node outputs no item and the run does not go on
    ([node_claim] is [None]). The specification's [tryClaim] is a
    conditional update; [ClaimProtocol] states what a claim step must
    guarantee, and the mutual exclusion of concurrent runs is proved
    against that interface. The lock node of the patched workflow states
    no condition: it is a blind write, it does not satisfy the
    interface, and two runs can hold the same lead, while the same node
    with a filter on the eligible statuses is exactly [tryClaim]. *)

From stdpp Require Import base list strings gmap.
From S2P Require Import Prelude Json Workflow PerfectWorkflow.

Module Lifecycle.
Import Perfect.

(** ** Lead records (spec 3) *)

Inductive status : Type :=
  | READY_TO_PROCESS | PRIORITY | IN_PROGRESS | READY_RETRY | FAILED | DONE.

#[export] Instance status_eq_dec : EqDecision status.
Proof. solve_decision. Defined.

Definition status_of_string (s : string) : option status :=
  if bool_decide (s = "READY_TO_PROCESS") then Some READY_TO_PROCESS
  else if bool_decide (s = "PRIORITY") then Some PRIORITY
  else if bool_decide (s = "IN_PROGRESS") then Some IN_PROGRESS
  else if bool_decide (s = "READY_RETRY") then Some READY_RETRY
  else if bool_decide (s = "FAILED") then Some FAILED
  else if bool_decide (s = "DONE") then Some DONE
  else None.

(** The statuses [fetchBatch] returns and [tryClaim] accepts. *)
Definition eligible (st : status) : bool :=
  match st with READY_TO_PROCESS | PRIORITY | READY_RETRY => true | _ => false end.

Record lead := mkLead { lstatus : status; last_error : option string }.

(** The [leads] table, by lead key. *)
Abbreviation store := (gmap string lead).

(** ** A Supabase [update] node at run time *)

(** The [(column, value)] pairs of [parameters.values.values]. *)
Definition update_columns (node : json) : list (string * json) :=
  omap (fun e => match obj_field e "column", obj_field e "value" with
                 | Some (JStr c), Some v => Some (c, v)
                 | _, _ => None
                 end)
       (as_arr (obj_field (default JNull (obj_field (default JNull (obj_field node "parameters")) "values")) "values")).

Definition set_column (l : lead) (cv : string * json) : lead :=
  match cv with
  | (c, JStr v) =>
      if bool_decide (c = "status") then
        match status_of_string v with Some st => mkLead st (last_error l) | None => l end
      else if bool_decide (c = "last_error") then mkLead (lstatus l) (Some v)
      else l
  | _ => l
  end.

(** The text of a status, as the table stores it. *)
Definition status_text (st : status) : string :=
  match st with
  | READY_TO_PROCESS => "READY_TO_PROCESS" | PRIORITY => "PRIORITY" | IN_PROGRESS => "IN_PROGRESS"
  | READY_RETRY => "READY_RETRY" | FAILED => "FAILED" | DONE => "DONE"
  end.

(** The columns of a lead's row the store keeps. *)
Definition lead_row (l : lead) : list (string * json) :=
  ("status", JStr (status_text (lstatus l))) ::
  match last_error l with Some e => [("last_error", JStr e)] | None => [] end.

(** One of [parameters.filters.conditions]: [{keyName, condition,
    keyValue}] with a text [keyValue]. [eq] holds when the row's column
    holds that text, [neq] when it holds another value; a missing column
    is NULL, for which neither holds; other operators are taken as not
    holding. *)
Definition cond_holds (r : list (string * json)) (c : json) : bool :=
  match obj_field c "keyName", obj_field c "condition", obj_field c "keyValue" with
  | Some (JStr k), Some (JStr op), Some (JStr v) =>
      if bool_decide (op = "eq") then bool_decide (as_str (dict_get r k) = Some v)
      else if bool_decide (op = "neq") then bool_decide (is_Some (dict_get r k) /\ as_str (dict_get r k) <> Some v)
      else false
  | _, _, _ => false
  end.

Definition node_conditions (node : json) : list json :=
  as_arr (obj_field (default JNull (obj_field (default JNull (obj_field node "parameters")) "filters")) "conditions").

(** The filter of an update node: none when it states no condition, all
    of them under [matchType] ["allFilters"], any one otherwise. *)
Definition conds_hold (node : json) (r : list (string * json)) : bool :=
  match node_conditions node with
  | [] => true
  | cs => if is_str "allFilters" (default JNull (obj_field (default JNull (obj_field node "parameters")) "matchType"))
          then forallb (cond_holds r) cs else existsb (cond_holds r) cs
  end.

(** The node run for the lead [key]: [Some] new store when the lead's row
    meets the node's conditions and gets its columns; [None] when no row
    is updated (no row for the key, or its row fails the conditions). *)
Definition node_claim (node : json) (key : string) (st : store) : option store :=
  match st !! key with
  | Some l => if conds_hold node (lead_row l) then Some (<[key := foldl set_column l (update_columns node)]> st) else None
  | None => None
  end.

(** The node's effect on the table: no row updated, no change. *)
Definition run_update (node : json) (key : string) (st : store) : store := default st (node_claim node key st).

(** ** Claim steps *)

(** The specification's [tryClaim]: [IN_PROGRESS] only from an eligible
    status, [None] when the claim is lost. *)
Definition try_claim (key : string) (st : store) : option store :=
  match st !! key with
  | Some l => if eligible (lstatus l) then Some (<[key := mkLead IN_PROGRESS (last_error l)]> st) else None
  | None => None
  end.

(** The patched workflow's claim: the [Lock Lead Status] node (lines
    217-232). *)
Definition lock_claim (id : string) : string -> store -> option store := node_claim (lock_lead id).

(** What a claim step promises its callers (spec 4.1). *)
Class ClaimProtocol (claim : string -> store -> option store) : Prop := {
  claim_eligible k st st' :
    claim k st = Some st' -> exists l, st !! k = Some l /\ eligible (lstatus l) = true;
  claim_sets k st st' :
    claim k st = Some st' -> lstatus <$> st' !! k = Some IN_PROGRESS;
  claim_frame k k' st st' :
    claim k st = Some st' -> k' <> k -> st' !! k' = st !! k'
}.

(** ** Concurrent runs (spec 4.3, 5)

    Each run handles one lead: it fetches it while eligible, claims it,
    holds it while processing, and ends by [markResult(DONE)] or by the
    compensation's release ([READY_RETRY]). Runs interleave freely. *)







(** ** The specification's claim satisfies the protocol *)

#[export] Instance try_claim_protocol : ClaimProtocol try_claim.
Proof.
  split; unfold try_claim.
  - intros k st st' H. destruct (st !! k) as [l|]; [| done]. destruct (eligible (lstatus l)) eqn:E; [| done]. by exists l.
  - intros k st st' H. destruct (st !! k) as [l|]; [| done]. destruct (eligible (lstatus l)); [| done].
    injection H as <-. by rewrite lookup_insert_eq.
  - intros k k' st st' H Hne. destruct (st !! k) as [l|]; [| done]. destruct (eligible (lstatus l)); [| done].
    injection H as <-. by rewrite lookup_insert_ne.
Qed.

(** ** Mutual exclusion is an invariant of every claim protocol *)







(** ** The lock and release nodes *)

Lemma lock_claim_Some id k l st :
  st !! k = Some l -> lock_claim id k st = Some (<[k := mkLead IN_PROGRESS (last_error l)]> st).
Proof. intros Hl. unfold lock_claim, node_claim. rewrite Hl. reflexivity. Qed.

Lemma lock_update k l st id :
  st !! k = Some l -> run_update (lock_lead id) k st = <[k := mkLead IN_PROGRESS (last_error l)]> st.
Proof. intros Hl. unfold run_update. fold (lock_claim id). by rewrite (lock_claim_Some _ _ l). Qed.

Lemma release_update k l st id :
  st !! k = Some l -> run_update (supabase_unlock id) k st = <[k := mkLead READY_RETRY (last_error l)]> st.
Proof. intros Hl. unfold run_update, node_claim. rewrite Hl. reflexivity. Qed.

(** The lock node with the filter spec 4.1 asks of [tryClaim]: the
    lead's status is one of the eligible ones. *)
Definition status_eq (v : string) : json :=
  JObj [("keyName", JStr "status"); ("condition", JStr "eq"); ("keyValue", JStr v)].

Definition with_filter (node : json) (conds : list json) : json :=
  match node with
  | JObj kv =>
      match dict_get kv "parameters" with
      | Some (JObj p) =>
          JObj (dict_set kv "parameters"
                  (JObj (dict_set (dict_set p "filters" (JObj [("conditions", JArr conds)])) "matchType" (JStr "anyFilter"))))
      | _ => node
      end
  | _ => node
  end.

Definition guarded_lock (id : string) : json :=
  with_filter (lock_lead id) (status_eq <$> ["READY_TO_PROCESS"; "PRIORITY"; "READY_RETRY"]).

(** The guarded lock is the specification's [tryClaim]. *)
Lemma guarded_lock_claim id k st : node_claim (guarded_lock id) k st = try_claim k st.
Proof.
  unfold node_claim, try_claim. destruct (st !! k) as [[s e]|]; [| done].
  destruct s, e; reflexivity.
Qed.

Lemma claim_protocol_ext c1 c2 : (forall k st, c1 k st = c2 k st) -> ClaimProtocol c1 -> ClaimProtocol c2.
Proof.
  intros E [H1 H2 H3]. split; intros k st st'; rewrite <- E; [apply H1 | apply H2 | apply H3].
Qed.

#[export] Instance guarded_lock_protocol id : ClaimProtocol (node_claim (guarded_lock id)).
Proof. apply (claim_protocol_ext try_claim); [intros; by rewrite guarded_lock_claim | apply _]. Qed.

(** C17 *)
(** The lock node is a blind write: it states no filter condition, so
    whatever the lead's status, even [IN_PROGRESS], [DONE] or [FAILED],
    it sets [IN_PROGRESS] and reports success. So it is not a claim
    protocol (a [DONE] lead is claimed), contrary to spec 4.1's
    conditional [tryClaim]; the same node with a filter on the eligible
    statuses ([guarded_lock]) is one. *)
Theorem lock_blind_write id k l st :
  st !! k = Some l ->
  lock_claim id k st = Some (<[k := mkLead IN_PROGRESS (last_error l)]> st) /\
  ~ ClaimProtocol (lock_claim id) /\ ClaimProtocol (node_claim (guarded_lock id)).
Proof.
  intros Hl. split_and!; [by apply lock_claim_Some | | apply _].
  intros HP. set (st0 := {[ k := mkLead DONE None ]} : store).
  destruct (claim_eligible k st0 _ (lock_claim_Some id k (mkLead DONE None) st0 (lookup_singleton_eq _ _)))
    as (l0 & Hl0 & He).
  unfold st0 in Hl0. rewrite lookup_singleton_eq in Hl0. injection Hl0 as <-. discriminate He.
Qed.



(** C19 *)
(** The release node (spec P4): releasing twice leaves the table as
    releasing once, with the lead [READY_RETRY]; but its [last_error] is
    left as it was, while spec 4.4 and P4 require the error message there
    (the script writes the message only to the Airtable audit row). *)
Theorem release_idempotent id k l st :
  st !! k = Some l ->
  run_update (supabase_unlock id) k (run_update (supabase_unlock id) k st) = run_update (supabase_unlock id) k st /\
  run_update (supabase_unlock id) k st !! k = Some (mkLead READY_RETRY (last_error l)).
Proof.
  intros Hl. rewrite (release_update k l st) by done. split.
  - rewrite (release_update k (mkLead READY_RETRY (last_error l))) by apply lookup_insert_eq.
    by rewrite insert_insert_eq.
  - apply lookup_insert_eq.
Qed.

(** ** The compensation path (spec 4.4) *)

(** The nodes n8n runs from [start] along first outputs, while each node
    has a single successor there; at most [fuel] nodes. *)
Fixpoint chain (w : json) (start : string) (fuel : nat) : list string :=
  match fuel with
  | 0 => []
  | S f => start :: match succ w start 0 with [t] => chain w t f | _ => [] end
  end.

Lemma perfect_error_chain ids p legacy s :
  perfect_workflow ids p legacy = Ok s ->
  chain (workflow s) "Error Trigger" 3 = ["Error Trigger"; "Airtable - Mark Failed"; "Supabase - Release Lock"].
Proof.
  intros H. cbn [chain].
  rewrite (succ_link _ "Error Trigger" "Airtable - Mark Failed")
    by (eapply (perfect_conn_known _ _ _ _ _ Unknown); [exact H | done | reflexivity]).
  rewrite (succ_link _ "Airtable - Mark Failed" "Supabase - Release Lock")
    by (eapply (perfect_conn_known _ _ _ _ _ Unknown); [exact H | done | reflexivity]).
  by destruct (succ (workflow s) "Supabase - Release Lock" 0) as [|? [|? ?]].
Qed.

(** ** Witnesses *)

Lemma lock_blind_write_witness :
  lock_claim "u6" "L" ({[ "L" := mkLead DONE None ]} : store) =
    Some (<[ "L" := mkLead IN_PROGRESS None ]> ({[ "L" := mkLead DONE None ]} : store)) /\
  node_claim (guarded_lock "u6") "L" ({[ "L" := mkLead DONE None ]} : store) = None.
Proof.
  split; [exact (proj1 (lock_blind_write "u6" "L" (mkLead DONE None) _ (lookup_singleton_eq _ _))) |].
  vm_compute. reflexivity.
Defined.

Lemma release_idempotent_witness :
  run_update (supabase_unlock "u3") "L" ({[ "L" := mkLead IN_PROGRESS None ]} : store) !! "L" =
    Some (mkLead READY_RETRY None).
Proof. exact (proj2 (release_idempotent "u3" "L" (mkLead IN_PROGRESS None) _ (lookup_singleton_eq _ _))). Defined.

End Lifecycle.
