(* ===== verification/Execution.v ===== *)
(** * Executions of the written document: expressions and the error execution

    n8n evaluates a node parameter as an expression when its text starts
    with [=]. An expression reads another node's output with [$('N')] or
    [$node["N"]]; when [N] has not run in the current execution, the read
    throws ("Referenced node is unexecuted") and the node fails. A node
    that fails ends its execution (no node the script adds sets
    [continueOnFail]). When an execution fails, n8n starts the workflow
    that holds the [Error Trigger] (here the same document) in a new
    execution, from that trigger: only the error path's nodes run in it.
    Nodes are looked up by name as n8n's [Workflow] class builds its
    node table, a later node of a name replacing an earlier one.

    These are rules of the n8n runtime, not code of the repository: the
    definitions of this file are not in the map. The nodes they read
    ([airtable_fail], [supabase_unlock], ...) are the script's. *)

From Stdlib Require Import Ascii.
From stdpp Require Import base list strings gmap.
From S2P Require Import Prelude Json Workflow PerfectWorkflow Lifecycle.

#[local] Set Warnings "-clear-no-such-hyp".

Module Execution.
Import Perfect Lifecycle.

(** ** Expressions and the nodes they read *)

(** The string leaves of a JSON value, in document order. *)
Fixpoint strings_of (j : json) : list string :=
  match j with
  | JStr s => [s]
  | JArr l => (fix go (l : list json) := match l with [] => [] | x :: l' => strings_of x ++ go l' end) l
  | JObj kv => (fix go (kv : list (string * json)) :=
                  match kv with [] => [] | (_, x) :: kv' => strings_of x ++ go kv' end) kv
  | _ => []
  end.

Definition is_expr (s : string) : bool := String.prefix "=" s.

(** The characters up to the first [c], when there is one. *)
Fixpoint take_to (c : ascii) (l : list ascii) : option (list ascii) :=
  match l with
  | [] => None
  | x :: l' => if bool_decide (x = c) then Some [] else cons x <$> take_to c l'
  end.

Definition squote : ascii := Ascii.ascii_of_nat 39.
Definition dquote : ascii := Ascii.ascii_of_nat 34.

(** The four ways an expression names a node, with their closing quote:
    [$('N')], [$("N")], [$node['N']], [$node["N"]]. *)
Definition ref_forms : list (list ascii * ascii) :=
  [(String.list_ascii_of_string "$(" ++ [squote], squote);
   (String.list_ascii_of_string "$(" ++ [dquote], dquote);
   (String.list_ascii_of_string "$node[" ++ [squote], squote);
   (String.list_ascii_of_string "$node[" ++ [dquote], dquote)].

(** The node a reference starting at the head of [l] names. *)
Definition ref_at (l : list ascii) : option string :=
  head (omap (fun '(pre, close) =>
                if bool_decide (take (length pre) l = pre)
                then String.string_of_list_ascii <$> take_to close (drop (length pre) l)
                else None) ref_forms).

(** Every node reference of an expression text, left to right. *)
Fixpoint refs (l : list ascii) : list string :=
  match l with
  | [] => []
  | _ :: l' => option_list (ref_at l) ++ refs l'
  end.

(** The nodes the expressions of a node's parameters read. *)
Definition node_refs (node : json) : list string :=
  mjoin ((fun s => refs (String.list_ascii_of_string s)) <$>
           filter (fun s => is_expr s = true) (strings_of (default JNull (obj_field node "parameters")))).

(** A node can run in an execution where the nodes [ran] have run when
    every node its expressions read is among them. *)
Definition can_run (ran : list string) (node : json) : bool :=
  forallb (fun r => bool_decide (r ∈ ran)) (node_refs node).

(** ** Nodes by name and their effect on the lead table *)

(** The node of a name n8n uses: the last one of the list. *)
Fixpoint last_named (n : string) (l : list json) : option json :=
  match l with
  | [] => None
  | j :: l' =>
      match last_named n l' with
      | Some x => Some x
      | None => if bool_decide (node_name j = Some n) then Some j else None
      end
  end.

Definition node_by_name (w : json) (n : string) : option json := last_named n (wf_nodes w).

(** A Supabase [update] node writes the row of the lead in flight; the
    other nodes of these paths do not write the lead table. *)
Definition is_table_update (node : json) : bool :=
  is_str "n8n-nodes-base.supabase" (default JNull (obj_field node "type")) &&
  is_str "update" (default JNull (obj_field (default JNull (obj_field node "parameters")) "operation")).

Definition node_effect (node : json) (k : string) (st : store) : store :=
  if is_table_update node then run_update node k st else st.

(** The nodes [names] run in turn for the lead [k], [ran] having run
    before them; the execution ends at the first node that cannot run.
    The result is the nodes that ran and the table. *)
Fixpoint exec_chain (w : json) (k : string) (names : list string) (ran : list string) (st : store)
    : list string * store :=
  match names with
  | [] => (ran, st)
  | n :: ns =>
      match node_by_name w n with
      | Some node => if can_run ran node then exec_chain w k ns (ran ++ [n]) (node_effect node k st) else (ran, st)
      | None => (ran, st)
      end
  end.

(** The error execution: from the [Error Trigger], along first outputs,
    with nothing else run before. *)
Definition error_execution (w : json) (k : string) (st : store) : list string * store :=
  exec_chain w k (chain w "Error Trigger" (length (wf_nodes w))) [] st.

(** ** Lemmas *)

Lemma last_named_app n l1 l2 :
  last_named n (l1 ++ l2) = match last_named n l2 with Some x => Some x | None => last_named n l1 end.
Proof.
  induction l1 as [|j l1 IH]; simpl; [by destruct (last_named n l2) |].
  rewrite IH. by destruct (last_named n l2).
Qed.

(** The written node list is the legacy nodes (prompts replaced)
    followed by the seven added nodes. *)
Lemma perfect_nodes_app ids p legacy s :
  perfect_workflow ids p legacy = Ok s ->
  wf_nodes (workflow s) = take (length (wf_nodes legacy)) (wf_nodes (workflow s)) ++ new_nodes ids.
Proof.
  intros H. rewrite <- (take_drop (length (wf_nodes legacy)) (wf_nodes (workflow s))) at 1. f_equal.
  unfold perfect_workflow in H. rewrite (run_drop _ _ _ _ H); [by rewrite drop_all | done |].
  intros name Hn. unfold nodes_of. cbn [workflow]. rewrite drop_all. split; [set_solver |].
  change (mjoin (added_nodes <$> perfect_body ids p)) with (new_nodes ids).
  change (omap node_name (new_nodes ids)) with new_names.
  revert Hn. change (omap prompt_name (perfect_body ids p)) with ["AI Agent"; "Email AI Agent"].
  intros Hn. apply elem_of_cons in Hn as [-> | [-> | []%elem_of_nil]%elem_of_cons]; compute; set_solver.
Qed.

(** In the written document each added name is the added node. *)
Lemma perfect_node_by_name ids p legacy s n node :
  perfect_workflow ids p legacy = Ok s -> last_named n (new_nodes ids) = Some node ->
  node_by_name (workflow s) n = Some node.
Proof. intros H Hn. unfold node_by_name. by rewrite (perfect_nodes_app _ _ _ _ H), last_named_app, Hn. Qed.

Lemma perfect_nodes_length ids p legacy s :
  perfect_workflow ids p legacy = Ok s -> 7 <= length (wf_nodes (workflow s)).
Proof. intros H. rewrite (perfect_nodes_app _ _ _ _ H), length_app. simpl. lia. Qed.

Lemma exec_chain_run w k n ns ran st node :
  node_by_name w n = Some node -> can_run ran node = true ->
  exec_chain w k (n :: ns) ran st = exec_chain w k ns (ran ++ [n]) (node_effect node k st).
Proof. intros Hn Hr. simpl. by rewrite Hn, Hr. Qed.

Lemma exec_chain_stop w k n ns ran st node :
  node_by_name w n = Some node -> can_run ran node = false -> exec_chain w k (n :: ns) ran st = (ran, st).
Proof. intros Hn Hr. simpl. by rewrite Hn, Hr. Qed.

(** The written error path's first two links, whatever the fuel. *)
Lemma perfect_error_chain_prefix ids p legacy s f :
  perfect_workflow ids p legacy = Ok s ->
  chain (workflow s) "Error Trigger" (S (S f)) =
    "Error Trigger" :: "Airtable - Mark Failed" ::
      match succ (workflow s) "Airtable - Mark Failed" 0 with [t] => chain (workflow s) t f | _ => [] end.
Proof.
  intros H. cbn [chain].
  by rewrite (succ_link _ "Error Trigger" "Airtable - Mark Failed")
    by (eapply (perfect_conn_known _ _ _ _ _ Unknown); [exact H | done | reflexivity]).
Qed.

(** ** The compensation in the error execution (spec 4.4) *)

(** C20 *)
(** The compensation never releases a lead. In the written document the
    error path is [Error Trigger], the Airtable audit, then the release;
    the error execution n8n starts when a run fails runs only that path,
    and the audit node's [base] and [table] expressions read
    [Workflow Configuration1], which has not run in it. So the audit node
    fails, the error execution ends there, and the release never runs:
    the lead table is left as it was, a lead the failed run locked stays
    [IN_PROGRESS], against spec 4.4, where the release runs even when the
    audit write fails. Had [Workflow Configuration1] run, the same path
    would release the lead ([READY_RETRY]). *)
Theorem compensation_never_releases ids p legacy s k st :
  perfect_workflow ids p legacy = Ok s ->
  chain (workflow s) "Error Trigger" 3 = ["Error Trigger"; "Airtable - Mark Failed"; "Supabase - Release Lock"] /\
  node_refs (airtable_fail (id_airtable_fail ids)) =
    ["Workflow Configuration1"; "Workflow Configuration1"; "Error Trigger"; "Error Trigger"] /\
  error_execution (workflow s) k st = (["Error Trigger"], st) /\
  (forall l, st !! k = Some l ->
     (exec_chain (workflow s) k (chain (workflow s) "Error Trigger" 3) ["Workflow Configuration1"] st).2 !! k =
       Some (mkLead READY_RETRY (last_error l))).
Proof.
  intros H.
  assert (Het : node_by_name (workflow s) "Error Trigger" = Some (error_trigger (id_error_trigger ids)))
    by (apply (perfect_node_by_name _ _ _ _ _ _ H); reflexivity).
  assert (Haf : node_by_name (workflow s) "Airtable - Mark Failed" = Some (airtable_fail (id_airtable_fail ids)))
    by (apply (perfect_node_by_name _ _ _ _ _ _ H); reflexivity).
  assert (Hrl : node_by_name (workflow s) "Supabase - Release Lock" = Some (supabase_unlock (id_supabase_unlock ids)))
    by (apply (perfect_node_by_name _ _ _ _ _ _ H); reflexivity).
  split_and!.
  - exact (perfect_error_chain _ _ _ _ H).
  - reflexivity.
  - unfold error_execution. pose proof (perfect_nodes_length _ _ _ _ H) as Hl.
    destruct (length (wf_nodes (workflow s))) as [|[|f]]; [lia | lia |].
    rewrite (perfect_error_chain_prefix _ _ _ _ _ H).
    rewrite (exec_chain_run _ _ _ _ _ _ _ Het) by reflexivity.
    by rewrite (exec_chain_stop _ _ _ _ _ _ _ Haf).
  - intros l Hk. rewrite (perfect_error_chain _ _ _ _ H).
    rewrite (exec_chain_run _ _ _ _ _ _ _ Het), (exec_chain_run _ _ _ _ _ _ _ Haf),
      (exec_chain_run _ _ _ _ _ _ _ Hrl) by reflexivity.
    cbn [exec_chain snd]. unfold node_effect. cbn.
    rewrite (release_update k l) by done. apply lookup_insert_eq.
Qed.

(** ** Witnesses *)

Lemma compensation_never_releases_witness :
  error_execution (workflow example_state) "L" ({[ "L" := mkLead IN_PROGRESS None ]} : store) =
    (["Error Trigger"], {[ "L" := mkLead IN_PROGRESS None ]}) /\
  (exec_chain (workflow example_state) "L" (chain (workflow example_state) "Error Trigger" 3)
     ["Workflow Configuration1"] ({[ "L" := mkLead IN_PROGRESS None ]} : store)).2 !! "L" =
    Some (mkLead READY_RETRY None).
Proof.
  pose proof example_run as H.
  destruct (compensation_never_releases _ _ _ _ "L" ({[ "L" := mkLead IN_PROGRESS None ]} : store) H)
    as (_ & _ & He & Hr).
  split; [exact He | exact (Hr (mkLead IN_PROGRESS None) (lookup_singleton_eq _ _))].
Defined.

End Execution.
