(* ===== verification/Runs.v ===== *)
(** * Concurrent executions of the written document

    Spec 5: runs execute concurrently and contend only over the lead
    table. Here each execution carries one lead through the written
    document node by node, as n8n runs it: a node runs when the nodes its
    expressions read have run in the execution ([can_run]), writes the
    table if it is a Supabase update ([node_effect]), and control goes
    to a node its outputs connect to, or the execution ends. Any node
    may fail (a run-time error of its own or an unexecuted reference);
    n8n then starts the error execution from the [Error Trigger], in
    which a failing node ends everything. Executions interleave freely:
    [xstep] is one node of one execution. *)

From stdpp Require Import base list strings gmap.
From S2P Require Import Prelude Json Workflow PerfectWorkflow Lifecycle Execution.

#[local] Set Warnings "-clear-no-such-hyp".

Module Runs.
Import Perfect Lifecycle Execution.

(** ** Executions *)

Inductive mode : Type :=
  | Main (n : string)   (** the run, about to execute node [n] *)
  | Err (n : string)    (** its error execution, about to execute [n] *)
  | Stopped.

Record exe := mkExe { ekey : string; emode : mode; eran : list string }.

Record world := mkWorld { table : store; exes : list exe }.

Definition set_exe (W : world) (i : nat) (st : store) (e : exe) : world :=
  mkWorld st (<[i := e]> (exes W)).

Inductive xstep (w : json) : world -> world -> Prop :=
  | XNode W i k n ran node o t :
      exes W !! i = Some (mkExe k (Main n) ran) -> node_by_name w n = Some node -> can_run ran node = true ->
      t ∈ succ w n o ->
      xstep w W (set_exe W i (node_effect node k (table W)) (mkExe k (Main t) (ran ++ [n])))
  | XEnd W i k n ran node :
      exes W !! i = Some (mkExe k (Main n) ran) -> node_by_name w n = Some node -> can_run ran node = true ->
      xstep w W (set_exe W i (node_effect node k (table W)) (mkExe k Stopped (ran ++ [n])))
  | XFail W i k n ran :
      exes W !! i = Some (mkExe k (Main n) ran) ->
      xstep w W (set_exe W i (table W) (mkExe k (Err "Error Trigger") []))
  | XErrNode W i k n ran node t :
      exes W !! i = Some (mkExe k (Err n) ran) -> node_by_name w n = Some node -> can_run ran node = true ->
      t ∈ succ w n 0 ->
      xstep w W (set_exe W i (node_effect node k (table W)) (mkExe k (Err t) (ran ++ [n])))
  | XErrEnd W i k n ran node :
      exes W !! i = Some (mkExe k (Err n) ran) -> node_by_name w n = Some node -> can_run ran node = true ->
      xstep w W (set_exe W i (node_effect node k (table W)) (mkExe k Stopped (ran ++ [n])))
  | XErrFail W i k n ran :
      exes W !! i = Some (mkExe k (Err n) ran) ->
      xstep w W (set_exe W i (table W) (mkExe k Stopped ran)).

(** ** The error path is entered only through the Error Trigger *)

Definition error_path : list string := ["Error Trigger"; "Airtable - Mark Failed"; "Supabase - Release Lock"].

(** An edge [a -> b] of a graph whose error path is entered only at its
    trigger: nothing enters the trigger, the audit only from the trigger,
    the release only from the audit. *)
Definition into_error_path (a b : string) : Prop :=
  b <> "Error Trigger" /\ (b = "Airtable - Mark Failed" -> a = "Error Trigger") /\
  (b = "Supabase - Release Lock" -> a = "Airtable - Mark Failed").

#[export] Instance into_error_path_dec a b : Decision (into_error_path a b).
Proof. unfold into_error_path. apply _. Defined.

(** A run is outside the error path, its error execution at the trigger
    with nothing run or at the audit after the trigger. *)
Definition exe_ok (e : exe) : Prop :=
  match emode e with
  | Main n => n ∉ error_path
  | Err n => (n = "Error Trigger" /\ eran e = []) \/ (n = "Airtable - Mark Failed" /\ eran e = ["Error Trigger"])
  | Stopped => True
  end.

(** Every lead [IN_PROGRESS] in [W] is still [IN_PROGRESS] in [W']. *)
Definition leases_kept (W W' : world) : Prop :=
  forall k l, table W !! k = Some l -> lstatus l = IN_PROGRESS ->
    exists l', table W' !! k = Some l' /\ lstatus l' = IN_PROGRESS.

(** ** Lemmas *)

Lemma last_named_name n l node : last_named n l = Some node -> node_name node = Some n /\ node ∈ l.
Proof.
  induction l as [|j l IH]; simpl; [done |]. destruct (last_named n l) as [x|].
  - intros [= ->]. destruct IH as [? ?]; [done |]. split; [done | by right].
  - case_bool_decide; [| done]. intros [= ->]. split; [done | by left].
Qed.

Lemma leases_kept_refl W : leases_kept W W.
Proof. intros k l Hk Hs. by exists l. Qed.

Lemma leases_kept_table W W' : table W' = table W -> leases_kept W W'.
Proof. intros E k l Hk Hs. rewrite E. by exists l. Qed.

Lemma leases_kept_trans W1 W2 W3 : leases_kept W1 W2 -> leases_kept W2 W3 -> leases_kept W1 W3.
Proof. intros H12 H23 k l Hk Hs. destruct (H12 _ _ Hk Hs) as (l' & Hk' & Hs'). exact (H23 _ _ Hk' Hs'). Qed.

Lemma lock_keeps_leases id k st :
  forall k0 l, st !! k0 = Some l -> lstatus l = IN_PROGRESS ->
    exists l', run_update (lock_lead id) k st !! k0 = Some l' /\ lstatus l' = IN_PROGRESS.
Proof.
  intros k0 l H0 Hs. destruct (st !! k) as [lk|] eqn:Hk.
  - rewrite (lock_update k lk) by done. destruct (decide (k0 = k)) as [-> | Hne].
    + rewrite lookup_insert_eq. by eexists.
    + rewrite lookup_insert_ne by congruence. by exists l.
  - unfold run_update, node_claim. rewrite Hk. by exists l.
Qed.

(** The nodes that write the lead table are the lock and the release. *)
Definition table_writer (ids : uuids) (n : json) : Prop :=
  is_table_update n = true -> n = lock_lead (id_lock ids) \/ n = supabase_unlock (id_supabase_unlock ids).

Lemma table_writer_set_prompt ids n v n' :
  table_writer ids n ->
  set_path n [IKey "parameters"; IKey "options"] (IKey "systemMessage") v = Ok n' -> table_writer ids n'.
Proof.
  intros Hn Hp Hu. pose proof Hp as Hp0.
  assert (E : is_table_update n' = is_table_update n).
  { apply set_path_key_Ok in Hp as (kv & c & c' & -> & Hc & Hp & ->).
    apply set_path_key_Ok in Hp as (pkv & o & o' & -> & _ & _ & ->).
    unfold is_table_update, obj_field.
    rewrite (dict_get_set_ne _ "parameters" "type"), dict_get_set_eq, Hc by discriminate. simpl.
    by rewrite (dict_get_set_ne _ "options" "operation") by discriminate. }
  rewrite E in Hu. exfalso. destruct (Hn Hu) as [-> | ->]; vm_compute in Hp0; discriminate.
Qed.


(** ** Every step keeps the leases *)

Section Step.
Context (ids : uuids) (w : json).
Hypothesis Hedges : edges_ok into_error_path (wf_conns w).
Hypothesis Hwriters : Forall (table_writer ids) (wf_nodes w).
Hypothesis Het : node_by_name w "Error Trigger" = Some (error_trigger (id_error_trigger ids)).
Hypothesis Haf : node_by_name w "Airtable - Mark Failed" = Some (airtable_fail (id_airtable_fail ids)).
Hypothesis Hsucc : succ w "Error Trigger" 0 = ["Airtable - Mark Failed"].

Lemma main_next n o t : n ∉ error_path -> t ∈ succ w n o -> t ∉ error_path.
Proof.
  intros Hn Ht. apply succ_edge in Ht. destruct (Hedges _ _ Ht) as (H1 & H2 & H3).
  unfold error_path in *. intros Hin.
  repeat (apply elem_of_cons in Hin as [-> | Hin]); [done | | | by apply elem_of_nil in Hin].
  - rewrite H2 in Hn by done. apply Hn. by left.
  - rewrite H3 in Hn by done. apply Hn. right. by left.
Qed.

(** A node outside the error path keeps every lease: the only table
    writer it can be is the lock. *)
Lemma main_effect_keeps n node k st :
  n ∉ error_path -> node_by_name w n = Some node ->
  forall k0 l, st !! k0 = Some l -> lstatus l = IN_PROGRESS ->
    exists l', node_effect node k st !! k0 = Some l' /\ lstatus l' = IN_PROGRESS.
Proof.
  intros Hn Hb. apply last_named_name in Hb as [Hname Hin].
  unfold node_effect. destruct (is_table_update node) eqn:Hu; [| intros k0 l ? ?; by exists l].
  rewrite Forall_forall in Hwriters. destruct (Hwriters node Hin Hu) as [-> | ->].
  - apply lock_keeps_leases.
  - exfalso. assert (E : node_name (supabase_unlock (id_supabase_unlock ids)) = Some "Supabase - Release Lock")
      by reflexivity.
    rewrite E in Hname. injection Hname as <-. apply Hn. right. right. by left.
Qed.

Lemma xstep_ok W W' : Forall exe_ok (exes W) -> xstep w W W' -> Forall exe_ok (exes W') /\ leases_kept W W'.
Proof.
  intros HW Hs.
  destruct Hs as [W i k n ran node o t Hi Hb Hr Ht | W i k n ran node Hi Hb Hr | W i k n ran Hi
                 | W i k n ran node t Hi Hb Hr Ht | W i k n ran node Hi Hb Hr | W i k n ran Hi];
    unfold set_exe; pose proof (Forall_lookup_1 _ _ _ _ HW Hi) as He; unfold exe_ok in He; cbn in He.
  - split; [apply Forall_insert; [done | exact (main_next _ _ _ He Ht)] |].
    intros k0 l. exact (main_effect_keeps n node k _ He Hb k0 l).
  - split; [by apply Forall_insert |]. intros k0 l. exact (main_effect_keeps n node k _ He Hb k0 l).
  - split; [apply Forall_insert; [done | by left] | by apply leases_kept_table].
  - destruct He as [[-> ->] | [-> ->]].
    + rewrite Het in Hb. injection Hb as <-. rewrite Hsucc in Ht. apply list_elem_of_singleton in Ht as ->.
      split; [apply Forall_insert; [done | by right] | by apply leases_kept_table].
    + rewrite Haf in Hb. injection Hb as <-. by vm_compute in Hr.
  - destruct He as [[-> ->] | [-> ->]].
    + rewrite Het in Hb. injection Hb as <-. split; [by apply Forall_insert | by apply leases_kept_table].
    + rewrite Haf in Hb. injection Hb as <-. by vm_compute in Hr.
  - split; [by apply Forall_insert | by apply leases_kept_table].
Qed.

Lemma xsteps_keep W W' : Forall exe_ok (exes W) -> rtc (xstep w) W W' -> leases_kept W W'.
Proof.
  intros HW Hr. revert HW. induction Hr as [W | W W1 W' Hs _ IH]; intros HW; [apply leases_kept_refl |].
  destruct (xstep_ok _ _ HW Hs) as [HW1 Hk]. eapply leases_kept_trans; [exact Hk | by apply IH].
Qed.

End Step.

(** ** The written document *)

(** C28 *)
(** No lease the patched workflow takes is ever given back (spec P2).
    The lock is the node of its name in the written document, and
    running it makes its lead [IN_PROGRESS]. Then, for every legacy
    document whose nodes do not write the lead table and whose
    connections do not enter the error path, in every interleaving of
    any number of concurrent executions of the written document, where
    any node may fail and start the error execution, a lead that is
    [IN_PROGRESS] stays [IN_PROGRESS]: the only table writer outside the
    error path is the lock, and in the error execution the audit node
    cannot run, so the release never does. Spec P2 requires every lead
    that enters [IN_PROGRESS] to leave it with [DONE], [READY_RETRY] or
    [FAILED]. *)
Theorem executions_keep_leases ids p legacy s :
  perfect_workflow ids p legacy = Ok s ->
  edges_ok into_error_path (wf_conns legacy) ->
  Forall (fun n => is_table_update n = false) (wf_nodes legacy) ->
  node_by_name (workflow s) "Lock Lead Status" = Some (lock_lead (id_lock ids)) /\
  (forall k l st, st !! k = Some l ->
     node_effect (lock_lead (id_lock ids)) k st !! k = Some (mkLead IN_PROGRESS (last_error l))) /\
  (forall W W', Forall exe_ok (exes W) -> rtc (xstep (workflow s)) W W' -> leases_kept W W').
Proof.
  intros H Hl Hu. split_and!.
  - apply (perfect_node_by_name _ _ _ _ _ _ H). reflexivity.
  - intros k l st Hk. unfold node_effect. cbn [is_table_update]. rewrite (lock_update k l) by done.
    apply lookup_insert_eq.
  - assert (Hbody : Forall (stmt_edges into_error_path) (perfect_body ids p)).
    { repeat constructor.
      all: match goal with H : _ ∈ _ |- _ => cbv in H; apply list_elem_of_singleton in H; subst end.
      all: by intros. }
    apply (xsteps_keep ids).
    + change (wf_conns (workflow s)) with (conns_of s). unfold perfect_workflow in H.
      exact (run_edges _ _ _ _ Hbody H Hl).
    + apply (run_nodes_inv (table_writer ids) (table_writer_set_prompt ids) _ _ _ H).
      * eapply Forall_impl; [exact Hu |]. intros n Hn Ht. congruence.
      * cbn. repeat (constructor; [intros Ht; vm_compute in Ht;
          first [discriminate | by right | by left] |]). constructor.
    + apply (perfect_node_by_name _ _ _ _ _ _ H). reflexivity.
    + apply (perfect_node_by_name _ _ _ _ _ _ H). reflexivity.
    + apply succ_link. by eapply (perfect_conn_known _ _ _ _ _ Unknown); [exact H | done | reflexivity].
Qed.

(** ** Witnesses *)

Lemma executions_keep_leases_witness :
  edges_ok into_error_path (wf_conns legacy_example) /\
  Forall (fun n => is_table_update n = false) (wf_nodes legacy_example) /\
  node_by_name (workflow example_state) "Lock Lead Status" = Some (lock_lead (id_lock ids_example)).
Proof.
  assert (Hl : edges_ok into_error_path (wf_conns legacy_example)).
  { intros a b Hab.
    assert (Hall : Forall (fun e => into_error_path e.1 e.2) (conn_edges (wf_conns legacy_example)))
      by (apply (bool_decide_unpack _); vm_compute; reflexivity).
    exact (proj1 (Forall_forall _ _) Hall (a, b) Hab). }
  assert (Hu : Forall (fun n => is_table_update n = false) (wf_nodes legacy_example))
    by (apply (bool_decide_unpack _); vm_compute; reflexivity).
  split_and!; [exact Hl | exact Hu |].
  exact (proj1 (executions_keep_leases ids_example "out.json" legacy_example example_state example_run Hl Hu)).
Defined.

End Runs.
