(* ===== verification/Ingest.v ===== *)
(** * The lead table: ingestion and the lease nodes

    The scraper's [Supabase - Elite Upsert] node ([build_scraper_workflow.py]
    lines 93-110) writes one row per extracted lead, upserting on its
    [matchColumn] [url]; the lock and release nodes of [perfect_workflow.py]
    (lines 104-118, 217-232) update the row whose [matchColumn]
    [airtable_id] holds the lead in flight. Each node is given the meaning
    its JSON states: a row is an object of columns (a missing column is
    SQL's NULL), an upsert inserts its row unless a row already holds the
    same non-NULL value in the match column, in which case that row gets
    the new columns ([ON CONFLICT DO UPDATE]); an update writes its
    columns into the rows whose match column equals the key. Values are
    compared as SQL scalars ([key_eq]): NULL equals nothing. An update
    also requires the row to meet the node's filter conditions
    ([Lifecycle.conds_hold]); the script's nodes state none.

    The table here is a list of rows in insertion order. *)

From Stdlib Require Import QArith.
From stdpp Require Import base list strings gmap.
From S2P Require Import Prelude Json Workflow PerfectWorkflow Scraper Lifecycle.

Module Ingest.
Import Perfect Scraper Lifecycle.

Abbreviation row := (list (string * json)).
Abbreviation table := (list row).

(** [parameters.matchColumn] of a Supabase node. *)
Definition match_column (node : json) : option string :=
  as_str (obj_field (default JNull (obj_field node "parameters")) "matchColumn").

(** The row an item is sent as: a column whose expression is
    [undefined] is dropped when the item is serialized, so it stays NULL. *)
Definition row_of_item (item : json) : row :=
  omap (fun cv => (fun v => (cv.1, v)) <$> cv.2) (upsert_row item).

(** SQL equality of two column values; NULL and non-scalars equal nothing. *)
Definition key_eq (a b : json) : bool :=
  match a, b with
  | JStr x, JStr y => str_eqb x y
  | JNum p, JNum q => Qeq_bool p q
  | JBool x, JBool y => Bool.eqb x y
  | _, _ => false
  end.

Definition has_key (mc : string) (v : json) (x : row) : bool :=
  match dict_get x mc with Some w => key_eq w v | None => false end.

(** The row [x] with the columns of [r] written into it. *)
Definition merge (x r : row) : row := foldl (fun y cv => dict_set y cv.1 cv.2) x r.

Definition upsert_by (mc : string) (r : row) (t : table) : table :=
  match dict_get r mc with
  | Some v =>
      if existsb (has_key mc v) t then (fun x => if has_key mc v x then merge x r else x) <$> t
      else t ++ [r]
  | None => t ++ [r]
  end.

(** The upsert node run on the parser's items, one after the other. *)
Definition ingest (node : json) (items : list json) (t : table) : table :=
  match match_column node with
  | Some mc => foldl (fun t item => upsert_by mc (row_of_item item) t) t items
  | None => t
  end.

(** A Supabase [update] node run for the lead whose match value is [key]. *)
Definition update_where (node : json) (key : json) (t : table) : table :=
  match match_column node with
  | Some mc => (fun x => if has_key mc key x && conds_hold node x then merge x (Lifecycle.update_columns node) else x) <$> t
  | None => t
  end.

(** ** Rows *)

Lemma dict_set_same kv k v : dict_get kv k = Some v -> dict_set kv k v = kv.
Proof.
  induction kv as [|[k' v'] kv IH]; simpl; [discriminate |].
  destruct (str_eqb k' k) eqn:E; [intros [= ->]; by apply str_eqb_true in E as -> | intros H; by rewrite IH].
Qed.

Lemma dict_get_of_elem (r : row) c w : NoDup (fst <$> r) -> (c, w) ∈ r -> dict_get r c = Some w.
Proof.
  induction r as [|[c' w'] r IH]; simpl; intros Hnd Hin; [by apply elem_of_nil in Hin |].
  apply NoDup_cons in Hnd as [Hc Hnd]. apply elem_of_cons in Hin as [[= -> ->] | Hin].
  - by rewrite str_eqb_refl.
  - destruct (str_eqb c' c) eqn:E; [| by apply IH].
    apply str_eqb_true in E as ->. exfalso. apply Hc. apply list_elem_of_fmap. by exists (c, w).
Qed.

Lemma merge_fixed y (r : row) : (forall c w, (c, w) ∈ r -> dict_get y c = Some w) -> merge y r = y.
Proof.
  revert y. induction r as [|[c w] r IH]; intros y H; [done |]. cbn [merge foldl fst snd].
  rewrite dict_set_same by (apply H; by left). apply IH. intros c' w' Hin. apply H. by right.
Qed.

Lemma merge_frame y (r : row) c : c ∉ fst <$> r -> dict_get (merge y r) c = dict_get y c.
Proof.
  revert y. induction r as [|[c' w'] r IH]; intros y Hc; [done |]. cbn [merge foldl fst snd].
  apply not_elem_of_cons in Hc as [Hne Hc]. unfold merge in IH. rewrite IH by done.
  by apply dict_get_set_ne.
Qed.

Lemma merge_get y (r : row) c w : NoDup (fst <$> r) -> (c, w) ∈ r -> dict_get (merge y r) c = Some w.
Proof.
  revert y. induction r as [|[c' w'] r IH]; intros y Hnd Hin; [by apply elem_of_nil in Hin |].
  cbn [merge foldl fst snd]. apply NoDup_cons in Hnd as [Hc Hnd].
  apply elem_of_cons in Hin as [[= <- <-] | Hin].
  - change (dict_get (merge (dict_set y c w) r) c = Some w). rewrite merge_frame by done.
    apply dict_get_set_eq.
  - exact (IH _ Hnd Hin).
Qed.

Lemma merge_idem x (r : row) : NoDup (fst <$> r) -> merge (merge x r) r = merge x r.
Proof. intros Hnd. apply merge_fixed. intros c w. by apply merge_get. Qed.

(** The columns an item is sent with are those of [upsert_values]. *)
Lemma row_of_item_keys item c :
  c ∉ fst <$> upsert_values -> dict_get (row_of_item item) c = None.
Proof.
  unfold row_of_item. rewrite upsert_row_eq. simpl. intros Hc.
  repeat (apply not_elem_of_cons in Hc as [? Hc]).
  repeat match goal with |- context [obj_field item ?f] => destruct (obj_field item f) end; simpl;
    repeat (rewrite (proj2 (str_eqb_false _ c)) by congruence); done.
Qed.

(** ** Upserts *)

Lemma fmap_if_none (p : row -> bool) (f : row -> row) (t : table) :
  existsb p t = false -> (fun x => if p x then f x else x) <$> t = t.
Proof.
  induction t as [|x t IH]; [done |]. cbn [existsb]. intros [Hx H]%orb_false_iff.
  by rewrite fmap_cons, Hx, IH.
Qed.

(** An upsert whose row holds a text key is idempotent. *)
Lemma upsert_idem mc r u t :
  dict_get r mc = Some (JStr u) -> NoDup (fst <$> r) ->
  upsert_by mc r (upsert_by mc r t) = upsert_by mc r t.
Proof.
  intros Hu Hnd. assert (Hr : has_key mc (JStr u) r = true) by (unfold has_key; rewrite Hu; apply str_eqb_refl).
  assert (Hm : forall x, has_key mc (JStr u) (merge x r) = true).
  { intros x. unfold has_key. rewrite (merge_get _ _ mc (JStr u)); [apply str_eqb_refl | done |].
    by apply dict_get_elem. }
  unfold upsert_by. rewrite Hu. destruct (existsb (has_key mc (JStr u)) t) eqn:E.
  - replace (existsb _ (_ <$> t)) with true.
    2:{ symmetry. apply existsb_exists in E as (x & Hx & Hk). apply existsb_exists.
        exists (merge x r). split; [| apply Hm]. apply in_map_iff. exists x. by rewrite Hk. }
    rewrite <- list_fmap_compose. apply list_fmap_ext. intros _ x _. unfold compose.
    destruct (has_key _ _ x) eqn:Hx; [by rewrite Hm, merge_idem | by rewrite Hx].
  - rewrite existsb_app, E. simpl. rewrite Hr. simpl.
    rewrite fmap_app, fmap_if_none by done. simpl. rewrite Hr.
    by rewrite merge_fixed by (intros c w; by apply dict_get_of_elem).
Qed.

Lemma upsert_no_key mc r t : dict_get r mc = None -> upsert_by mc r t = t ++ [r].
Proof. unfold upsert_by. by intros ->. Qed.

Lemma row_of_item_unkeyed item c : c ∈ ["url"; "airtable_id"] -> dict_get (row_of_item item) c = None.
Proof.
  intros Hc. apply row_of_item_keys. simpl.
  apply elem_of_cons in Hc as [-> | [-> | []%elem_of_nil]%elem_of_cons];
    apply (bool_decide_unpack _); reflexivity.
Qed.

(** An update matching a column the ingested rows lack leaves them alone. *)
Lemma update_where_fresh node key items t mc :
  match_column node = Some mc -> mc ∈ ["url"; "airtable_id"] ->
  update_where node key (t ++ (row_of_item <$> items)) = update_where node key t ++ (row_of_item <$> items).
Proof.
  unfold update_where. intros -> Hmc. rewrite fmap_app. f_equal.
  rewrite <- list_fmap_compose. apply list_fmap_ext. intros _ item _. unfold compose, has_key.
  by rewrite row_of_item_unkeyed.
Qed.

(** An upsert matching a column the rows never hold appends each item. *)
Lemma ingest_unkeyed node mc items t :
  match_column node = Some mc -> mc ∉ fst <$> upsert_values ->
  ingest node items t = t ++ (row_of_item <$> items).
Proof.
  unfold ingest. intros -> Hmc. revert t. induction items as [|item items IH]; intros t; simpl; [by rewrite app_nil_r |].
  rewrite IH, upsert_no_key, <- app_assoc by (by apply row_of_item_keys). done.
Qed.

(** C26 *)
(** The scraper's upsert is not idempotent (spec 4.1): it matches on
    [url], and an upsert whose row holds a text [url] is idempotent, but
    the rows the node sends never hold [url], so every item, the same one
    again included, appends a new row to the lead table. *)
Theorem ingest_not_idempotent id items t :
  match_column (upsert_node id) = Some "url" /\
  ingest (upsert_node id) items t = t ++ (row_of_item <$> items) /\
  (forall r u t', dict_get r "url" = Some (JStr u) -> NoDup (fst <$> r) ->
     upsert_by "url" r (upsert_by "url" r t') = upsert_by "url" r t').
Proof.
  split_and!; [reflexivity | | intros r u t' Hu Hnd; by eapply upsert_idem].
  apply (ingest_unkeyed _ "url"); [reflexivity | apply (bool_decide_unpack _); reflexivity].
Qed.

(** C27 *)
(** The claim loop never sees an ingested lead: the lock and release
    nodes update the rows whose [airtable_id] holds the lead in flight,
    and no row the scraper ingests has an [airtable_id]; whatever the
    table held before, the ingested rows come out of both updates
    unchanged, contrary to spec 3's lifecycle where ingested records are
    mutated by the claim loop and the compensation handler. *)
Theorem lease_nodes_miss_ingested uid lid rid items t key :
  update_where (lock_lead lid) key (ingest (upsert_node uid) items t) =
    update_where (lock_lead lid) key t ++ (row_of_item <$> items) /\
  update_where (supabase_unlock rid) key (ingest (upsert_node uid) items t) =
    update_where (supabase_unlock rid) key t ++ (row_of_item <$> items).
Proof.
  rewrite (ingest_unkeyed _ "url") by (reflexivity || (apply (bool_decide_unpack _); reflexivity)).
  split; (eapply update_where_fresh; [reflexivity | apply elem_of_cons; right; apply elem_of_cons; by left]).
Qed.

End Ingest.
