(* ===== verification/Extraction.v ===== *)
(** * The extraction agent and the ingestion it feeds

    [build_scraper_workflow.py] configures the [AI Elite Parser & Scorer]
    agent only by its system prompt ([parsing_prompt], lines 72-80). The
    agent itself is an external language model (spec 2,
    ExtractionAgent): this file states what the specification requires
    of its output, as the class [ExtractionContract] (spec 6: each
    candidate has [AgencyName], an integer [LeadScore] from 1 to 10, a
    [Sector] among Luxury, Standard and Commercial, [City] and
    [Phone]), and proves what the scraper's upsert does with output that
    keeps the contract and with output that breaks it. *)

From Stdlib Require Import ZArith QArith.
From stdpp Require Import base list sets strings.
From S2P Require Import Prelude Json Workflow Scraper Ingest.

Module Extraction.
Import Scraper Ingest.

(** ** The output contract (spec 6) *)

Definition sectors : list string := ["Luxury"; "Standard"; "Commercial"].

Definition candidate_ok (item : json) : bool :=
  match obj_field item "AgencyName", obj_field item "LeadScore", obj_field item "Sector",
        obj_field item "City", obj_field item "Phone" with
  | Some (JStr _), Some (JNum q), Some (JStr sec), Some (JStr _), Some (JStr _) =>
      bool_decide (Qden q = 1%positive) && (1 <=? Qnum q)%Z && (Qnum q <=? 10)%Z && bool_decide (sec ∈ sectors)
  | _, _, _, _, _ => false
  end.

(** What the ingestion may rely on: every candidate the agent returns for
    a page keeps the contract. *)
Class ExtractionContract (agent : string -> list json) : Prop :=
  extraction_valid page : Forall (fun item => candidate_ok item = true) (agent page).

(** ** Lemmas *)

(** A contract candidate's [LeadScore] is an integer from 1 to 10. *)
Lemma candidate_ok_score item :
  candidate_ok item = true ->
  exists n, (1 <= n <= 10)%Z /\ obj_field item "LeadScore" = Some (jint n).
Proof.
  unfold candidate_ok. intros H. repeat case_match; try discriminate. subst.
  apply andb_true_iff in H as [H _]. apply andb_true_iff in H as [H Hle].
  apply andb_true_iff in H as [Hd Hge].
  apply bool_decide_eq_true in Hd. apply Z.leb_le in Hge. apply Z.leb_le in Hle.
  exists (Qnum q). split; [lia |]. destruct q as [n d]. simpl in *. subst d. done.
Qed.

Lemma status_of_int item n :
  obj_field item "LeadScore" = Some (jint n) ->
  status_of item = if (7 <? n)%Z then "PRIORITY" else "READY_TO_PROCESS".
Proof.
  intros H. unfold status_of. rewrite H. simpl. unfold Qle_bool. simpl.
  rewrite !Z.mul_1_r, Z.leb_antisym, negb_involutive. done.
Qed.

(** The row the upsert writes for an item with an integer score. *)
Lemma row_of_item_int item n :
  obj_field item "LeadScore" = Some (jint n) ->
  dict_get (row_of_item item) "lead_score" = Some (jint n) /\
  dict_get (row_of_item item) "status" = Some (JStr (if (7 <? n)%Z then "PRIORITY" else "READY_TO_PROCESS")).
Proof.
  intros H. unfold row_of_item. rewrite upsert_row_eq, H, (status_of_int _ n H).
  by destruct (obj_field item "AgencyName"), (obj_field item "Sector").
Qed.

(** ** Theorems *)

(** C9 *)
(** The ingestion relies on the extraction contract without checking
    it. For every agent that keeps the contract (spec 6), the scraper's
    upsert appends one row per candidate, whose [lead_score] is the
    candidate's score, an integer from 1 to 10, and whose [status] is
    [PRIORITY] exactly above 7 (spec P3). But a candidate that breaks
    the contract is not rejected (spec 6 and 7: malformed output is a
    hard failure for that item and must not reach the lead table): an
    item without [LeadScore], such as the agent's raw text output, is
    stored with no [lead_score] and the status [READY_TO_PROCESS]. *)
Theorem ingest_contract agent `{ExtractionContract agent} id page t :
  ingest (upsert_node id) (agent page) t = t ++ (row_of_item <$> agent page) /\
  Forall (fun r => exists n, (1 <= n <= 10)%Z /\ dict_get r "lead_score" = Some (jint n) /\
            dict_get r "status" = Some (JStr (if (7 <? n)%Z then "PRIORITY" else "READY_TO_PROCESS")))
    (row_of_item <$> agent page) /\
  (forall item, obj_field item "LeadScore" = None ->
     candidate_ok item = false /\ ingest (upsert_node id) [item] t = t ++ [row_of_item item] /\
     dict_get (row_of_item item) "lead_score" = None /\
     dict_get (row_of_item item) "status" = Some (JStr "READY_TO_PROCESS")).
Proof.
  assert (Hi : forall items, ingest (upsert_node id) items t = t ++ (row_of_item <$> items))
    by (intros items; apply (ingest_unkeyed _ "url"); [reflexivity | apply (bool_decide_unpack _); reflexivity]).
  split_and!.
  - apply Hi.
  - apply Forall_fmap. eapply Forall_impl; [apply extraction_valid |]. intros item Hok. simpl.
    destruct (candidate_ok_score _ Hok) as (n & Hn & Hs). exists n. split; [done |]. by apply row_of_item_int.
  - intros item Hs. split_and!; [| apply Hi | |].
    + unfold candidate_ok. rewrite Hs. by repeat case_match.
    + unfold row_of_item. rewrite upsert_row_eq, Hs. by destruct (obj_field item "AgencyName"), (obj_field item "Sector").
    + unfold row_of_item. rewrite upsert_row_eq, status_of_nan, Hs by (by rewrite Hs).
      by destruct (obj_field item "AgencyName"), (obj_field item "Sector").
Qed.

(** ** Witnesses *)

(** An agent that keeps the contract: one candidate for every page. *)
Definition agent_example (page : string) : list json :=
  [JObj [("AgencyName", JStr "Lugano Prime"); ("LeadScore", jint 9); ("Sector", JStr "Luxury");
         ("City", JStr "Lugano"); ("Phone", JStr "+41 91 000 00 00")]].

#[export] Instance agent_example_contract : ExtractionContract agent_example.
Proof. intros page. constructor; [reflexivity | constructor]. Qed.

Lemma ingest_contract_witness :
  ingest (upsert_node "u5") (agent_example "p") [] = row_of_item <$> agent_example "p" /\
  dict_get (row_of_item (JObj [("output", JStr "[]")])) "status" = Some (JStr "READY_TO_PROCESS").
Proof.
  destruct (ingest_contract agent_example "u5" "p" []) as (H1 & _ & H3).
  split; [exact H1 | exact (proj2 (proj2 (proj2 (H3 (JObj [("output", JStr "[]")]) eq_refl))))].
Defined.

End Extraction.
