(* ===== verification/Batch.v ===== *)
(** * The batch node at run time

    [perfect_workflow.py] (lines 188-212) inserts a [splitInBatches]
    node of [typeVersion] 3, [Batch Leads (Volume)], with [batchSize] 50,
    between [Get Leads from Airtable1] and [Split Leads1], and connects
    only its first output. This file models what n8n does with that node:
    [sib_execute] is one execution of [SplitInBatchesV3.node.ts] (the
    node's context holds the items still to emit and the items fed back
    so far; output 0 is ["done"], output 1 is ["loop"]), and [deliver] routes
    an execution's outputs along the document's connections.

    The n8n node is a library the script configures, not code of the
    repository: the definitions of this file follow n8n's source and are
    not in the map; the node's JSON ([batch_node]) and the connections
    are the script's. *)

From Stdlib Require Import ZArith QArith.
From stdpp Require Import base list strings.
From S2P Require Import Prelude Json Workflow PerfectWorkflow.

Module Batch.
Import Perfect.

(** [parameters.batchSize], as [getNodeParameter] returns it; [splice]
    truncates it to an integer and takes a negative count as 0. *)
Definition batch_size (node : json) : option nat :=
  match obj_field (default JNull (obj_field node "parameters")) "batchSize" with
  | Some (JNum q) => Some (Z.to_nat (Z.quot (Qnum q) (Zpos (Qden q))))
  | _ => None
  end.

(** The node runs as [splitInBatches] version 3 only when its [type]
    and [typeVersion] say so. *)
Definition is_sib_v3 (node : json) : bool :=
  is_str "n8n-nodes-base.splitInBatches" (default JNull (obj_field node "type")) &&
  match obj_field node "typeVersion" with Some (JNum q) => Qeq_bool q 3 | _ => false end.

Section Node.
Context {A : Type}.

(** The node context: [nodeContext.items] and [nodeContext.processedItems]. *)
Record sib_ctx := mkCtx { sib_items : list A; sib_processed : list A }.

(** One execution on [input]: the first one ([ctx = None]) keeps the
    input after the first batch; a later one takes the next batch of the
    kept items and appends its input to the processed items. An empty
    batch ends the loop: the processed items go out on ["done"]. The
    result is ([done] output, [loop] output, new context). *)
Definition sib_execute (bs : nat) (ctx : option sib_ctx) (input : list A)
    : list A * list A * sib_ctx :=
  let '(ret, c) :=
    match ctx with
    | None => (take bs input, mkCtx (drop bs input) [])
    | Some c => (take bs (sib_items c), mkCtx (drop bs (sib_items c)) (sib_processed c ++ input))
    end in
  match ret with
  | [] => (sib_processed c, [], c)
  | _ => ([], ret, c)
  end.

(** The items an execution's outputs [outs] send to node [t] of document
    [w]: output [o] goes to the targets [succ w src o]. *)
Definition deliver (w : json) (src : string) (outs : list (list A)) (t : string) : list A :=
  mjoin (imap (fun o out => if bool_decide (t ∈ succ w src o) then out else []) outs).

End Node.

Arguments sib_ctx : clear implicits.

(** [batch_size] and [is_sib_v3] read from the node JSON, then one
    execution; [None] when the node is not a version-3 [splitInBatches]
    with a numeric [batchSize]. *)
Definition node_execute {A} (node : json) (ctx : option (sib_ctx A)) (input : list A)
    : option (list A * list A * sib_ctx A) :=
  if is_sib_v3 node then bs ← batch_size node; Some (sib_execute bs ctx input) else None.

(** ** The script's batch node *)

(** C23 *)
(** The batch node starves the lease chain: in the written document of
    every successful run, the node's first execution on the fetched
    leads puts the first 50 on its ["loop"] output (output 1) and nothing
    on ["done"] (output 0); only output 0 is connected, to [Split Leads1],
    so no lead reaches [Split Leads1] and the lock, and with nothing wired
    back the node never runs again. Spec P5 expects a run to claim
    [min(50, n)] leads; this one claims none. *)
Theorem perfect_batch_starves ids p legacy s {A} (leads : list A) :
  perfect_workflow ids p legacy = Ok s ->
  node_execute (batch_node (id_batch ids)) None leads = Some ([], take 50 leads, mkCtx (drop 50 leads) []) /\
  succ (workflow s) "Batch Leads (Volume)" 0 = ["Split Leads1"] /\
  succ (workflow s) "Batch Leads (Volume)" 1 = [] /\
  forall t, deliver (workflow s) "Batch Leads (Volume)" [[]; take 50 leads] t = [].
Proof.
  intros H.
  assert (Hc : dict_get (wf_conns (workflow s)) "Batch Leads (Volume)" = Some (link "Split Leads1"))
    by (eapply (perfect_conn_known _ _ _ _ _ Unknown); [exact H | done | reflexivity]).
  assert (H1 : succ (workflow s) "Batch Leads (Volume)" 1 = []) by (unfold succ; by rewrite Hc).
  split_and!.
  - unfold node_execute. change (is_sib_v3 (batch_node (id_batch ids))) with true.
    change (batch_size (batch_node (id_batch ids))) with (Some 50). simpl.
    unfold sib_execute. by destruct (take 50 leads).
  - by apply succ_link, Hc.
  - exact H1.
  - intros t. unfold deliver. simpl. rewrite H1. by case_bool_decide.
Qed.

(** ** Witnesses *)

Lemma perfect_batch_starves_witness :
  perfect_workflow ids_example "out.json" legacy_example = Ok example_state /\
  node_execute (batch_node (id_batch ids_example)) None (seq 0 120) =
    Some ([], take 50 (seq 0 120), mkCtx (drop 50 (seq 0 120)) []) /\
  succ (workflow example_state) "Batch Leads (Volume)" 1 = [].
Proof.
  pose proof example_run as H.
  destruct (perfect_batch_starves _ _ _ _ (seq 0 120) H) as (He & _ & H1 & _).
  split_and!; [exact H | exact He | exact H1].
Defined.

End Batch.
