(* ===== verification/Jitter.v ===== *)
(** * The randomized expressions of the two workflows

    Three n8n expressions draw from [Math.random()]: the wait node's
    [amount] [={{ Math.floor(Math.random() * 4) + 2 }}]
    ([perfect_workflow.py] line 238), the scraper trigger's interval
    [={{ Math.floor(Math.random() * 60) }}] ([build_scraper_workflow.py]
    line 23) and the user-agent index
    [uas[Math.floor(Math.random() * uas.length)]] in the rotator's code
    (line 41). The first two are read from the nodes' JSON by
    [floor_random_expr], the third from the code string.

    [Math.random()] returns a double [k / 2^53] for a 53-bit integer [k]
    (V8's generator). Its product with an integer [n] is the binary64
    number nearest to [k n / 2^53] (ties to even): [round64] computes it
    in units of [2^-53], keeping the 53 leading bits of [k n]. The product
    is exact when [n] is a power of two (the wait), but not in general:
    for [n = 60] some draws just below an integer round up to it
    ([round64_not_exact]). *)

From Stdlib Require Import ZArith Ascii.
From stdpp Require Import base list strings.
From S2P Require Import Prelude Json Workflow PerfectWorkflow Scraper.

Module Jitter.
Import Scraper.
Local Open Scope Z_scope.

Definition txt (s : string) : list ascii := String.list_ascii_of_string s.

Fixpoint strip_prefix (p s : list ascii) : option (list ascii) :=
  match p, s with
  | [], _ => Some s
  | c :: p', d :: s' => if bool_decide (c = d) then strip_prefix p' s' else None
  | _ :: _, [] => None
  end.

(** [={{ Math.floor(Math.random() * N) + M }}] gives [(N, M)];
    [={{ Math.floor(Math.random() * N) }}] gives [(N, 0)]. *)
Definition floor_random_expr (e : string) : option (Z * Z) :=
  match strip_prefix (txt "={{ Math.floor(Math.random() * ") (txt e) with
  | Some r =>
      let '(ds, r1) := span_digits 10 r in
      if bool_decide (ds = []) then None
      else if bool_decide (r1 = txt ") }}") then Some (digits_value 10 ds, 0%Z)
      else
        match strip_prefix (txt ") + ") r1 with
        | Some r2 =>
            let '(ms, r3) := span_digits 10 r2 in
            if bool_decide (ms <> [] /\ r3 = txt " }}") then Some (digits_value 10 ds, digits_value 10 ms)
            else None
        | None => None
        end
  | None => None
  end.

Definition two53 : Z := 2 ^ 53.

(** ** Binary64 products

    The double nearest to [m / 2^53] (for [m >= 0]), in units of
    [2^-53]: the low [round_shift m] bits of [m] beyond the 53 leading
    ones are rounded off, to nearest and ties to even. *)
Definition round_shift (m : Z) : Z := Z.max 0 (Z.log2 m + 1 - 53).

Definition round64 (m : Z) : Z :=
  let s := round_shift m in
  let q := m / 2 ^ s in
  let r := m mod 2 ^ s in
  (if (2 ^ s <? 2 * r) || ((2 * r =? 2 ^ s) && Z.odd q) then q + 1 else q) * 2 ^ s.

(** [Math.floor(Math.random() * N) + M] for the draw [k]. *)
Definition eval_floor_random (nm : Z * Z) (k : Z) : Z :=
  (round64 (k * nm.1) / two53 + nm.2)%Z.

(** The [amount] parameter of a node. *)
Definition amount_of (node : json) : option json :=
  obj_field (default JNull (obj_field node "parameters")) "amount".

(** The single-quoted literals of a JavaScript array, up to its [\]]. *)
Fixpoint quoted_strings (l : list ascii) (cur : option (list ascii)) : list (list ascii) :=
  match l with
  | [] => []
  | c :: l' =>
      match cur with
      | Some s => if bool_decide (c = "'"%char) then rev s :: quoted_strings l' None
                  else quoted_strings l' (Some (c :: s))
      | None => if bool_decide (c = "'"%char) then quoted_strings l' (Some [])
                else if bool_decide (c = "]"%char) then [] else quoted_strings l' None
      end
  end.

(** [const uas = [...]] of the rotator's code. *)
Definition ua_list : list (list ascii) :=
  match strip_prefix (txt "const uas = [") (txt ua_js_code) with
  | Some r => quoted_strings r None
  | None => []
  end.

Definition ua_index_expr : string := "uas[Math.floor(Math.random() * uas.length)]".

(** [uas[Math.floor(Math.random() * uas.length)]] for the draw [k];
    [None] is JavaScript's [undefined]. *)
Definition ua_pick (k : Z) : option (list ascii) :=
  ua_list !! Z.to_nat (round64 (k * Z.of_nat (length ua_list)) / two53).

(** ** Lemmas on [round64] *)

Lemma round64_bounds m :
  0 <= m -> 0 <= round64 m /\ 2 * round64 m <= 2 * m + 2 ^ round_shift m.
Proof.
  intros Hm. unfold round64. set (s := round_shift m).
  assert (Hp : 0 < 2 ^ s) by (apply Z.pow_pos_nonneg; unfold s, round_shift; lia).
  pose proof (Z.div_mod m (2 ^ s) ltac:(lia)) as Hd. pose proof (Z.mod_pos_bound m (2 ^ s) Hp) as Hr.
  assert (Hq : 0 <= m / 2 ^ s) by (apply Z.div_pos; lia).
  destruct (_ || _) eqn:E; [| nia].
  apply orb_true_iff in E as [E | E]; [apply Z.ltb_lt in E |
    apply andb_true_iff in E as [E _]; apply Z.eqb_eq in E]; nia.
Qed.

Lemma round64_exact m : m mod 2 ^ round_shift m = 0 -> round64 m = m.
Proof.
  intros H. unfold round64. rewrite H.
  assert (Hp : 0 < 2 ^ round_shift m) by (apply Z.pow_pos_nonneg; unfold round_shift; lia).
  replace (2 ^ round_shift m <? 2 * 0) with false by (symmetry; apply Z.ltb_ge; lia).
  replace (2 * 0 =? 2 ^ round_shift m) with false by (symmetry; apply Z.eqb_neq; lia).
  simpl. pose proof (Z.div_mod m (2 ^ round_shift m) ltac:(lia)). lia.
Qed.

(** The rounding error is below [n] units when [m < n 2^53]. *)
Lemma round_shift_small m n : 0 < m -> m < n * two53 -> 2 ^ round_shift m < 2 * n.
Proof.
  intros Hm Hn. unfold round_shift, two53 in *.
  destruct (Z.max_spec 0 (Z.log2 m + 1 - 53)) as [[Hpos ->] | [_ ->]]; [| lia].
  pose proof (Z.log2_spec m Hm) as [Hl _].
  assert (2 ^ (Z.log2 m + 1 - 53) * 2 ^ 53 = 2 * 2 ^ Z.log2 m) as E.
  { rewrite <- Z.pow_add_r by lia. rewrite <- Z.pow_succ_r by (apply Z.log2_nonneg). f_equal. lia. }
  replace (2 ^ 53) with 9007199254740992 in * by reflexivity. lia.
Qed.

(** [Math.floor(Math.random() * n)] lies in [0 .. n-1] for every draw. *)
Lemma floor_random_range k n :
  0 <= k < two53 -> 0 < n -> 0 <= round64 (k * n) / two53 <= n - 1.
Proof.
  intros Hk Hn. unfold two53 in *.
  destruct (round64_bounds (k * n) ltac:(nia)) as [H0 H1].
  split; [apply Z.div_pos; lia |].
  destruct (Z.eq_dec k 0) as [-> | Hk0].
  - rewrite Z.mul_0_l. change (round64 0) with 0. rewrite Z.div_0_l by lia. lia.
  - pose proof (round_shift_small (k * n) n ltac:(nia) ltac:(unfold two53; nia)).
    assert (round64 (k * n) < n * 2 ^ 53) by nia.
    apply Z.lt_le_pred, Z.div_lt_upper_bound; lia.
Qed.

(** A product with 4 is exact. *)
Lemma round64_times_4 k : 0 <= k < two53 -> round64 (k * 4) = k * 4.
Proof.
  intros Hk. apply round64_exact. unfold two53 in Hk.
  assert (Hs : round_shift (k * 4) <= 2).
  { unfold round_shift. destruct (Z.eq_dec k 0) as [-> | Hk0]; [apply Z.leb_le; reflexivity |].
    assert (Z.log2 (k * 4) < 55) by (apply Z.log2_lt_pow2; lia). lia. }
  apply Z.mod_divide; [apply Z.pow_nonzero; unfold round_shift; lia |].
  apply Z.divide_mul_r. exists (2 ^ (2 - round_shift (k * 4))).
  rewrite <- Z.pow_add_r by (unfold round_shift in *; lia). replace (2 - _ + _) with 2 by lia. reflexivity.
Qed.

Lemma eval_wait k : 0 <= k < two53 -> eval_floor_random (4%Z, 2%Z) k = (k / 2 ^ 51 + 2)%Z.
Proof.
  intros Hk. unfold eval_floor_random. cbn [fst snd]. rewrite round64_times_4 by done.
  unfold two53. replace (2 ^ 53) with (2 ^ 51 * 4) by reflexivity.
  by rewrite Z.div_mul_cancel_r by lia.
Qed.

(** The product with 60 is not exact: the draw [(2^56 - 1) / 15] gives
    [32 - 2^-51], which rounds to [32]. *)
Lemma round64_not_exact :
  let k := (2 ^ 56 - 1) / 15 in
  (0 <= k < two53)%Z /\ (k * 60) / two53 = 31 /\ eval_floor_random (60, 0) k = 32.
Proof. intros k. split; [split; [apply Z.leb_le | apply Z.ltb_lt]; reflexivity | split; reflexivity]. Qed.

Lemma ua_list_eq :
  ua_list = [txt "Mozilla/5.0 (Windows NT 10.0; Win64; x64) AppleWebKit/537.36 (KHTML, like Gecko) Chrome/120.0.0.0 Safari/537.36";
             txt "Mozilla/5.0 (Macintosh; Intel Mac OS X 10_15_7) AppleWebKit/537.36 (KHTML, like Gecko) Chrome/119.0.0.0 Safari/537.36";
             txt "Mozilla/5.0 (X11; Linux x86_64) AppleWebKit/537.36 (KHTML, like Gecko) Chrome/118.0.0.0 Safari/537.36"].
Proof. vm_compute. reflexivity. Qed.

(** C21 *)
(** The wait node's delay, read from its [amount] expression, is 2, 3, 4
    or 5 seconds for every draw of [Math.random()], and each value is
    taken on a quarter of the draws ([v] exactly on the draws from
    [(v-2) 2^51] to [(v-1) 2^51]): uniform on the spec's default bounds
    2-5 (spec 4.2), though fixed in the node instead of read from the
    run configuration. *)
Theorem wait_jitter_uniform id k :
  (0 <= k < two53)%Z ->
  exists e nm, amount_of (Perfect.wait_node id) = Some (JStr e) /\ floor_random_expr e = Some nm /\
    (2 <= eval_floor_random nm k <= 5)%Z /\
    (forall v, eval_floor_random nm k = v <-> ((v - 2) * 2 ^ 51 <= k < (v - 1) * 2 ^ 51)%Z).
Proof.
  intros Hk. exists "={{ Math.floor(Math.random() * 4) + 2 }}", (4%Z, 2%Z).
  split_and!; [reflexivity | reflexivity | | |]; rewrite eval_wait by done; unfold two53 in Hk.
  - pose proof (Z.div_pos k (2 ^ 51) (proj1 Hk) ltac:(lia)). lia.
  - assert (k / 2 ^ 51 < 4)%Z by (apply Z.div_lt_upper_bound; lia). lia.
  - intros v. split.
    + intros <-. pose proof (Z.mul_div_le k (2 ^ 51) ltac:(lia)). pose proof (Z.mul_succ_div_gt k (2 ^ 51) ltac:(lia)). lia.
    + intros Hv. assert (k / 2 ^ 51 = v - 2)%Z as ->; [| lia].
      symmetry. apply Z.div_unique with (k - (v - 2) * 2 ^ 51)%Z; [left |]; lia.
Qed.

(** The scraper trigger's interval, read from the node's
    [rule.interval[0].value] expression, is a whole number of minutes
    from 0 to 59 for every draw (binary64 rounding included), and 0 is
    drawn: the spec's random minute offset, with a zero interval among
    the outcomes. *)
Theorem trigger_minute_range id k :
  (0 <= k < two53)%Z ->
  exists e nm,
    get_path (trigger_node id) [IKey "parameters"; IKey "rule"; IKey "interval"; IIdx 0; IKey "value"] = Ok (JStr e) /\
    floor_random_expr e = Some nm /\
    (0 <= eval_floor_random nm k <= 59)%Z /\ eval_floor_random nm 0 = 0%Z.
Proof.
  intros Hk. exists "={{ Math.floor(Math.random() * 60) }}", (60%Z, 0%Z).
  split_and!; [reflexivity | reflexivity | | | reflexivity];
    unfold eval_floor_random; cbn [fst snd]; pose proof (floor_random_range k 60 Hk ltac:(lia)); lia.
Qed.

(** The rotator's code picks [uas[Math.floor(Math.random() * uas.length)]]
    from its three user agents: for every draw the index is in range, so
    the [User-Agent] header is one of the three strings, never
    [undefined]. *)
Theorem ua_pick_defined k :
  (0 <= k < two53)%Z ->
  length ua_list = 3%nat /\ is_Some (String.index 0 ua_index_expr ua_js_code) /\
  exists ua, ua_pick k = Some ua /\ ua ∈ ua_list.
Proof.
  intros Hk. split_and!; [by rewrite ua_list_eq | vm_compute; by eexists |].
  destruct (floor_random_range k (Z.of_nat (length ua_list)) Hk) as [H0 H1]; [rewrite ua_list_eq; simpl; lia |].
  unfold ua_pick. destruct (lookup_lt_is_Some_2 ua_list (Z.to_nat (round64 (k * Z.of_nat (length ua_list)) / two53)))
    as [ua Hua]; [lia |].
  exists ua. split; [done | by eapply list_elem_of_lookup_2].
Qed.

(** ** Witnesses *)

Lemma wait_jitter_uniform_witness :
  exists e nm, amount_of (Perfect.wait_node "u7") = Some (JStr e) /\ floor_random_expr e = Some nm /\
    (2 <= eval_floor_random nm (2 ^ 52) <= 5)%Z /\
    (forall v, eval_floor_random nm (2 ^ 52) = v <-> ((v - 2) * 2 ^ 51 <= 2 ^ 52 < (v - 1) * 2 ^ 51)%Z).
Proof. apply wait_jitter_uniform. unfold two53. lia. Defined.

Lemma trigger_minute_range_witness :
  exists e nm,
    get_path (trigger_node "u1") [IKey "parameters"; IKey "rule"; IKey "interval"; IIdx 0; IKey "value"] = Ok (JStr e) /\
    floor_random_expr e = Some nm /\
    (0 <= eval_floor_random nm (2 ^ 53 - 1) <= 59)%Z /\ eval_floor_random nm 0 = 0%Z.
Proof. apply trigger_minute_range. unfold two53. lia. Defined.

Lemma ua_pick_defined_witness :
  length ua_list = 3%nat /\ is_Some (String.index 0 ua_index_expr ua_js_code) /\
  exists ua, ua_pick (2 ^ 53 - 1) = Some ua /\ ua ∈ ua_list.
Proof. apply ua_pick_defined. unfold two53. lia. Defined.

End Jitter.
